(** * The extraction front-end of plaso, [plaso/frontend/extraction_frontend.py]

    A shallow embedding of [ExtractionFrontend] and the properties of its
    orchestration logic: storage file validation, engine selection,
    conditional preprocessing, parser filter preset resolution, time zone
    selection, session creation and the dispatch to the engine. *)

From Stdlib Require Import String Ascii Bool Lia.
From stdpp Require Import base option list strings gmap sorting.

Local Open Scope string_scope.

(** ** Python values *)

(** An [Optional[str]] of the source: [None] is Python's [None]. *)
Abbreviation pystr := (option string).

(** Truth value of an [Optional[str]]: [None] and [u''] are false. *)
Definition truthy (v : pystr) : bool :=
  match v with
  | None => false
  | Some "" => false
  | Some _ => true
  end.

(** [str.lower] on one character; only [A]..[Z] change. Strings are modelled
    as sequences of 8-bit characters. *)
Definition lower_ascii (c : ascii) : ascii :=
  let n := nat_of_ascii c in
  if (65 <=? n)%nat && (n <=? 90)%nat then ascii_of_nat (n + 32) else c.

Fixpoint lower (s : string) : string :=
  match s with
  | EmptyString => EmptyString
  | String c t => String (lower_ascii c) (lower t)
  end.

(** Python's [needle in hay] on strings. *)
Fixpoint str_in (needle hay : string) : bool :=
  String.prefix needle hay ||
  match hay with
  | EmptyString => false
  | String _ t => str_in needle t
  end.

(** [hay] has [needle] as a contiguous substring. *)
Definition substring_of (needle hay : string) : Prop :=
  exists before after, hay = before ++ needle ++ after.

(** ** Constants of collaborating modules *)

(** Modelled from the spec: the operating system identifiers of
    [plaso.lib.definitions] ([OS_LINUX], [OS_MACOSX], [OS_WINDOWS]) are not
    among the sources; the spec names them Linux, MacOSX and Windows. *)
Definition OS_LINUX : string := "Linux".
Definition OS_MACOSX : string := "MacOSX".
Definition OS_WINDOWS : string := "Windows".

(** ** [_GetParserFilterPreset] *)

(** [os_guess == constant] for an [Optional[str]] left operand. *)
Definition py_eq (v : pystr) (s : string) : bool :=
  match v with
  | Some t => String.eqb t s
  | None => false
  end.

Definition _GetParserFilterPreset (os_guess os_version : pystr) : pystr :=
  let parser_filter_preset : pystr := None in
  let parser_filter_preset :=
    if negb (truthy parser_filter_preset) && truthy os_version then
      let os_version := lower (default "" os_version) in
      if str_in "windows xp" os_version then Some "winxp"
      else if str_in "windows server 2000" os_version then Some "winxp"
      else if str_in "windows server 2003" os_version then Some "winxp"
      else if str_in "windows" os_version then Some "win7"
      else parser_filter_preset
    else parser_filter_preset in
  let parser_filter_preset :=
    if negb (truthy parser_filter_preset) && truthy os_guess then
      if py_eq os_guess OS_LINUX then Some "linux"
      else if py_eq os_guess OS_MACOSX then Some "macosx"
      else if py_eq os_guess OS_WINDOWS then Some "win7"
      else parser_filter_preset
    else parser_filter_preset in
  parser_filter_preset.

(** The resolver as the specification words it: step 1 when the version is
    non-empty, else step 2 on the guess, else no preset. *)
Definition Resolve_spec (osGuess osVersion : pystr) : pystr :=
  if truthy osVersion then
    let v := lower (default "" osVersion) in
    if str_in "windows xp" v then Some "winxp"
    else if str_in "windows server 2000" v then Some "winxp"
    else if str_in "windows server 2003" v then Some "winxp"
    else if str_in "windows" v then Some "win7"
    else None
  else if py_eq osGuess OS_LINUX then Some "linux"
  else if py_eq osGuess OS_MACOSX then Some "macosx"
  else if py_eq osGuess OS_WINDOWS then Some "win7"
  else None.

(** ** Exceptions, log records and the calls made to collaborators *)

Inductive exception :=
| BadConfigOption (message : string)
| IOError (message : string)
| ValueError (message : string)
| TypeError (message : string)
| AttributeError (message : string)
| OtherError (name message : string).

(** [str(exception)], as the [{0:s}] format fields use it. *)
Definition exception_str (e : exception) : string :=
  match e with
  | BadConfigOption m | IOError m | ValueError m | TypeError m
  | AttributeError m | OtherError _ m => m
  end.

Inductive outcome (A : Type) :=
| Returned (a : A)
| Raised (e : exception).
Arguments Returned {A} a.
Arguments Raised {A} e.

Inductive level := DEBUG | INFO | WARNING | ERROR.

(** Modelled from the spec: the dfVFS source type definitions
    ([dfvfs.lib.definitions]) are not among the sources; the spec lists the
    tags File, Directory, StorageMediaDevice and StorageMediaImage, any other
    string being another source type. *)
Definition SOURCE_TYPE_DIRECTORY : string := "directory".
Definition SOURCE_TYPE_FILE : string := "file".
Definition SOURCE_TYPE_STORAGE_MEDIA_DEVICE : string := "storage media device".
Definition SOURCE_TYPE_STORAGE_MEDIA_IMAGE : string := "storage media image".

Definition _DEFAULT_PROFILING_SAMPLE_RATE : Z := 1000.

Definition _SOURCE_TYPES_TO_PREPROCESS : gset string :=
  {[ SOURCE_TYPE_DIRECTORY;
     SOURCE_TYPE_STORAGE_MEDIA_DEVICE;
     SOURCE_TYPE_STORAGE_MEDIA_IMAGE ]}.

(** ** The engine and its knowledge base *)

(** Modelled from the spec: the knowledge base ([plaso.engine.knowledge_base])
    is not among the sources. It is a store of environment facts: the guessed
    operating system ([platform]), the values read with [GetValue]
    ([osversion], [time_zone_str]), the time zone in use and the path
    attributes. *)
Record KnowledgeBase := {
  platform : pystr;
  kb_values : gmap string string;
  kb_zone : string;
  kb_path_attributes : gmap string string;
}.

Definition GetValue (kb : KnowledgeBase) (identifier : string) : pystr :=
  kb_values kb !! identifier.

Definition GetPathAttributes (kb : KnowledgeBase) : gmap string string :=
  kb_path_attributes kb.

Definition kb_with_zone (zone : string) (kb : KnowledgeBase) : KnowledgeBase :=
  {| platform := platform kb; kb_values := kb_values kb; kb_zone := zone;
     kb_path_attributes := kb_path_attributes kb |}.

Inductive engine_class := SingleProcessEngine | MultiProcessEngine.

(** An engine as [_CreateEngine] constructs it; [use_zeromq] is only given to
    the multi process engine. *)
Record Engine := {
  engine_cls : engine_class;
  debug_output : bool;
  enable_profiling : bool;
  profiling_directory : pystr;
  profiling_sample_rate : Z;
  profiling_type : string;
  use_zeromq : option bool;
  knowledge_base : KnowledgeBase;
}.

Definition engine_with_knowledge_base (kb : KnowledgeBase) (e : Engine) : Engine :=
  {| engine_cls := engine_cls e; debug_output := debug_output e;
     enable_profiling := enable_profiling e;
     profiling_directory := profiling_directory e;
     profiling_sample_rate := profiling_sample_rate e;
     profiling_type := profiling_type e; use_zeromq := use_zeromq e;
     knowledge_base := kb |}.

(** ** The session *)

(** The attributes of [sessions.Session] that [_CreateSession] assigns, and
    the identifier the container is created with. *)
Record Session := {
  identifier : string;
  command_line_arguments : pystr;
  enabled_parser_names : list string;
  filter_expression : pystr;
  filter_file : pystr;
  debug_mode : bool;
  parser_filter_expression : pystr;
  preferred_encoding : pystr;
  preferred_year : option Z;
}.

Record ParserClass := { NAME : string }.

Record ZIPStorageFileWriter := {
  writer_session : Session;
  writer_path : pystr;
}.

(** ** Objects handed on to collaborators *)

(** Path specifications, find specifications, the event filter object, the
    status update callback and the processing status are never inspected
    here; they are kept abstract. *)
Class Handles := {
  PathSpec : Type;
  FindSpec : Type;
  FilterObject : Type;
  Callback : Type;
  ProcessingStatus : Type;
}.

(** The parameters of [ExtractionFrontend.ProcessSources]. *)
Module Args.
Record t `{Handles} := {
  source_path_specs : list PathSpec;
  source_type : string;
  command_line_arguments : pystr;
  enable_sigsegv_handler : bool;
  filter_file : pystr;
  force_preprocessing : bool;
  hasher_names_string : pystr;
  number_of_extraction_workers : Z;
  parser_filter_expression : pystr;
  preferred_encoding : pystr;
  preferred_year : option Z;
  process_archive_files : bool;
  single_process_mode : bool;
  status_update_callback : option Callback;
  temporary_directory : pystr;
  timezone : pystr;
}.
End Args.

(** The arguments [SingleProcessEngine.ProcessSources] is called with; the
    resolver context is left out. *)
Module single_process.
Record ProcessSources `{Handles} := {
  source_path_specs : list PathSpec;
  storage_writer : ZIPStorageFileWriter;
  filter_find_specs : option (list FindSpec);
  filter_object : option FilterObject;
  hasher_names_string : pystr;
  mount_path : pystr;
  parser_filter_expression : pystr;
  preferred_year : option Z;
  process_archive_files : bool;
  status_update_callback : option Callback;
  temporary_directory : pystr;
  text_prepend : pystr;
}.
End single_process.

(** The arguments [MultiProcessEngine.ProcessSources] is called with. *)
Module multi_process_engine.
Record ProcessSources `{Handles} := {
  session_identifier : string;
  source_path_specs : list PathSpec;
  storage_writer : ZIPStorageFileWriter;
  enable_sigsegv_handler : bool;
  filter_find_specs : option (list FindSpec);
  filter_object : option FilterObject;
  hasher_names_string : pystr;
  mount_path : pystr;
  number_of_worker_processes : Z;
  parser_filter_expression : pystr;
  preferred_year : option Z;
  process_archive_files : bool;
  status_update_callback : option Callback;
  show_memory_usage : bool;
  temporary_directory : pystr;
  text_prepend : pystr;
}.
End multi_process_engine.

(** What a run does that is visible outside the front-end object: log
    records and calls to collaborators, in the order they happen. *)
Inductive event `{Handles} :=
| Log (lvl : level) (message : string)
| CreateEngineCall (e : Engine)
| PreprocessSourcesCall (specs : list PathSpec)
| SetTimezoneCall (zone : string)
| StorageWriterCall (w : ZIPStorageFileWriter)
| SingleProcessSourcesCall (e : Engine) (d : single_process.ProcessSources)
| MultiProcessSourcesCall (e : Engine) (d : multi_process_engine.ProcessSources).

(** The collaborators: the file system, the engines, the parser and hasher
    managers, [engine_utils] and [sessions]. A call that can fail returns an
    [outcome]; a failed preprocessing leaves the knowledge base as far as it
    got. *)
Record World `{Handles} := {
  os_path_exists : string -> bool;
  os_path_isfile : string -> bool;
  os_path_dirname : string -> string;
  os_access_W_OK : string -> bool;
  new_knowledge_base : KnowledgeBase;
  engine_PreprocessSources :
    Engine -> list PathSpec -> outcome unit * KnowledgeBase;
  time_zone_supported : string -> bool;
  GetParserAndPluginNames : pystr -> outcome (list string);
  GetParsers : pystr -> outcome (list (string * ParserClass));
  GetHasherNamesFromString : pystr -> outcome (list string);
  BuildFindSpecsFromFile :
    string -> gmap string string -> outcome (list FindSpec);
  new_session_identifier : string;
  single_ProcessSources :
    Engine -> single_process.ProcessSources -> outcome ProcessingStatus;
  multi_ProcessSources :
    Engine -> multi_process_engine.ProcessSources -> outcome ProcessingStatus;
}.

(** ** The front-end object *)

(** The attributes [__init__] sets, but for [_collection_process] and
    [_resolver_context], which nothing below reads or passes on in the
    model. *)
Record ExtractionFrontend `{Handles} := {
  _debug_mode : bool;
  _enable_profiling : bool;
  _engine : option Engine;
  _filter_expression : pystr;
  _filter_object : option FilterObject;
  _hasher_names : list string;
  _mount_path : pystr;
  _parser_names : option (list string);
  _profiling_directory : pystr;
  _profiling_sample_rate : Z;
  _profiling_type : string;
  _use_zeromq : bool;
  _show_worker_memory_information : bool;
  _storage_file_path : pystr;
  _text_prepend : pystr;
}.

Section Frontend.
Context `{Handles}.

Definition __init__ : ExtractionFrontend := {|
  _debug_mode := false;
  _enable_profiling := false;
  _engine := None;
  _filter_expression := None;
  _filter_object := None;
  _hasher_names := [];
  _mount_path := None;
  _parser_names := None;
  _profiling_directory := None;
  _profiling_sample_rate := _DEFAULT_PROFILING_SAMPLE_RATE;
  _profiling_type := "all";
  _use_zeromq := true;
  _show_worker_memory_information := false;
  _storage_file_path := None;
  _text_prepend := None;
|}.

(** Attribute assignments [self._x = v]. *)
Definition set_debug_mode (v : bool) (f : ExtractionFrontend) : ExtractionFrontend :=
  {| _debug_mode := v;
     _enable_profiling := _enable_profiling f;
     _engine := _engine f;
     _filter_expression := _filter_expression f;
     _filter_object := _filter_object f;
     _hasher_names := _hasher_names f;
     _mount_path := _mount_path f;
     _parser_names := _parser_names f;
     _profiling_directory := _profiling_directory f;
     _profiling_sample_rate := _profiling_sample_rate f;
     _profiling_type := _profiling_type f;
     _use_zeromq := _use_zeromq f;
     _show_worker_memory_information := _show_worker_memory_information f;
     _storage_file_path := _storage_file_path f;
     _text_prepend := _text_prepend f |}.
Definition set_enable_profiling (v : bool) (f : ExtractionFrontend) : ExtractionFrontend :=
  {| _debug_mode := _debug_mode f;
     _enable_profiling := v;
     _engine := _engine f;
     _filter_expression := _filter_expression f;
     _filter_object := _filter_object f;
     _hasher_names := _hasher_names f;
     _mount_path := _mount_path f;
     _parser_names := _parser_names f;
     _profiling_directory := _profiling_directory f;
     _profiling_sample_rate := _profiling_sample_rate f;
     _profiling_type := _profiling_type f;
     _use_zeromq := _use_zeromq f;
     _show_worker_memory_information := _show_worker_memory_information f;
     _storage_file_path := _storage_file_path f;
     _text_prepend := _text_prepend f |}.
Definition set_engine (v : option Engine) (f : ExtractionFrontend) : ExtractionFrontend :=
  {| _debug_mode := _debug_mode f;
     _enable_profiling := _enable_profiling f;
     _engine := v;
     _filter_expression := _filter_expression f;
     _filter_object := _filter_object f;
     _hasher_names := _hasher_names f;
     _mount_path := _mount_path f;
     _parser_names := _parser_names f;
     _profiling_directory := _profiling_directory f;
     _profiling_sample_rate := _profiling_sample_rate f;
     _profiling_type := _profiling_type f;
     _use_zeromq := _use_zeromq f;
     _show_worker_memory_information := _show_worker_memory_information f;
     _storage_file_path := _storage_file_path f;
     _text_prepend := _text_prepend f |}.
Definition set_hasher_names (v : list string) (f : ExtractionFrontend) : ExtractionFrontend :=
  {| _debug_mode := _debug_mode f;
     _enable_profiling := _enable_profiling f;
     _engine := _engine f;
     _filter_expression := _filter_expression f;
     _filter_object := _filter_object f;
     _hasher_names := v;
     _mount_path := _mount_path f;
     _parser_names := _parser_names f;
     _profiling_directory := _profiling_directory f;
     _profiling_sample_rate := _profiling_sample_rate f;
     _profiling_type := _profiling_type f;
     _use_zeromq := _use_zeromq f;
     _show_worker_memory_information := _show_worker_memory_information f;
     _storage_file_path := _storage_file_path f;
     _text_prepend := _text_prepend f |}.
Definition set_parser_names (v : option (list string)) (f : ExtractionFrontend) : ExtractionFrontend :=
  {| _debug_mode := _debug_mode f;
     _enable_profiling := _enable_profiling f;
     _engine := _engine f;
     _filter_expression := _filter_expression f;
     _filter_object := _filter_object f;
     _hasher_names := _hasher_names f;
     _mount_path := _mount_path f;
     _parser_names := v;
     _profiling_directory := _profiling_directory f;
     _profiling_sample_rate := _profiling_sample_rate f;
     _profiling_type := _profiling_type f;
     _use_zeromq := _use_zeromq f;
     _show_worker_memory_information := _show_worker_memory_information f;
     _storage_file_path := _storage_file_path f;
     _text_prepend := _text_prepend f |}.
Definition set_profiling_directory (v : pystr) (f : ExtractionFrontend) : ExtractionFrontend :=
  {| _debug_mode := _debug_mode f;
     _enable_profiling := _enable_profiling f;
     _engine := _engine f;
     _filter_expression := _filter_expression f;
     _filter_object := _filter_object f;
     _hasher_names := _hasher_names f;
     _mount_path := _mount_path f;
     _parser_names := _parser_names f;
     _profiling_directory := v;
     _profiling_sample_rate := _profiling_sample_rate f;
     _profiling_type := _profiling_type f;
     _use_zeromq := _use_zeromq f;
     _show_worker_memory_information := _show_worker_memory_information f;
     _storage_file_path := _storage_file_path f;
     _text_prepend := _text_prepend f |}.
Definition set_profiling_sample_rate (v : Z) (f : ExtractionFrontend) : ExtractionFrontend :=
  {| _debug_mode := _debug_mode f;
     _enable_profiling := _enable_profiling f;
     _engine := _engine f;
     _filter_expression := _filter_expression f;
     _filter_object := _filter_object f;
     _hasher_names := _hasher_names f;
     _mount_path := _mount_path f;
     _parser_names := _parser_names f;
     _profiling_directory := _profiling_directory f;
     _profiling_sample_rate := v;
     _profiling_type := _profiling_type f;
     _use_zeromq := _use_zeromq f;
     _show_worker_memory_information := _show_worker_memory_information f;
     _storage_file_path := _storage_file_path f;
     _text_prepend := _text_prepend f |}.
Definition set_profiling_type (v : string) (f : ExtractionFrontend) : ExtractionFrontend :=
  {| _debug_mode := _debug_mode f;
     _enable_profiling := _enable_profiling f;
     _engine := _engine f;
     _filter_expression := _filter_expression f;
     _filter_object := _filter_object f;
     _hasher_names := _hasher_names f;
     _mount_path := _mount_path f;
     _parser_names := _parser_names f;
     _profiling_directory := _profiling_directory f;
     _profiling_sample_rate := _profiling_sample_rate f;
     _profiling_type := v;
     _use_zeromq := _use_zeromq f;
     _show_worker_memory_information := _show_worker_memory_information f;
     _storage_file_path := _storage_file_path f;
     _text_prepend := _text_prepend f |}.
Definition set_use_zeromq (v : bool) (f : ExtractionFrontend) : ExtractionFrontend :=
  {| _debug_mode := _debug_mode f;
     _enable_profiling := _enable_profiling f;
     _engine := _engine f;
     _filter_expression := _filter_expression f;
     _filter_object := _filter_object f;
     _hasher_names := _hasher_names f;
     _mount_path := _mount_path f;
     _parser_names := _parser_names f;
     _profiling_directory := _profiling_directory f;
     _profiling_sample_rate := _profiling_sample_rate f;
     _profiling_type := _profiling_type f;
     _use_zeromq := v;
     _show_worker_memory_information := _show_worker_memory_information f;
     _storage_file_path := _storage_file_path f;
     _text_prepend := _text_prepend f |}.
Definition set_show_worker_memory_information (v : bool) (f : ExtractionFrontend) : ExtractionFrontend :=
  {| _debug_mode := _debug_mode f;
     _enable_profiling := _enable_profiling f;
     _engine := _engine f;
     _filter_expression := _filter_expression f;
     _filter_object := _filter_object f;
     _hasher_names := _hasher_names f;
     _mount_path := _mount_path f;
     _parser_names := _parser_names f;
     _profiling_directory := _profiling_directory f;
     _profiling_sample_rate := _profiling_sample_rate f;
     _profiling_type := _profiling_type f;
     _use_zeromq := _use_zeromq f;
     _show_worker_memory_information := v;
     _storage_file_path := _storage_file_path f;
     _text_prepend := _text_prepend f |}.
Definition set_storage_file_path (v : pystr) (f : ExtractionFrontend) : ExtractionFrontend :=
  {| _debug_mode := _debug_mode f;
     _enable_profiling := _enable_profiling f;
     _engine := _engine f;
     _filter_expression := _filter_expression f;
     _filter_object := _filter_object f;
     _hasher_names := _hasher_names f;
     _mount_path := _mount_path f;
     _parser_names := _parser_names f;
     _profiling_directory := _profiling_directory f;
     _profiling_sample_rate := _profiling_sample_rate f;
     _profiling_type := _profiling_type f;
     _use_zeromq := _use_zeromq f;
     _show_worker_memory_information := _show_worker_memory_information f;
     _storage_file_path := v;
     _text_prepend := _text_prepend f |}.
Definition set_text_prepend (v : pystr) (f : ExtractionFrontend) : ExtractionFrontend :=
  {| _debug_mode := _debug_mode f;
     _enable_profiling := _enable_profiling f;
     _engine := _engine f;
     _filter_expression := _filter_expression f;
     _filter_object := _filter_object f;
     _hasher_names := _hasher_names f;
     _mount_path := _mount_path f;
     _parser_names := _parser_names f;
     _profiling_directory := _profiling_directory f;
     _profiling_sample_rate := _profiling_sample_rate f;
     _profiling_type := _profiling_type f;
     _use_zeromq := _use_zeromq f;
     _show_worker_memory_information := _show_worker_memory_information f;
     _storage_file_path := _storage_file_path f;
     _text_prepend := v |}.

(** ** Methods as state transformers with exceptions and a trace *)

(** The result of running a method on the object: how it ended, the object
    as it is left (kept when an exception is raised), and what it did. *)
Record Run (A : Type) := MkRun {
  result : outcome A;
  self_after : ExtractionFrontend;
  trace : list event;
}.
Arguments MkRun {A} result self_after trace.
Arguments result {A} r.
Arguments self_after {A} r.
Arguments trace {A} r.

Definition M (A : Type) : Type := ExtractionFrontend -> Run A.

Definition ret {A} (a : A) : M A := fun self => MkRun (Returned a) self [].

Definition raise {A} (e : exception) : M A := fun self => MkRun (Raised e) self [].

Definition bind {A B} (m : M A) (k : A -> M B) : M B := fun self =>
  let '(MkRun o s t) := m self in
  match o with
  | Returned a =>
      let '(MkRun o' s' t') := k a s in MkRun o' s' (t ++ t')
  | Raised e => MkRun (Raised e) s t
  end.

(** [try: m except <handled> as e: handler e]. [handles] tells which
    exceptions the clause catches. *)
Definition try_except {A} (m : M A) (handles : exception -> bool)
    (handler : exception -> M A) : M A := fun self =>
  let '(MkRun o s t) := m self in
  match o with
  | Returned a => MkRun (Returned a) s t
  | Raised e =>
      if handles e then
        let '(MkRun o' s' t') := handler e s in MkRun o' s' (t ++ t')
      else MkRun (Raised e) s t
  end.

Definition getattr {A} (field : ExtractionFrontend -> A) : M A :=
  fun self => MkRun (Returned (field self)) self [].

Definition setattr (assign : ExtractionFrontend -> ExtractionFrontend) : M unit :=
  fun self => MkRun (Returned tt) (assign self) [].

Definition emit (e : event) : M unit := fun self => MkRun (Returned tt) self [e].

Definition logging (lvl : level) (message : string) : M unit := emit (Log lvl message).

(** The value a collaborator returned, or the exception it raised. *)
Definition lift {A} (o : outcome A) : M A := fun self => MkRun o self [].

(** [self._engine], which is [None] until [ProcessSources] creates one. *)
Definition the_engine : M Engine := fun self =>
  match _engine self with
  | Some e => MkRun (Returned e) self []
  | None =>
      MkRun (Raised (AttributeError "'NoneType' object has no attribute")) self []
  end.

End Frontend.

Arguments MkRun {_ A} result self_after trace.
Arguments result {_ A} r.
Arguments self_after {_ A} r.
Arguments trace {_ A} r.

Declare Scope frontend_scope.
Delimit Scope frontend_scope with frontend.
Notation "x <- m ;; k" := (bind m (fun x => k))
  (at level 100, m at next level, right associativity) : frontend_scope.
Notation "m ;;; k" := (bind m (fun _ => k))
  (at level 100, right associativity) : frontend_scope.

Section Methods.
Context `{Handles} (W : World).

Local Open Scope frontend_scope.

Definition _CheckStorageFile (storage_file_path : pystr) : M unit :=
  match storage_file_path with
  | None =>
      (* [os.path.exists(None)] *)
      raise (TypeError "coercing to Unicode: need string or buffer, NoneType found")
  | Some storage_file_path =>
      (if os_path_exists W storage_file_path then
         (if negb (os_path_isfile W storage_file_path) then
            raise (BadConfigOption
              ("Storage file: " ++ storage_file_path ++
               " already exists and is not a file."))
          else ret tt) ;;;
         logging WARNING "Appending to an already existing storage file."
       else ret tt) ;;;
      let dirname := os_path_dirname W storage_file_path in
      let dirname := if negb (truthy (Some dirname)) then "." else dirname in
      if negb (os_access_W_OK W dirname) then
        raise (BadConfigOption
          ("Unable to write to storage file: " ++ storage_file_path))
      else ret tt
  end.

Definition _CreateEngine (single_process_mode : bool) : M Engine :=
  debug_mode <- getattr _debug_mode ;;
  enable_profiling <- getattr _enable_profiling ;;
  profiling_directory <- getattr _profiling_directory ;;
  profiling_sample_rate <- getattr _profiling_sample_rate ;;
  profiling_type <- getattr _profiling_type ;;
  use_zeromq <- getattr _use_zeromq ;;
  let engine :=
    if single_process_mode then
      {| engine_cls := SingleProcessEngine;
         debug_output := debug_mode;
         enable_profiling := enable_profiling;
         profiling_directory := profiling_directory;
         profiling_sample_rate := profiling_sample_rate;
         profiling_type := profiling_type;
         use_zeromq := None;
         knowledge_base := new_knowledge_base W |}
    else
      {| engine_cls := MultiProcessEngine;
         debug_output := debug_mode;
         enable_profiling := enable_profiling;
         profiling_directory := profiling_directory;
         profiling_sample_rate := profiling_sample_rate;
         profiling_type := profiling_type;
         use_zeromq := Some use_zeromq;
         knowledge_base := new_knowledge_base W |} in
  emit (CreateEngineCall engine) ;;;
  ret engine.

Definition _CreateSession (command_line_arguments filter_file
    parser_filter_expression preferred_encoding : pystr)
    (preferred_year : option Z) : M Session :=
  let session_identifier := new_session_identifier W in
  parser_and_plugin_names <-
    lift (GetParserAndPluginNames W parser_filter_expression) ;;
  filter_expression <- getattr _filter_expression ;;
  debug_mode <- getattr _debug_mode ;;
  ret {| identifier := session_identifier;
         command_line_arguments := command_line_arguments;
         enabled_parser_names := parser_and_plugin_names;
         filter_expression := filter_expression;
         filter_file := filter_file;
         debug_mode := debug_mode;
         parser_filter_expression := parser_filter_expression;
         preferred_encoding := preferred_encoding;
         preferred_year := preferred_year |}.

Definition is_IOError (e : exception) : bool :=
  match e with IOError _ => true | _ => false end.

Definition is_ValueError (e : exception) : bool :=
  match e with ValueError _ => true | _ => false end.

(** [self._engine.PreprocessSources(...)]: the engine fills its knowledge
    base and returns, or raises. *)
Definition Engine_PreprocessSources (source_path_specs : list PathSpec) : M unit :=
  engine <- the_engine ;;
  emit (PreprocessSourcesCall source_path_specs) ;;;
  let '(ended, kb) := engine_PreprocessSources W engine source_path_specs in
  setattr (set_engine (Some (engine_with_knowledge_base kb engine))) ;;;
  lift ended.

(** The result tells whether the [except] clause returned early. *)
Definition _PreprocessSources (source_path_specs : list PathSpec) : M unit :=
  logging DEBUG "Starting preprocessing." ;;;
  returned <-
    try_except
      (Engine_PreprocessSources source_path_specs ;;; ret false)
      is_IOError
      (fun exception =>
         logging ERROR
           ("Unable to preprocess with error: " ++ exception_str exception) ;;;
         ret true) ;;
  if returned : bool then ret tt
  else logging DEBUG "Preprocessing done.".

(** Modelled from the spec: [knowledge_base.SetTimezone] is not among the
    sources. It sets the time zone, or raises [ValueError] for a time zone it
    does not support and leaves the time zone as it is. *)
Definition KnowledgeBase_SetTimezone (zone : string) : M unit :=
  engine <- the_engine ;;
  emit (SetTimezoneCall zone) ;;;
  if time_zone_supported W zone then
    setattr (set_engine (Some
      (engine_with_knowledge_base
         (kb_with_zone zone (knowledge_base engine)) engine)))
  else raise (ValueError ("Unsupported timezone: " ++ zone)).

Definition _SetTimezone (timezone : pystr) : M unit :=
  engine <- the_engine ;;
  let time_zone_str := GetValue (knowledge_base engine) "time_zone_str" in
  let default_timezone :=
    if truthy time_zone_str then time_zone_str else timezone in
  let default_timezone :=
    if negb (truthy default_timezone) then Some "UTC" else default_timezone in
  let default_timezone := default "" default_timezone in
  logging INFO ("Setting timezone to: " ++ default_timezone) ;;;
  try_except
    (KnowledgeBase_SetTimezone default_timezone)
    is_ValueError
    (fun _ =>
       engine <- the_engine ;;
       logging WARNING
         ("Unsupported time zone: " ++ default_timezone ++ ", defaulting to " ++
          kb_zone (knowledge_base engine))).

Definition DisableProfiling : M unit :=
  setattr (set_enable_profiling false).

Definition EnableProfiling (profiling_directory : pystr)
    (profiling_sample_rate : Z) (profiling_type : string) : M unit :=
  setattr (set_enable_profiling true) ;;;
  setattr (set_profiling_directory profiling_directory) ;;;
  setattr (set_profiling_sample_rate profiling_sample_rate) ;;;
  setattr (set_profiling_type profiling_type).

Definition ProcessSources (a : Args.t) : M ProcessingStatus :=
  storage_file_path <- getattr _storage_file_path ;;
  _CheckStorageFile storage_file_path ;;;
  let single_process_mode :=
    if String.eqb (Args.source_type a) SOURCE_TYPE_FILE then true
    else Args.single_process_mode a in
  engine <- _CreateEngine single_process_mode ;;
  setattr (set_engine (Some engine)) ;;;
  (if Args.force_preprocessing a
      || bool_decide (Args.source_type a ∈ _SOURCE_TYPES_TO_PREPROCESS)
   then _PreprocessSources (Args.source_path_specs a)
   else ret tt) ;;;
  parser_filter_expression <-
    (if negb (truthy (Args.parser_filter_expression a)) then
       engine <- the_engine ;;
       let guessed_os := platform (knowledge_base engine) in
       let os_version := GetValue (knowledge_base engine) "osversion" in
       let parser_filter_expression :=
         _GetParserFilterPreset guessed_os os_version in
       (if truthy parser_filter_expression then
          logging INFO
            ("Parser filter expression changed to: " ++
             default "" parser_filter_expression)
        else ret tt) ;;;
       ret parser_filter_expression
     else ret (Args.parser_filter_expression a)) ;;
  setattr (set_parser_names (Some [])) ;;;
  parsers <- lift (GetParsers W parser_filter_expression) ;;
  setattr (set_parser_names (Some (map (fun p => NAME p.2) parsers))) ;;;
  setattr (set_hasher_names []) ;;;
  hasher_names <-
    lift (GetHasherNamesFromString W (Args.hasher_names_string a)) ;;
  setattr (set_hasher_names hasher_names) ;;;
  _SetTimezone (Args.timezone a) ;;;
  filter_find_specs <-
    (if truthy (Args.filter_file a) then
       engine <- the_engine ;;
       let path_attributes := GetPathAttributes (knowledge_base engine) in
       specs <- lift (BuildFindSpecsFromFile W
                        (default "" (Args.filter_file a)) path_attributes) ;;
       ret (Some specs)
     else ret None) ;;
  session <- _CreateSession (Args.command_line_arguments a)
               (Args.filter_file a) parser_filter_expression
               (Args.preferred_encoding a) (Args.preferred_year a) ;;
  storage_file_path <- getattr _storage_file_path ;;
  let storage_writer :=
    {| writer_session := session; writer_path := storage_file_path |} in
  emit (StorageWriterCall storage_writer) ;;;
  engine <- the_engine ;;
  filter_object <- getattr _filter_object ;;
  mount_path <- getattr _mount_path ;;
  text_prepend <- getattr _text_prepend ;;
  show_memory <- getattr _show_worker_memory_information ;;
  if single_process_mode then
    logging DEBUG "Starting extraction in single process mode." ;;;
    let d :=
      {| single_process.source_path_specs := Args.source_path_specs a;
         single_process.storage_writer := storage_writer;
         single_process.filter_find_specs := filter_find_specs;
         single_process.filter_object := filter_object;
         single_process.hasher_names_string := Args.hasher_names_string a;
         single_process.mount_path := mount_path;
         single_process.parser_filter_expression := parser_filter_expression;
         single_process.preferred_year := Args.preferred_year a;
         single_process.process_archive_files := Args.process_archive_files a;
         single_process.status_update_callback := Args.status_update_callback a;
         single_process.temporary_directory := Args.temporary_directory a;
         single_process.text_prepend := text_prepend |} in
    emit (SingleProcessSourcesCall engine d) ;;;
    lift (single_ProcessSources W engine d)
  else
    logging DEBUG "Starting extraction in multi process mode." ;;;
    let d :=
      {| multi_process_engine.session_identifier := identifier session;
         multi_process_engine.source_path_specs := Args.source_path_specs a;
         multi_process_engine.storage_writer := storage_writer;
         multi_process_engine.enable_sigsegv_handler :=
           Args.enable_sigsegv_handler a;
         multi_process_engine.filter_find_specs := filter_find_specs;
         multi_process_engine.filter_object := filter_object;
         multi_process_engine.hasher_names_string := Args.hasher_names_string a;
         multi_process_engine.mount_path := mount_path;
         multi_process_engine.number_of_worker_processes :=
           Args.number_of_extraction_workers a;
         multi_process_engine.parser_filter_expression :=
           parser_filter_expression;
         multi_process_engine.preferred_year := Args.preferred_year a;
         multi_process_engine.process_archive_files :=
           Args.process_archive_files a;
         multi_process_engine.status_update_callback :=
           Args.status_update_callback a;
         multi_process_engine.show_memory_usage := show_memory;
         multi_process_engine.temporary_directory :=
           Args.temporary_directory a;
         multi_process_engine.text_prepend := text_prepend |} in
    emit (MultiProcessSourcesCall engine d) ;;;
    lift (multi_ProcessSources W engine d).

Definition SetDebugMode (enable_debug : bool) : M unit :=
  setattr (set_debug_mode enable_debug).

Definition SetShowMemoryInformation (show_memory : bool) : M unit :=
  setattr (set_show_worker_memory_information show_memory).

Definition SetStorageFile (storage_file_path : pystr) : M unit :=
  setattr (set_storage_file_path storage_file_path).

Definition SetTextPrepend (text_prepend : pystr) : M unit :=
  setattr (set_text_prepend text_prepend).

Definition SetUseZeroMQ (use_zeromq : bool) : M unit :=
  setattr (set_use_zeromq use_zeromq).

End Methods.

(** * Properties *)

(** ** Strings *)

Lemma string_app_cons (c : ascii) (s t : string) :
  String c s ++ t = String c (s ++ t).
Proof. reflexivity. Qed.

Lemma string_app_assoc (s t u : string) : (s ++ t) ++ u = s ++ t ++ u.
Proof.
  induction s as [|c s IH]; [reflexivity|].
  by rewrite !string_app_cons, IH.
Qed.

Lemma string_prefix_app (n h : string) :
  String.prefix n h = true <-> exists after, h = n ++ after.
Proof.
  revert h. induction n as [|c n IH]; intros h; simpl.
  - split; [intros _; exists h; reflexivity | by destruct h].
  - destruct h as [|d h]; simpl.
    + split; [done | intros [a Ha]; discriminate].
    + destruct (Ascii.ascii_dec c d) as [->|Hne].
      * rewrite IH. split; intros [a Ha]; exists a.
        -- by rewrite Ha.
        -- by injection Ha.
      * split; [done | intros [a Ha]; injection Ha; congruence].
Qed.

Lemma str_in_substring (n h : string) :
  str_in n h = true <-> substring_of n h.
Proof.
  unfold substring_of. induction h as [|d h IH].
  - cbn [str_in]. rewrite orb_false_r, string_prefix_app. split.
    + intros [a Ha]. by exists "", a.
    + intros [[|b0 b] [a Ha]]; [by exists a | discriminate].
  - cbn [str_in]. rewrite orb_true_iff, IH, string_prefix_app. split.
    + intros [[a Ha] | (b & a & Ha)].
      * by exists "", a.
      * exists (String d b), a. simpl. by rewrite Ha.
    + intros [[|b0 b] [a Ha]].
      * left. by exists a.
      * right. exists b, a. simpl in Ha. by injection Ha.
Qed.

Lemma str_in_not_substring (n h : string) :
  str_in n h = false <-> ~ substring_of n h.
Proof.
  rewrite <- str_in_substring. by destruct (str_in n h).
Qed.

Lemma truthy_None_lower (v : pystr) :
  truthy v = false -> lower (default "" v) = "".
Proof. by destruct v as [[|c s]|]. Qed.

(** ** Parser filter preset resolution *)

Lemma py_eq_spec (v : pystr) (s : string) : py_eq v s = true <-> v = Some s.
Proof.
  destruct v as [t|]; simpl; [|done].
  rewrite String.eqb_eq. split; [by intros -> | by intros [= ->]].
Qed.

Lemma py_eq_false (v : pystr) (s : string) : py_eq v s = false <-> v <> Some s.
Proof. rewrite <- py_eq_spec. by destruct (py_eq v s). Qed.

(** The preset the operating system guess alone selects. *)
Lemma preset_of_guess_only (os_guess os_version : pystr) :
  str_in "windows" (lower (default "" os_version)) = false ->
  _GetParserFilterPreset os_guess os_version =
    if py_eq os_guess OS_LINUX then Some "linux"
    else if py_eq os_guess OS_MACOSX then Some "macosx"
    else if py_eq os_guess OS_WINDOWS then Some "win7"
    else None.
Proof.
  intros Hw. unfold _GetParserFilterPreset.
  assert (Hsub : forall n, str_in n (lower (default "" os_version)) = true ->
                 substring_of "windows" n ->
                 False).
  { intros n Hn (b & a & ->). apply str_in_substring in Hn as (b' & a' & Hn).
    apply str_in_not_substring in Hw. apply Hw.
    exists (b' ++ b), (a ++ a'). rewrite Hn.
    by rewrite !string_app_assoc. }
  destruct (str_in "windows xp" _) eqn:H1.
  { exfalso. apply (Hsub _ H1). by exists "", " xp". }
  destruct (str_in "windows server 2000" _) eqn:H2.
  { exfalso. apply (Hsub _ H2). by exists "", " server 2000". }
  destruct (str_in "windows server 2003" _) eqn:H3.
  { exfalso. apply (Hsub _ H3). by exists "", " server 2003". }
  rewrite Hw. simpl.
  destruct (truthy os_version); simpl;
    destruct os_guess as [[|c g]|]; simpl; try done;
    repeat (match goal with |- context [if ?b then _ else _] => destruct b end);
    done.
Qed.

Lemma str_in_truthy (c : ascii) (n : string) (v : pystr) :
  str_in (String c n) (lower (default "" v)) = true -> truthy v = true.
Proof.
  destruct (truthy v) eqn:Hv; [done|].
  by rewrite (truthy_None_lower v Hv).
Qed.

(** The preset the operating system version selects, when it names Windows. *)
Lemma preset_of_windows_version (os_guess os_version : pystr) :
  str_in "windows" (lower (default "" os_version)) = true ->
  _GetParserFilterPreset os_guess os_version =
    let v := lower (default "" os_version) in
    if str_in "windows xp" v || str_in "windows server 2000" v
       || str_in "windows server 2003" v
    then Some "winxp" else Some "win7".
Proof.
  intros Hw. unfold _GetParserFilterPreset.
  rewrite (str_in_truthy _ _ _ Hw), Hw. cbn [negb truthy andb].
  destruct (str_in "windows xp" _); [done|].
  destruct (str_in "windows server 2000" _); [done|].
  by destruct (str_in "windows server 2003" _).
Qed.

(** C1, as amended: the version step applies when the lower-cased version
    contains "windows" ("windows xp", "windows server 2000" and
    "windows server 2003" select winxp, any other Windows version win7); in
    every other case, the version being empty or naming no Windows, the guess
    decides (Linux, MacOSX and Windows select linux, macosx and win7) and any
    other guess selects no preset. The six examples of the specification
    hold. *)
Theorem preset_resolution (os_guess os_version : pystr) :
  let v := lower (default "" os_version) in
  let preset := _GetParserFilterPreset os_guess os_version in
  (substring_of "windows xp" v -> preset = Some "winxp") /\
  (substring_of "windows server 2000" v -> preset = Some "winxp") /\
  (substring_of "windows server 2003" v -> preset = Some "winxp") /\
  (substring_of "windows" v ->
   ~ substring_of "windows xp" v ->
   ~ substring_of "windows server 2000" v ->
   ~ substring_of "windows server 2003" v ->
   preset = Some "win7") /\
  (~ substring_of "windows" v ->
   (os_guess = Some OS_LINUX -> preset = Some "linux") /\
   (os_guess = Some OS_MACOSX -> preset = Some "macosx") /\
   (os_guess = Some OS_WINDOWS -> preset = Some "win7") /\
   (os_guess <> Some OS_LINUX -> os_guess <> Some OS_MACOSX ->
    os_guess <> Some OS_WINDOWS -> preset = None)) /\
  _GetParserFilterPreset (Some "") (Some "Windows XP") = Some "winxp" /\
  _GetParserFilterPreset (Some "") (Some "Windows Server 2003 R2") = Some "winxp" /\
  _GetParserFilterPreset (Some "") (Some "Windows 10") = Some "win7" /\
  _GetParserFilterPreset (Some OS_LINUX) (Some "") = Some "linux" /\
  _GetParserFilterPreset (Some OS_MACOSX) (Some "") = Some "macosx" /\
  _GetParserFilterPreset (Some "") (Some "") = None.
Proof.
  intros v preset.
  assert (Hcontains : forall n, substring_of ("windows" ++ n) v ->
                      str_in "windows" v = true).
  { intros n (b & a & Hv). apply str_in_substring. exists b, (n ++ a).
    by rewrite Hv, string_app_assoc. }
  assert (Hxp : forall n, substring_of ("windows" ++ n) v ->
                (n = " xp" \/ n = " server 2000" \/ n = " server 2003") ->
                preset = Some "winxp").
  { intros n Hn Hcase. subst preset.
    rewrite (preset_of_windows_version _ _ (Hcontains n Hn)). cbv zeta.
    apply str_in_substring in Hn. unfold v in Hn.
    destruct Hcase as [-> | [-> | ->]]; cbn [String.append] in Hn;
      change ("windows" ++ " xp") with "windows xp" in Hn;
      change ("windows" ++ " server 2000") with "windows server 2000" in Hn;
      change ("windows" ++ " server 2003") with "windows server 2003" in Hn;
      rewrite Hn; by rewrite ?orb_true_r. }
  split; [intros Hs; apply (Hxp " xp" Hs); auto|].
  split; [intros Hs; apply (Hxp " server 2000" Hs); auto|].
  split; [intros Hs; apply (Hxp " server 2003" Hs); auto|].
  split.
  { intros Hw H1 H2 H3. subst preset.
    apply str_in_substring in Hw. apply str_in_not_substring in H1, H2, H3.
    rewrite (preset_of_windows_version _ _ Hw). cbv zeta.
    unfold v in H1, H2, H3. by rewrite H1, H2, H3. }
  split.
  { intros Hw. apply str_in_not_substring in Hw. subst preset.
    rewrite (preset_of_guess_only _ _ Hw).
    repeat split.
    - by intros ->.
    - by intros ->.
    - by intros ->.
    - intros H1 H2 H3. apply py_eq_false in H1, H2, H3. by rewrite H1, H2, H3. }
  repeat split.
Qed.

Lemma preset_resolution_witness :
  _GetParserFilterPreset (Some OS_MACOSX) (Some "Debian GNU/Linux 8") =
    Some "macosx".
Proof.
  pose proof (preset_resolution (Some OS_MACOSX) (Some "Debian GNU/Linux 8"))
    as (_ & _ & _ & _ & Hguess & _).
  destruct Hguess as (_ & Hmacosx & _).
  - apply str_in_not_substring. reflexivity.
  - apply Hmacosx. reflexivity.
Defined.

(** C1 as the specification states it, with the guess consulted only when
    the version is empty, does not describe the code: a non-empty version
    that names no Windows still lets the guess decide. *)
Lemma preset_resolution_counterexample :
  ~ (forall os_guess os_version : pystr,
       _GetParserFilterPreset os_guess os_version =
       Resolve_spec os_guess os_version).
Proof.
  intros Hall.
  specialize (Hall (Some OS_LINUX) (Some "Ubuntu 14.04")).
  vm_compute in Hall. discriminate Hall.
Qed.

(** C10: a non-empty version that contains none of the Windows substrings
    does not end the resolution; the guess is still consulted, and
    [Resolve(Linux, "Ubuntu 14.04")] is linux. *)
Theorem preset_version_without_windows (os_guess os_version : pystr) :
  let v := lower (default "" os_version) in
  truthy os_version = true ->
  ~ substring_of "windows xp" v ->
  ~ substring_of "windows server 2000" v ->
  ~ substring_of "windows server 2003" v ->
  ~ substring_of "windows" v ->
  let preset := _GetParserFilterPreset os_guess os_version in
  preset = _GetParserFilterPreset os_guess None /\
  (os_guess = Some OS_LINUX -> preset = Some "linux") /\
  (os_guess = Some OS_MACOSX -> preset = Some "macosx") /\
  (os_guess = Some OS_WINDOWS -> preset = Some "win7") /\
  _GetParserFilterPreset (Some OS_LINUX) (Some "Ubuntu 14.04") = Some "linux".
Proof.
  intros v _ _ _ _ Hw preset. apply str_in_not_substring in Hw. subst preset.
  rewrite (preset_of_guess_only _ _ Hw).
  rewrite (preset_of_guess_only os_guess None) by reflexivity.
  repeat split; by intros ->.
Qed.

Lemma preset_version_without_windows_witness :
  _GetParserFilterPreset (Some OS_LINUX) (Some "Ubuntu 14.04") = Some "linux".
Proof.
  refine (proj1 (proj2 (preset_version_without_windows
            (Some OS_LINUX) (Some "Ubuntu 14.04") _ _ _ _ _)) _);
    try reflexivity; apply str_in_not_substring; reflexivity.
Defined.

(** ** Running methods *)

Section Runs.
Context `{Handles} (W : World).

Lemma bind_returned {A B} (m : M A) (k : A -> M B) self a :
  result (m self) = Returned a ->
  bind m k self =
    MkRun (result (k a (self_after (m self))))
          (self_after (k a (self_after (m self))))
          (trace (m self) ++ trace (k a (self_after (m self)))).
Proof.
  unfold bind. destruct (m self) as [o s t]; simpl. intros ->.
  by destruct (k a s).
Qed.

Lemma bind_raised {A B} (m : M A) (k : A -> M B) self e :
  result (m self) = Raised e ->
  bind m k self = MkRun (Raised e) (self_after (m self)) (trace (m self)).
Proof. unfold bind. destruct (m self) as [o s t]; simpl. by intros ->. Qed.

(** The directory [_CheckStorageFile] tests for write access. *)
Definition storage_directory (storage_file_path : string) : string :=
  let dirname := os_path_dirname W storage_file_path in
  if negb (truthy (Some dirname)) then "." else dirname.

Lemma CheckStorageFile_cases (storage_file_path : string) self :
  _CheckStorageFile W (Some storage_file_path) self =
    if os_path_exists W storage_file_path
       && negb (os_path_isfile W storage_file_path)
    then MkRun (Raised (BadConfigOption
                  ("Storage file: " ++ storage_file_path ++
                   " already exists and is not a file."))) self []
    else
      let warned :=
        if os_path_exists W storage_file_path
        then [Log WARNING "Appending to an already existing storage file."]
        else [] in
      if os_access_W_OK W (storage_directory storage_file_path)
      then MkRun (Returned tt) self warned
      else MkRun (Raised (BadConfigOption
                    ("Unable to write to storage file: " ++ storage_file_path)))
                 self warned.
Proof.
  unfold _CheckStorageFile, storage_directory, bind, logging, emit, ret, raise.
  destruct (os_path_exists W storage_file_path),
    (os_path_isfile W storage_file_path); simpl;
    try done;
    by match goal with |- context [os_access_W_OK W ?d] =>
         destruct (os_access_W_OK W d) end.
Qed.

Lemma CheckStorageFile_self (storage_file_path : pystr) self :
  self_after (_CheckStorageFile W storage_file_path self) = self.
Proof.
  destruct storage_file_path as [p|]; [|done].
  rewrite CheckStorageFile_cases.
  by repeat (match goal with |- context [if ?b then _ else _] => destruct b end).
Qed.

Lemma CheckStorageFile_trace (storage_file_path : pystr) self ev :
  ev ∈ trace (_CheckStorageFile W storage_file_path self) ->
  ev = Log WARNING "Appending to an already existing storage file.".
Proof.
  destruct storage_file_path as [p|]; [|by intros ?%elem_of_nil].
  rewrite CheckStorageFile_cases.
  repeat (match goal with |- context [if ?b then _ else _] => destruct b end);
    simpl; by (intros ?%elem_of_nil || intros ?%list_elem_of_singleton).
Qed.

(** A failed validation is where [ProcessSources] ends. *)
Lemma ProcessSources_invalid_storage (a : Args.t) self e :
  result (_CheckStorageFile W (_storage_file_path self) self) = Raised e ->
  ProcessSources W a self =
    MkRun (Raised e) self
          (trace (_CheckStorageFile W (_storage_file_path self) self)).
Proof.
  intros Hcheck. unfold ProcessSources.
  rewrite (bind_returned _ _ self (_storage_file_path self)) by done.
  cbn [getattr self_after trace result app].
  rewrite (bind_raised _ _ _ e Hcheck).
  by rewrite CheckStorageFile_self.
Qed.

(** *** Postconditions of runs

    [wp m self Q]: running [m] on [self] ends in an outcome, an object and a
    trace that satisfy [Q]. *)
Definition wp {A} (m : M A) (self : ExtractionFrontend)
    (Q : outcome A -> ExtractionFrontend -> list event -> Prop) : Prop :=
  Q (result (m self)) (self_after (m self)) (trace (m self)).

(** The postcondition a continuation [k] has to establish for [bind _ k] to
    establish [Q], after a first part that left outcome [o], object [s] and
    trace [t]. *)
Definition then_wp {A B} (k : A -> M B)
    (Q : outcome B -> ExtractionFrontend -> list event -> Prop)
    (o : outcome A) (s : ExtractionFrontend) (t : list event) : Prop :=
  match o with
  | Returned a => wp (k a) s (fun o' s' t' => Q o' s' (t ++ t')%list)
  | Raised e => Q (Raised e) s t
  end.

Lemma wp_bind {A B} (m : M A) (k : A -> M B) self Q :
  wp m self (then_wp k Q) -> wp (bind m k) self Q.
Proof.
  unfold then_wp, bind. unfold wp.
  destruct (m self) as [[a|e] s t]; simpl; [|done].
  by destruct (k a s) as [o' s' t'].
Qed.

Lemma wp_mono {A} (m : M A) self (Q Q' : _ -> _ -> _ -> Prop) :
  wp m self Q -> (forall o s t, Q o s t -> Q' o s t) -> wp m self Q'.
Proof. unfold wp. auto. Qed.

(** A call whose effect is summarised by [Mid]. *)
Lemma wp_call {A B} (m : M A) (k : A -> M B) self Mid Q :
  wp m self Mid ->
  (forall o s t, Mid o s t -> then_wp k Q o s t) ->
  wp (bind m k) self Q.
Proof. intros Hm Hk. apply wp_bind. by apply (wp_mono _ _ Mid). Qed.

Lemma wp_getattr {A B} (field : ExtractionFrontend -> A) (k : A -> M B) self Q :
  wp (k (field self)) self Q -> wp (bind (getattr field) k) self Q.
Proof. intros Hk. apply wp_bind. exact Hk. Qed.

Lemma wp_setattr {B} assign (k : unit -> M B) self Q :
  wp (k tt) (assign self) Q -> wp (bind (setattr assign) k) self Q.
Proof. intros Hk. apply wp_bind. exact Hk. Qed.

Lemma wp_emit {B} ev (k : unit -> M B) self Q :
  wp (k tt) self (fun o s t => Q o s (ev :: t)) -> wp (bind (emit ev) k) self Q.
Proof. intros Hk. apply wp_bind. exact Hk. Qed.

Lemma wp_ret {A B} (a : A) (k : A -> M B) self Q :
  wp (k a) self Q -> wp (bind (ret a) k) self Q.
Proof. intros Hk. apply wp_bind. exact Hk. Qed.

Lemma wp_lift {A B} (o : outcome A) (k : A -> M B) self Q :
  then_wp k Q o self [] -> wp (bind (lift o) k) self Q.
Proof. intros Hk. apply wp_bind. exact Hk. Qed.

Lemma wp_the_engine {B} (k : Engine -> M B) self e Q :
  _engine self = Some e ->
  wp (k e) self Q -> wp (bind the_engine k) self Q.
Proof.
  intros He Hk. apply wp_bind. unfold wp, the_engine. rewrite He. exact Hk.
Qed.

(** *** What the methods called by [ProcessSources] do *)

(** The engine [_CreateEngine] constructs. *)
Definition new_engine (single_process_mode : bool) (self : ExtractionFrontend)
    : Engine :=
  {| engine_cls :=
       if single_process_mode then SingleProcessEngine else MultiProcessEngine;
     debug_output := _debug_mode self;
     enable_profiling := _enable_profiling self;
     profiling_directory := _profiling_directory self;
     profiling_sample_rate := _profiling_sample_rate self;
     profiling_type := _profiling_type self;
     use_zeromq := if single_process_mode then None else Some (_use_zeromq self);
     knowledge_base := new_knowledge_base W |}.

Lemma CreateEngine_run (single_process_mode : bool) self :
  _CreateEngine W single_process_mode self =
    MkRun (Returned (new_engine single_process_mode self)) self
          [CreateEngineCall (new_engine single_process_mode self)].
Proof. by destruct single_process_mode. Qed.

(** How [_PreprocessSources] ends, given how the engine's preprocessing
    ended: an [IOError] is not passed on. *)
Definition preprocessing_result (ended : outcome unit) : outcome unit :=
  match ended with
  | Returned _ => Returned tt
  | Raised e => if is_IOError e then Returned tt else Raised e
  end.

Definition preprocessing_log (ended : outcome unit) : list event :=
  match ended with
  | Returned _ => [Log DEBUG "Preprocessing done."]
  | Raised e =>
      if is_IOError e
      then [Log ERROR ("Unable to preprocess with error: " ++ exception_str e)]
      else []
  end.

Lemma PreprocessSources_run (source_path_specs : list PathSpec) self e :
  _engine self = Some e ->
  _PreprocessSources W source_path_specs self =
    let ended := engine_PreprocessSources W e source_path_specs in
    MkRun (preprocessing_result ended.1)
          (set_engine (Some (engine_with_knowledge_base ended.2 e)) self)
          (Log DEBUG "Starting preprocessing."
           :: PreprocessSourcesCall source_path_specs
           :: preprocessing_log ended.1).
Proof.
  intros He.
  unfold _PreprocessSources, Engine_PreprocessSources, try_except, bind,
    the_engine, logging, emit, setattr, lift, ret.
  rewrite He. simpl.
  destruct (engine_PreprocessSources W e source_path_specs) as [[[]|ex] kb];
    simpl; [done|].
  by destruct (is_IOError ex).
Qed.

(** The time zone [_SetTimezone] asks the knowledge base to set. *)
Definition selected_time_zone (kb : KnowledgeBase) (timezone : pystr) : string :=
  let time_zone_str := GetValue kb "time_zone_str" in
  let default_timezone :=
    if truthy time_zone_str then time_zone_str else timezone in
  let default_timezone :=
    if negb (truthy default_timezone) then Some "UTC" else default_timezone in
  default "" default_timezone.

Lemma SetTimezone_run (timezone : pystr) self e :
  _engine self = Some e ->
  _SetTimezone W timezone self =
    let zone := selected_time_zone (knowledge_base e) timezone in
    if time_zone_supported W zone then
      MkRun (Returned tt)
            (set_engine (Some (engine_with_knowledge_base
                                 (kb_with_zone zone (knowledge_base e)) e)) self)
            [Log INFO ("Setting timezone to: " ++ zone); SetTimezoneCall zone]
    else
      MkRun (Returned tt) self
            [Log INFO ("Setting timezone to: " ++ zone); SetTimezoneCall zone;
             Log WARNING ("Unsupported time zone: " ++ zone ++
                          ", defaulting to " ++ kb_zone (knowledge_base e))].
Proof.
  intros He.
  unfold _SetTimezone, KnowledgeBase_SetTimezone, try_except, bind,
    the_engine, logging, emit, setattr, raise, selected_time_zone.
  rewrite He. simpl. rewrite He. simpl.
  destruct (time_zone_supported W _); simpl; [done|].
  by rewrite He.
Qed.

Lemma CreateSession_run (command_line_arguments filter_file
    parser_filter_expression preferred_encoding : pystr)
    (preferred_year : option Z) self :
  _CreateSession W command_line_arguments filter_file parser_filter_expression
      preferred_encoding preferred_year self =
    match GetParserAndPluginNames W parser_filter_expression with
    | Returned names =>
        MkRun (Returned
                 {| identifier := new_session_identifier W;
                    command_line_arguments := command_line_arguments;
                    enabled_parser_names := names;
                    filter_expression := _filter_expression self;
                    filter_file := filter_file;
                    debug_mode := _debug_mode self;
                    parser_filter_expression := parser_filter_expression;
                    preferred_encoding := preferred_encoding;
                    preferred_year := preferred_year |}) self []
    | Raised e => MkRun (Raised e) self []
    end.
Proof.
  unfold _CreateSession, bind, lift, getattr, ret.
  by destruct (GetParserAndPluginNames W parser_filter_expression).
Qed.

End Runs.

(** ** The run of [ProcessSources] *)

Section Orchestration.
Context `{Handles} (W : World).

(** *** Runs whose events all satisfy a property *)

Definition traced (E : event -> Prop) {A} (o : outcome A)
    (s : ExtractionFrontend) (t : list event) : Prop :=
  Forall E t.

Lemma traced_call {A B} (E : event -> Prop) (m : M A) (k : A -> M B) self
    (Mid : outcome A -> ExtractionFrontend -> list event -> Prop) :
  wp m self Mid ->
  (forall o s t, Mid o s t ->
     Forall E t /\ forall a, o = Returned a -> wp (k a) s (traced E)) ->
  wp (bind m k) self (traced E).
Proof.
  intros Hm Hk. apply (wp_call _ _ _ Mid); [done|].
  intros o s t [Ht Hcont]%Hk. destruct o as [a|e]; [|done].
  specialize (Hcont a eq_refl). unfold then_wp, wp, traced in *.
  by apply Forall_app.
Qed.

Lemma traced_emit {B} (E : event -> Prop) ev (k : unit -> M B) self :
  E ev -> wp (k tt) self (traced E) -> wp (bind (emit ev) k) self (traced E).
Proof.
  intros Hev Hk. apply wp_emit. unfold wp, traced in *. by constructor.
Qed.

Lemma traced_lift {A B} (E : event -> Prop) (o : outcome A) (k : A -> M B) self :
  (forall a, o = Returned a -> wp (k a) self (traced E)) ->
  wp (bind (lift o) k) self (traced E).
Proof.
  intros Hk. apply wp_lift. destruct o as [a|e]; [|by constructor].
  exact (Hk a eq_refl).
Qed.

Lemma wp_run {A} (m : M A) self :
  wp m self (fun o s t => m self = MkRun o s t).
Proof. unfold wp. by destruct (m self). Qed.

(** *** The object while [ProcessSources] runs *)

(** The settings [ProcessSources] reads but does not assign. *)
Definition same_settings (self s : ExtractionFrontend) : Prop :=
  _debug_mode s = _debug_mode self /\
  _filter_expression s = _filter_expression self /\
  _filter_object s = _filter_object self /\
  _mount_path s = _mount_path self /\
  _show_worker_memory_information s = _show_worker_memory_information self /\
  _storage_file_path s = _storage_file_path self /\
  _text_prepend s = _text_prepend self.

(** [s] is [self] with engine [e] and, possibly, other parser and hasher
    names. *)
Definition running (self : ExtractionFrontend) (e : Engine)
    (s : ExtractionFrontend) : Prop :=
  _engine s = Some e /\ same_settings self s.

Lemma running_set_engine self e e' s :
  running self e s -> running self e' (set_engine (Some e') s).
Proof. intros [_ Hs]. split; [done|exact Hs]. Qed.

Lemma running_set_parser_names self e v s :
  running self e s -> running self e (set_parser_names v s).
Proof. intros [He Hs]. split; [exact He|exact Hs]. Qed.

Lemma running_set_hasher_names self e v s :
  running self e s -> running self e (set_hasher_names v s).
Proof. intros [He Hs]. split; [exact He|exact Hs]. Qed.

Lemma running_start self e : running self e (set_engine (Some e) self).
Proof. split; [done|]. by repeat split. Qed.


(** *** What [ProcessSources] decides *)

Definition effective_single_process_mode (a : Args.t) : bool :=
  if String.eqb (Args.source_type a) SOURCE_TYPE_FILE then true
  else Args.single_process_mode a.

Definition preprocessing_required (a : Args.t) : bool :=
  Args.force_preprocessing a
  || bool_decide (Args.source_type a ∈ _SOURCE_TYPES_TO_PREPROCESS).

(** The knowledge base when the parser filter and the time zone are
    resolved. *)
Definition preprocessed_knowledge_base (a : Args.t)
    (self : ExtractionFrontend) : KnowledgeBase :=
  if preprocessing_required a then
    (engine_PreprocessSources W
       (new_engine W (effective_single_process_mode a) self)
       (Args.source_path_specs a)).2
  else new_knowledge_base W.

(** The parser filter expression in use: the caller's, or the preset
    derived from the knowledge base when the caller gave none. *)
Definition resolved_expression (a : Args.t) (kb : KnowledgeBase) : pystr :=
  if negb (truthy (Args.parser_filter_expression a)) then
    _GetParserFilterPreset (platform kb) (GetValue kb "osversion")
  else Args.parser_filter_expression a.

Definition knowledge_base_with_time_zone (kb : KnowledgeBase)
    (timezone : pystr) : KnowledgeBase :=
  let zone := selected_time_zone kb timezone in
  if time_zone_supported W zone then kb_with_zone zone kb else kb.

(** The storage writer is made for the storage file and a session that
    records the resolved expression and the names the parsers manager lists
    for it. *)
Definition expected_writer (a : Args.t) (self : ExtractionFrontend)
    (w : ZIPStorageFileWriter) : Prop :=
  let expression := resolved_expression a (preprocessed_knowledge_base a self) in
  writer_path w = _storage_file_path self /\
  parser_filter_expression (writer_session w) = expression /\
  GetParserAndPluginNames W expression =
    Returned (enabled_parser_names (writer_session w)) /\
  filter_expression (writer_session w) = _filter_expression self /\
  identifier (writer_session w) = new_session_identifier W.

Definition expected_engine (a : Args.t) (self : ExtractionFrontend)
    (e : Engine) : Prop :=
  e = engine_with_knowledge_base
        (knowledge_base_with_time_zone (preprocessed_knowledge_base a self)
           (Args.timezone a))
        (new_engine W (effective_single_process_mode a) self).

(** What an event of a [ProcessSources] run can be. *)
Definition expected (a : Args.t) (self : ExtractionFrontend) (ev : event)
    : Prop :=
  match ev with
  | Log _ _ => True
  | CreateEngineCall e =>
      e = new_engine W (effective_single_process_mode a) self
  | PreprocessSourcesCall specs =>
      preprocessing_required a = true /\ specs = Args.source_path_specs a
  | SetTimezoneCall zone =>
      zone = selected_time_zone (preprocessed_knowledge_base a self)
               (Args.timezone a)
  | StorageWriterCall w => expected_writer a self w
  | SingleProcessSourcesCall e d =>
      effective_single_process_mode a = true /\
      expected_engine a self e /\
      expected_writer a self (single_process.storage_writer d) /\
      single_process.parser_filter_expression d =
        resolved_expression a (preprocessed_knowledge_base a self)
  | MultiProcessSourcesCall e d =>
      effective_single_process_mode a = false /\
      expected_engine a self e /\
      expected_writer a self (multi_process_engine.storage_writer d) /\
      multi_process_engine.parser_filter_expression d =
        resolved_expression a (preprocessed_knowledge_base a self)
  end.

Local Open Scope frontend_scope.

Lemma CheckStorageFile_wp (E : event -> Prop) (storage_file_path : pystr) self :
  (forall lvl message, E (Log lvl message)) ->
  wp (_CheckStorageFile W storage_file_path) self
     (fun _ s t => s = self /\ Forall E t).
Proof.
  intros Hlog. unfold wp. split; [apply CheckStorageFile_self|].
  apply Forall_forall. intros ev ->%CheckStorageFile_trace. apply Hlog.
Qed.

Lemma ProcessSources_expected (a : Args.t) self :
  Forall (expected a self) (trace (ProcessSources W a self)).
Proof.
  change (wp (ProcessSources W a) self (traced (expected a self))).
  unfold ProcessSources.
  change (if String.eqb (Args.source_type a) SOURCE_TYPE_FILE then true
          else Args.single_process_mode a)
    with (effective_single_process_mode a).
  change (Args.force_preprocessing a
          || bool_decide (Args.source_type a ∈ _SOURCE_TYPES_TO_PREPROCESS))
    with (preprocessing_required a).
  set (mode := effective_single_process_mode a).
  set (e0 := new_engine W mode self).
  set (kb1 := preprocessed_knowledge_base a self).
  set (E := expected a self).
  assert (Hlog : forall lvl message, E (Log lvl message)) by done.
  (* the storage file *)
  apply wp_getattr.
  eapply traced_call; [by apply (CheckStorageFile_wp E)|].
  intros o s t [-> Ht]. split; [done|]. intros [] _. clear o t Ht.
  (* the engine *)
  eapply traced_call; [apply wp_run|].
  intros o s t Hrun. rewrite CreateEngine_run in Hrun.
  injection Hrun as <- <- <-. split; [by repeat constructor|].
  intros e [= <-]. fold e0.
  apply wp_setattr.
  pose proof (running_start self e0) as Hs.
  (* preprocessing *)
  eapply (traced_call E _ _ _
            (fun o s t => Forall E t /\
               (forall u, o = Returned u ->
                  running self (engine_with_knowledge_base kb1 e0) s))).
  { subst kb1. unfold preprocessed_knowledge_base. fold mode e0.
    destruct (preprocessing_required a) eqn:Hreq.
    - unfold wp. rewrite (PreprocessSources_run W _ _ e0) by apply Hs.
      cbn [result self_after trace]. split.
      + repeat constructor; [by rewrite Hreq|].
        unfold preprocessing_log.
        destruct (engine_PreprocessSources W e0 _).1 as [|ex];
          [by repeat constructor|].
        destruct (is_IOError ex); by repeat constructor.
      + intros _ _. by apply (running_set_engine _ e0).
    - unfold wp. cbn [ret result self_after trace]. split; [constructor|].
      intros _ _. exact Hs. }
  clear Hs. intros o s t [Ht Hs]. split; [done|]. intros [] Ho.
  specialize (Hs () Ho). clear o Ho t Ht.
  set (e1 := engine_with_knowledge_base kb1 e0) in *.
  (* the parser filter expression *)
  set (expression := resolved_expression a kb1).
  eapply (traced_call E _ _ _
            (fun o s' t => o = Returned expression /\ s' = s /\ Forall E t)).
  { subst expression. unfold resolved_expression.
    destruct (negb (truthy (Args.parser_filter_expression a))).
    - apply (wp_the_engine _ _ e1); [apply Hs|].
      change (knowledge_base e1) with kb1.
      unfold wp, bind, logging, emit, ret.
      destruct (truthy (_GetParserFilterPreset _ _)); simpl;
        by repeat constructor.
    - unfold wp, ret. simpl. by repeat constructor. }
  intros o s' t (-> & -> & Ht). split; [done|]. intros ? [= <-]. clear t Ht.
  (* parser and hasher names *)
  apply wp_setattr. apply traced_lift. intros parsers _.
  apply wp_setattr. apply wp_setattr. apply traced_lift. intros hasher_names _.
  apply wp_setattr.
  match goal with |- wp _ ?named _ =>
    assert (Hs' : running self e1 named)
      by (repeat first [apply running_set_hasher_names
                       | apply running_set_parser_names]; exact Hs);
    generalize dependent named
  end.
  intros s' Hs'. clear s Hs.
  (* the time zone *)
  set (e2 := engine_with_knowledge_base
               (knowledge_base_with_time_zone kb1 (Args.timezone a)) e0).
  eapply (traced_call E _ _ _
            (fun o s t => Forall E t /\
               (forall u, o = Returned u -> running self e2 s))).
  { unfold wp. rewrite (SetTimezone_run W _ _ e1) by apply Hs'.
    cbv zeta. change (knowledge_base e1) with kb1.
    subst e2. unfold knowledge_base_with_time_zone.
    destruct (time_zone_supported W _); cbn [result self_after trace].
    - split; [by repeat constructor|]. intros _ _.
      by apply (running_set_engine _ e1).
    - split; [by repeat constructor|]. intros _ _. exact Hs'. }
  intros o s t [Ht Hs]. split; [done|]. intros [] Ho.
  specialize (Hs () Ho). clear o Ho t Ht s' Hs'.
  (* the find specifications *)
  eapply (traced_call E _ _ _ (fun o s' t => s' = s /\ t = [])).
  { destruct (truthy (Args.filter_file a)).
    - apply (wp_the_engine _ _ e2); [apply Hs|].
      unfold wp, bind, lift, ret.
      by destruct (BuildFindSpecsFromFile W _ _).
    - by unfold wp, ret. }
  intros o s' t [-> ->]. split; [constructor|]. intros filter_find_specs _.
  clear o.
  (* the session and the storage writer *)
  eapply traced_call; [apply wp_run|].
  intros o s' t Hrun. rewrite CreateSession_run in Hrun.
  destruct (GetParserAndPluginNames W expression) as [names|ex] eqn:Hnames;
    injection Hrun as <- <- <-; (split; [constructor|]); [|done].
  intros session [= <-].
  destruct Hs as [He2 Hsame].
  assert (Hwriter : expected_writer a self
            {| writer_session :=
                 {| identifier := new_session_identifier W;
                    command_line_arguments := Args.command_line_arguments a;
                    enabled_parser_names := names;
                    filter_expression := _filter_expression s;
                    filter_file := Args.filter_file a;
                    debug_mode := _debug_mode s;
                    parser_filter_expression := expression;
                    preferred_encoding := Args.preferred_encoding a;
                    preferred_year := Args.preferred_year a |};
               writer_path := _storage_file_path s |}).
  { unfold expected_writer. cbn. fold kb1 expression.
    destruct Hsame as (_ & -> & _ & _ & _ & -> & _). by rewrite Hnames. }
  apply wp_getattr. apply traced_emit; [exact Hwriter|].
  apply (wp_the_engine _ _ e2); [exact He2|].
  do 4 apply wp_getattr.
  assert (Hengine : expected_engine a self e2) by reflexivity.
  assert (Hmode : effective_single_process_mode a = mode) by reflexivity.
  clearbody mode. unfold logging.
  destruct mode.
  - apply traced_emit; [done|].
    apply traced_emit; [by split; [|split; [|split]]|].
    unfold wp, traced, lift. constructor.
  - apply traced_emit; [done|].
    apply traced_emit; [by split; [|split; [|split]]|].
    unfold wp, traced, lift. constructor.
Qed.

(** *** Events that have happened and runs that reach the engine *)

Lemma trace_bind_first {A B} (m : M A) (k : A -> M B) self ev :
  ev ∈ trace (m self) -> ev ∈ trace (bind m k self).
Proof.
  unfold bind. destruct (m self) as [[a|e] s t]; simpl; [|done].
  destruct (k a s) as [o' s' t']; simpl. intros Hev. apply elem_of_app. by left.
Qed.

Lemma trace_bind_then {A B} (m : M A) (k : A -> M B) self a ev :
  result (m self) = Returned a ->
  ev ∈ trace (k a (self_after (m self))) -> ev ∈ trace (bind m k self).
Proof.
  unfold bind. destruct (m self) as [o s t]; simpl. intros ->.
  destruct (k a s) as [o' s' t']; simpl. intros Hev. apply elem_of_app. by right.
Qed.

(** [ends P]: the run ends in an outcome and a trace that satisfy [P], where
    [P] still holds when more has happened before. *)
Definition ends {A} (P : outcome A -> list event -> Prop) (o : outcome A)
    (s : ExtractionFrontend) (t : list event) : Prop :=
  P o t.

Definition extends {A} (P : outcome A -> list event -> Prop) : Prop :=
  forall o t t', P o t' -> P o (t ++ t')%list.

Lemma ends_call {A B} (P : outcome B -> list event -> Prop) (m : M A)
    (k : A -> M B) self
    (Mid : outcome A -> ExtractionFrontend -> list event -> Prop) :
  extends P ->
  wp m self Mid ->
  (forall o s t, Mid o s t -> exists a, o = Returned a /\ wp (k a) s (ends P)) ->
  wp (bind m k) self (ends P).
Proof.
  intros HP Hm Hk. apply (wp_call _ _ _ Mid); [done|].
  intros o s t (a & -> & Hcont)%Hk. unfold then_wp, wp, ends in *.
  by apply HP.
Qed.

Lemma ends_emit {B} (P : outcome B -> list event -> Prop) ev
    (k : unit -> M B) self :
  extends P -> wp (k tt) self (ends P) -> wp (bind (emit ev) k) self (ends P).
Proof.
  intros HP Hk. apply wp_emit. unfold wp, ends in *. by apply (HP _ [ev]).
Qed.

Lemma ends_lift {A B} (P : outcome B -> list event -> Prop) (o : outcome A)
    (k : A -> M B) self a :
  o = Returned a -> wp (k a) self (ends P) -> wp (bind (lift o) k) self (ends P).
Proof. intros -> Hk. apply wp_lift. exact Hk. Qed.

(** The engine's own [ProcessSources] was called, and the run ended as that
    call did. *)
Definition dispatched (e : Engine) (single_process_mode : bool)
    (o : outcome ProcessingStatus) (t : list event) : Prop :=
  if single_process_mode then
    exists d, SingleProcessSourcesCall e d ∈ t /\
              o = single_ProcessSources W e d
  else
    exists d, MultiProcessSourcesCall e d ∈ t /\
              o = multi_ProcessSources W e d.

Lemma dispatched_extends e single_process_mode :
  extends (dispatched e single_process_mode).
Proof.
  intros o t t'. unfold dispatched.
  destruct single_process_mode; intros (d & Hd & Ho); exists d;
    (split; [apply elem_of_app; by right|done]).
Qed.

Lemma ProcessSources_dispatches (a : Args.t) self parsers hasher_names names :
  let mode := effective_single_process_mode a in
  let e0 := new_engine W mode self in
  let kb1 := preprocessed_knowledge_base a self in
  let expression := resolved_expression a kb1 in
  let kb2 := knowledge_base_with_time_zone kb1 (Args.timezone a) in
  result (_CheckStorageFile W (_storage_file_path self) self) = Returned tt ->
  (preprocessing_required a = true ->
   preprocessing_result
     (engine_PreprocessSources W e0 (Args.source_path_specs a)).1 =
   Returned tt) ->
  GetParsers W expression = Returned parsers ->
  GetHasherNamesFromString W (Args.hasher_names_string a) =
    Returned hasher_names ->
  (truthy (Args.filter_file a) = true ->
   exists specs,
     BuildFindSpecsFromFile W (default "" (Args.filter_file a))
       (GetPathAttributes kb2) = Returned specs) ->
  GetParserAndPluginNames W expression = Returned names ->
  dispatched (engine_with_knowledge_base kb2 e0) mode
    (result (ProcessSources W a self)) (trace (ProcessSources W a self)).
Proof.
  intros mode e0 kb1 expression kb2 Hcheck Hpre Hparsers Hhashers Hspecs Hnames.
  set (e2 := engine_with_knowledge_base kb2 e0).
  change (wp (ProcessSources W a) self (ends (dispatched e2 mode))).
  pose proof (dispatched_extends e2 mode) as HP.
  unfold ProcessSources.
  change (if String.eqb (Args.source_type a) SOURCE_TYPE_FILE then true
          else Args.single_process_mode a) with mode.
  change (Args.force_preprocessing a
          || bool_decide (Args.source_type a ∈ _SOURCE_TYPES_TO_PREPROCESS))
    with (preprocessing_required a).
  (* the storage file *)
  apply wp_getattr.
  eapply (ends_call _ _ _ _ (fun o s t => o = Returned tt /\ s = self));
    [done| |].
  { split; [exact Hcheck|apply CheckStorageFile_self]. }
  intros o s t [-> ->]. exists tt. split; [done|]. clear t.
  (* the engine *)
  eapply ends_call; [done|apply wp_run|].
  intros o s t Hrun. rewrite CreateEngine_run in Hrun.
  injection Hrun as <- <- <-. eexists. split; [done|]. fold e0.
  apply wp_setattr.
  pose proof (running_start self e0) as Hs.
  (* preprocessing *)
  eapply (ends_call _ _ _ _
            (fun o s t => o = Returned tt /\
               running self (engine_with_knowledge_base kb1 e0) s)); [done| |].
  { subst kb1. unfold preprocessed_knowledge_base. fold mode e0.
    destruct (preprocessing_required a) eqn:Hreq.
    - unfold wp. rewrite (PreprocessSources_run W _ _ e0) by apply Hs.
      cbn [result self_after trace]. split; [by apply Hpre|].
      by apply (running_set_engine _ e0).
    - unfold wp. cbn [ret result self_after trace]. split; [done|exact Hs]. }
  clear Hs. intros o s t [-> Hs]. exists tt. split; [done|]. clear t.
  set (e1 := engine_with_knowledge_base kb1 e0) in *.
  (* the parser filter expression *)
  eapply (ends_call _ _ _ _
            (fun o s' t => o = Returned expression /\ s' = s)); [done| |].
  { subst expression. unfold resolved_expression.
    destruct (negb (truthy (Args.parser_filter_expression a))).
    - apply (wp_the_engine _ _ e1); [apply Hs|].
      change (knowledge_base e1) with kb1.
      unfold wp, bind, logging, emit, ret.
      by destruct (truthy (_GetParserFilterPreset _ _)).
    - by unfold wp, ret. }
  intros o s' t [-> ->]. eexists. split; [done|]. clear t.
  (* parser and hasher names *)
  apply wp_setattr. eapply ends_lift; [exact Hparsers|].
  apply wp_setattr. apply wp_setattr. eapply ends_lift; [exact Hhashers|].
  apply wp_setattr.
  match goal with |- wp _ ?named _ =>
    assert (Hs' : running self e1 named)
      by (repeat first [apply running_set_hasher_names
                       | apply running_set_parser_names]; exact Hs);
    generalize dependent named
  end.
  intros s' Hs'. clear s Hs.
  (* the time zone *)
  eapply (ends_call _ _ _ _
            (fun o s t => o = Returned tt /\ running self e2 s)); [done| |].
  { unfold wp. rewrite (SetTimezone_run W _ _ e1) by apply Hs'.
    cbv zeta. change (knowledge_base e1) with kb1.
    subst e2 kb2. unfold knowledge_base_with_time_zone.
    destruct (time_zone_supported W _); cbn [result self_after trace].
    - split; [done|]. by apply (running_set_engine _ e1).
    - split; [done|exact Hs']. }
  intros o s t [-> Hs]. exists tt. split; [done|]. clear t s' Hs'.
  (* the find specifications *)
  eapply (ends_call _ _ _ _
            (fun o s' t => (exists specs, o = Returned specs) /\ s' = s));
    [done| |].
  { destruct (truthy (Args.filter_file a)).
    - apply (wp_the_engine _ _ e2); [apply Hs|].
      change (knowledge_base e2) with kb2.
      destruct Hspecs as [specs Hspecs]; [done|].
      unfold wp, bind, lift, ret. rewrite Hspecs. simpl. eauto.
    - unfold wp, ret. simpl. eauto. }
  intros o s' t [[filter_find_specs ->] ->]. eexists. split; [done|]. clear t.
  (* the session and the storage writer *)
  eapply ends_call; [done|apply wp_run|].
  intros o s' t Hrun. rewrite CreateSession_run, Hnames in Hrun.
  injection Hrun as <- <- <-. eexists. split; [done|].
  destruct Hs as [He2 Hsame].
  apply wp_getattr. apply ends_emit; [done|].
  apply (wp_the_engine _ _ e2); [exact He2|].
  do 4 apply wp_getattr.
  unfold logging, dispatched in *. clearbody mode.
  destruct mode.
  - apply ends_emit; [done|]. apply wp_emit.
    unfold wp, ends, lift. cbn [result trace].
    eexists. split; [constructor|reflexivity].
  - apply ends_emit; [done|]. apply wp_emit.
    unfold wp, ends, lift. cbn [result trace].
    eexists. split; [constructor|reflexivity].
Qed.

Lemma ProcessSources_event (a : Args.t) self ev :
  ev ∈ trace (ProcessSources W a self) -> expected a self ev.
Proof. apply Forall_forall, ProcessSources_expected. Qed.

(** Once the storage file is found valid, the engine is created and, when
    required, the sources are preprocessed, whatever happens later. *)
Lemma ProcessSources_creates_engine (a : Args.t) self :
  result (_CheckStorageFile W (_storage_file_path self) self) = Returned tt ->
  CreateEngineCall (new_engine W (effective_single_process_mode a) self)
    ∈ trace (ProcessSources W a self).
Proof.
  intros Hcheck. unfold ProcessSources.
  eapply trace_bind_then; [reflexivity|]. cbn [getattr result self_after].
  eapply trace_bind_then; [exact Hcheck|]. rewrite CheckStorageFile_self.
  apply trace_bind_first. rewrite CreateEngine_run. cbn [trace].
  constructor.
Qed.

Lemma ProcessSources_preprocesses (a : Args.t) self ev :
  result (_CheckStorageFile W (_storage_file_path self) self) = Returned tt ->
  preprocessing_required a = true ->
  ev ∈ trace (_PreprocessSources W (Args.source_path_specs a)
                (set_engine
                   (Some (new_engine W (effective_single_process_mode a) self))
                   self)) ->
  ev ∈ trace (ProcessSources W a self).
Proof.
  intros Hcheck Hreq Hev. unfold ProcessSources.
  eapply trace_bind_then; [reflexivity|]. cbn [getattr result self_after].
  eapply trace_bind_then; [exact Hcheck|]. rewrite CheckStorageFile_self.
  eapply trace_bind_then; [by rewrite CreateEngine_run|].
  rewrite CreateEngine_run. cbn [self_after].
  eapply trace_bind_then; [reflexivity|]. cbn [setattr result self_after].
  apply trace_bind_first.
  change (Args.force_preprocessing a
          || bool_decide (Args.source_type a ∈ _SOURCE_TYPES_TO_PREPROCESS))
    with (preprocessing_required a).
  rewrite Hreq. exact Hev.
Qed.

End Orchestration.

(** ** Storage file validation *)

(** C4: validation of a storage file path fails with [BadConfigOption] when
    the path exists and is not a regular file, and when its directory is not
    writable; an existing regular file in a writable directory passes, with
    a warning logged and no error; a failed validation ends [ProcessSources]
    with that error before an engine is created. *)
Theorem storage_file_validation `{Handles} (W : World)
    (storage_file_path : string) (self : ExtractionFrontend) :
  let checked := _CheckStorageFile W (Some storage_file_path) self in
  (os_path_exists W storage_file_path = true ->
   os_path_isfile W storage_file_path = false ->
   exists message, result checked = Raised (BadConfigOption message)) /\
  (os_access_W_OK W (storage_directory W storage_file_path) = false ->
   exists message, result checked = Raised (BadConfigOption message)) /\
  (os_path_exists W storage_file_path = true ->
   os_path_isfile W storage_file_path = true ->
   os_access_W_OK W (storage_directory W storage_file_path) = true ->
   result checked = Returned tt /\
   trace checked =
     [Log WARNING "Appending to an already existing storage file."]) /\
  (os_path_exists W storage_file_path = false ->
   os_access_W_OK W (storage_directory W storage_file_path) = true ->
   result checked = Returned tt /\ trace checked = []) /\
  (forall (a : Args.t) e,
     _storage_file_path self = Some storage_file_path ->
     result checked = Raised e ->
     let run := ProcessSources W a self in
     result run = Raised e /\
     self_after run = self /\
     forall engine, CreateEngineCall engine ∉ trace run).
Proof.
  intros checked. subst checked. rewrite CheckStorageFile_cases.
  split; [|split; [|split; [|split]]].
  - intros -> ->. simpl. eauto.
  - intros ->. destruct (_ && _); simpl; eauto.
  - by intros -> -> ->.
  - by intros -> ->.
  - intros a e Hpath Hraised. rewrite <- CheckStorageFile_cases in Hraised.
    rewrite <- Hpath in Hraised.
    rewrite (ProcessSources_invalid_storage W a self e Hraised).
    cbn [result self_after trace]. split; [done|]. split; [done|].
    by intros engine ?%CheckStorageFile_trace.
Qed.

(** ** Engine selection and preprocessing *)

(** C5: for a source of type File every engine [ProcessSources] creates and
    dispatches to is the single process engine, whatever
    [single_process_mode] the caller asked for; once the storage file is
    found valid, such an engine is created. *)
Theorem file_source_is_single_process `{Handles} (W : World) (a : Args.t)
    (self : ExtractionFrontend) :
  Args.source_type a = SOURCE_TYPE_FILE ->
  let run := ProcessSources W a self in
  (forall e, CreateEngineCall e ∈ trace run ->
     engine_cls e = SingleProcessEngine) /\
  (forall e d, SingleProcessSourcesCall e d ∈ trace run ->
     engine_cls e = SingleProcessEngine) /\
  (forall e d, MultiProcessSourcesCall e d ∉ trace run) /\
  (result (_CheckStorageFile W (_storage_file_path self) self) = Returned tt ->
   exists e, CreateEngineCall e ∈ trace run /\
             engine_cls e = SingleProcessEngine).
Proof.
  intros Hfile run.
  assert (Hmode : effective_single_process_mode a = true).
  { unfold effective_single_process_mode. by rewrite Hfile. }
  split; [|split; [|split]].
  - intros e He%ProcessSources_event. simpl in He. by rewrite He, Hmode.
  - intros e d (_ & -> & _)%ProcessSources_event. by rewrite Hmode.
  - intros e d (Hmulti & _)%ProcessSources_event. congruence.
  - intros Hcheck. eexists. split.
    + by apply ProcessSources_creates_engine.
    + by rewrite Hmode.
Qed.

Lemma preprocessing_required_spec `{Handles} (a : Args.t) :
  preprocessing_required a = true <->
  Args.force_preprocessing a = true \/
  Args.source_type a = SOURCE_TYPE_DIRECTORY \/
  Args.source_type a = SOURCE_TYPE_STORAGE_MEDIA_DEVICE \/
  Args.source_type a = SOURCE_TYPE_STORAGE_MEDIA_IMAGE.
Proof.
  unfold preprocessing_required, _SOURCE_TYPES_TO_PREPROCESS.
  rewrite orb_true_iff, bool_decide_eq_true.
  rewrite !elem_of_union, !elem_of_singleton. tauto.
Qed.

(** C6: in a [ProcessSources] call that gets past the validation of the
    storage file, the sources are preprocessed if and only if preprocessing
    is forced or the source type is Directory, StorageMediaDevice or
    StorageMediaImage; in no call are they preprocessed otherwise, so not
    for a File source unless forced. *)
Theorem preprocessing_when_required `{Handles} (W : World) (a : Args.t)
    (self : ExtractionFrontend) :
  let run := ProcessSources W a self in
  let required :=
    Args.force_preprocessing a = true \/
    Args.source_type a = SOURCE_TYPE_DIRECTORY \/
    Args.source_type a = SOURCE_TYPE_STORAGE_MEDIA_DEVICE \/
    Args.source_type a = SOURCE_TYPE_STORAGE_MEDIA_IMAGE in
  ((exists specs, PreprocessSourcesCall specs ∈ trace run) -> required) /\
  (result (_CheckStorageFile W (_storage_file_path self) self) = Returned tt ->
   ((exists specs, PreprocessSourcesCall specs ∈ trace run) <-> required)) /\
  (Args.source_type a = SOURCE_TYPE_FILE ->
   Args.force_preprocessing a = false ->
   forall specs, PreprocessSourcesCall specs ∉ trace run).
Proof.
  intros run required.
  assert (Honly : (exists specs, PreprocessSourcesCall specs ∈ trace run) ->
                  required).
  { intros [specs [Hreq _]%ProcessSources_event].
    by apply preprocessing_required_spec. }
  split; [exact Honly|]. split.
  - intros Hcheck. split; [exact Honly|].
    intros Hreq%preprocessing_required_spec.
    exists (Args.source_path_specs a).
    apply ProcessSources_preprocesses; [done..|].
    erewrite PreprocessSources_run by reflexivity. cbn [trace].
    apply list_elem_of_further, list_elem_of_here.
  - intros Hfile Hforce specs Hev. destruct Honly as [Hf|Hst]; [by eexists|..].
    + congruence.
    + rewrite Hfile in Hst. by destruct Hst as [?|[?|?]].
Qed.

(** ** The parser filter expression of the session and of the dispatch *)

Lemma with_time_zone_platform `{Handles} (W : World) kb timezone :
  platform (knowledge_base_with_time_zone W kb timezone) = platform kb.
Proof.
  unfold knowledge_base_with_time_zone. by destruct (time_zone_supported W _).
Qed.

Lemma with_time_zone_GetValue `{Handles} (W : World) kb timezone identifier :
  GetValue (knowledge_base_with_time_zone W kb timezone) identifier =
  GetValue kb identifier.
Proof.
  unfold knowledge_base_with_time_zone. by destruct (time_zone_supported W _).
Qed.

(** The session [w] was made for lists the parsers the manager names for
    [expression], records [expression], and [expression] is the caller's
    when the caller gave one and the preset derived from the knowledge base
    [kb] otherwise. *)
Definition consistent_expression `{Handles} (W : World) (a : Args.t)
    (kb : KnowledgeBase) (w : ZIPStorageFileWriter) (expression : pystr)
    : Prop :=
  parser_filter_expression (writer_session w) = expression /\
  GetParserAndPluginNames W expression =
    Returned (enabled_parser_names (writer_session w)) /\
  (truthy (Args.parser_filter_expression a) = true ->
   expression = Args.parser_filter_expression a) /\
  (truthy (Args.parser_filter_expression a) = false ->
   expression =
     _GetParserFilterPreset (platform kb) (GetValue kb "osversion")).

Lemma expected_consistent `{Handles} (W : World) (a : Args.t) self e w
    expression :
  expected_engine W a self e ->
  expected_writer W a self w ->
  expression = resolved_expression a (preprocessed_knowledge_base W a self) ->
  consistent_expression W a (knowledge_base e) w expression.
Proof.
  intros -> (_ & Hrecorded & Hnames & _) ->. unfold consistent_expression.
  cbn [knowledge_base engine_with_knowledge_base].
  rewrite with_time_zone_platform, with_time_zone_GetValue.
  split; [done|]. split; [done|].
  unfold resolved_expression. split; by intros ->.
Qed.

(** C2: whenever [ProcessSources] dispatches to an engine, the session of
    the storage writer it passes lists the parser and plugin names the
    parsers manager gives for the resolved parser filter expression, records
    that expression, and the engine is given the same expression; it is the
    preset derived from the engine's knowledge base when the caller supplied
    none. Every session the storage writer is created with lists the names
    for the expression it records. *)
Theorem session_and_dispatch_agree `{Handles} (W : World) (a : Args.t)
    (self : ExtractionFrontend) :
  let run := ProcessSources W a self in
  (forall e d, SingleProcessSourcesCall e d ∈ trace run ->
     consistent_expression W a (knowledge_base e)
       (single_process.storage_writer d)
       (single_process.parser_filter_expression d)) /\
  (forall e d, MultiProcessSourcesCall e d ∈ trace run ->
     consistent_expression W a (knowledge_base e)
       (multi_process_engine.storage_writer d)
       (multi_process_engine.parser_filter_expression d)) /\
  (forall w, StorageWriterCall w ∈ trace run ->
     GetParserAndPluginNames W (parser_filter_expression (writer_session w)) =
       Returned (enabled_parser_names (writer_session w))).
Proof.
  intros run. split; [|split].
  - intros e d (_ & He & Hw & Hd)%ProcessSources_event.
    by apply (expected_consistent W a self).
  - intros e d (_ & He & Hw & Hd)%ProcessSources_event.
    by apply (expected_consistent W a self).
  - intros w (_ & -> & Hnames & _)%ProcessSources_event. exact Hnames.
Qed.

(** ** The time zone *)

(** [zone] is chosen by precedence: the knowledge base's [time_zone_str]
    when non-empty, else the caller's [timezone] when non-empty, else UTC. *)
Definition chosen_by_precedence (kb : KnowledgeBase) (timezone : pystr)
    (zone : string) : Prop :=
  let time_zone_str := GetValue kb "time_zone_str" in
  (truthy time_zone_str = true -> time_zone_str = Some zone) /\
  (truthy time_zone_str = false -> truthy timezone = true ->
   timezone = Some zone) /\
  (truthy time_zone_str = false -> truthy timezone = false -> zone = "UTC").

Lemma selected_time_zone_precedence (kb : KnowledgeBase) (timezone : pystr) :
  chosen_by_precedence kb timezone (selected_time_zone kb timezone).
Proof.
  unfold chosen_by_precedence, selected_time_zone.
  destruct (truthy (GetValue kb "time_zone_str")) eqn:Hkb.
  - cbn [negb]. rewrite Hkb. cbn [negb]. repeat split; [|done..].
    intros _. by destruct (GetValue kb "time_zone_str").
  - destruct (truthy timezone) eqn:Htz; cbn [negb]; repeat split; try done.
    intros _ _. by destruct timezone.
Qed.

(** C7: the time zone the knowledge base is asked to set is the knowledge
    base's [time_zone_str] when that is non-empty, else the caller's time
    zone when that is non-empty, else "UTC"; this holds for [_SetTimezone]
    on the engine's knowledge base and for every [ProcessSources] call on
    the knowledge base as preprocessing left it. *)
Theorem time_zone_precedence `{Handles} (W : World) (a : Args.t)
    (self : ExtractionFrontend) (zone : string) :
  (forall e timezone,
     _engine self = Some e ->
     (exists zone', SetTimezoneCall zone' ∈ trace (_SetTimezone W timezone self)) /\
     (SetTimezoneCall zone ∈ trace (_SetTimezone W timezone self) ->
      chosen_by_precedence (knowledge_base e) timezone zone)) /\
  (SetTimezoneCall zone ∈ trace (ProcessSources W a self) ->
   chosen_by_precedence (preprocessed_knowledge_base W a self)
     (Args.timezone a) zone).
Proof.
  split.
  - intros e timezone He. rewrite (SetTimezone_run W _ _ e He). cbv zeta.
    assert (Hin : forall t,
      SetTimezoneCall zone ∈
        Log INFO ("Setting timezone to: " ++
                  selected_time_zone (knowledge_base e) timezone)
        :: SetTimezoneCall (selected_time_zone (knowledge_base e) timezone)
        :: t ->
      (forall ev, ev ∈ t -> exists l m, ev = Log l m) ->
      chosen_by_precedence (knowledge_base e) timezone zone).
    { intros t Hzone Ht.
      apply elem_of_cons in Hzone as [[=]|Hzone].
      apply elem_of_cons in Hzone as [[= ->]|Hzone].
      - apply selected_time_zone_precedence.
      - by destruct (Ht _ Hzone) as (l & m & [=]). }
    destruct (time_zone_supported W _); cbn [trace]; split.
    + eexists. apply list_elem_of_further, list_elem_of_here.
    + intros Hzone. apply (Hin _ Hzone). by intros ev ?%elem_of_nil.
    + eexists. apply list_elem_of_further, list_elem_of_here.
    + intros Hzone. apply (Hin _ Hzone).
      intros ev ->%list_elem_of_singleton. eauto.
  - intros Hzone%ProcessSources_event. simpl in Hzone. subst zone.
    apply selected_time_zone_precedence.
Qed.

(** ** Failures that are not fatal *)

(** C3: when preprocessing runs and the engine's [PreprocessSources] raises
    an [IOError], [_PreprocessSources] logs the error and returns, without
    the "done" record; and when the steps that follow succeed,
    [ProcessSources] goes on to call the engine's [ProcessSources], with the
    knowledge base as the failed preprocessing left it (but for the time
    zone set afterwards), and ends as that call ends. *)
Theorem preprocessing_failure_is_not_fatal `{Handles} (W : World)
    (a : Args.t) (self : ExtractionFrontend) (message : string)
    (kb : KnowledgeBase) :
  let mode := effective_single_process_mode a in
  let e0 := new_engine W mode self in
  let expression := resolved_expression a kb in
  let kb2 := knowledge_base_with_time_zone W kb (Args.timezone a) in
  let run := ProcessSources W a self in
  result (_CheckStorageFile W (_storage_file_path self) self) = Returned tt ->
  preprocessing_required a = true ->
  engine_PreprocessSources W e0 (Args.source_path_specs a) =
    (Raised (IOError message), kb) ->
  let preprocessing :=
    _PreprocessSources W (Args.source_path_specs a)
      (set_engine (Some e0) self) in
  result preprocessing = Returned tt /\
  trace preprocessing =
    [Log DEBUG "Starting preprocessing.";
     PreprocessSourcesCall (Args.source_path_specs a);
     Log ERROR ("Unable to preprocess with error: " ++ message)] /\
  Log ERROR ("Unable to preprocess with error: " ++ message) ∈ trace run /\
  (forall parsers hasher_names names,
     GetParsers W expression = Returned parsers ->
     GetHasherNamesFromString W (Args.hasher_names_string a) =
       Returned hasher_names ->
     (truthy (Args.filter_file a) = true ->
      exists specs,
        BuildFindSpecsFromFile W (default "" (Args.filter_file a))
          (GetPathAttributes kb2) = Returned specs) ->
     GetParserAndPluginNames W expression = Returned names ->
     dispatched W (engine_with_knowledge_base kb2 e0) mode
       (result run) (trace run)).
Proof.
  intros mode e0 expression kb2 run Hcheck Hreq Hfail preprocessing.
  assert (Hrun : preprocessing =
            MkRun (Returned tt)
              (set_engine (Some (engine_with_knowledge_base kb e0))
                 (set_engine (Some e0) self))
              [Log DEBUG "Starting preprocessing.";
               PreprocessSourcesCall (Args.source_path_specs a);
               Log ERROR ("Unable to preprocess with error: " ++ message)]).
  { subst preprocessing. rewrite (PreprocessSources_run W _ _ e0) by done.
    by rewrite Hfail. }
  assert (Hkb : preprocessed_knowledge_base W a self = kb).
  { unfold preprocessed_knowledge_base. rewrite Hreq. fold mode e0.
    by rewrite Hfail. }
  split; [by rewrite Hrun|]. split; [by rewrite Hrun|]. split.
  - apply ProcessSources_preprocesses; [done..|].
    fold mode e0 preprocessing. rewrite Hrun. cbn [trace].
    do 2 apply list_elem_of_further. apply list_elem_of_here.
  - intros parsers hasher_names names Hparsers Hhashers Hspecs Hnames.
    subst kb2 expression. rewrite <- Hkb in *.
    apply (ProcessSources_dispatches W a self parsers hasher_names names);
      try done.
    intros _. fold mode e0. by rewrite Hfail.
Qed.


(** ** The filter expression of the session *)

Section Invariants.
Context `{Handles}.

(** Running [m] keeps the property [I] of the object, however it ends. *)
Definition preserves {A} (I : ExtractionFrontend -> Prop) (m : M A) : Prop :=
  forall self, I self -> I (self_after (m self)).

Variable I : ExtractionFrontend -> Prop.

Lemma preserves_bind {A B} (m : M A) (k : A -> M B) :
  preserves I m -> (forall a, preserves I (k a)) -> preserves I (bind m k).
Proof.
  intros Hm Hk self Hself. specialize (Hm self Hself). unfold bind.
  destruct (m self) as [[a|e] s t]; simpl in *; [|done].
  specialize (Hk a s Hm). by destruct (k a s).
Qed.

Lemma preserves_try_except {A} (m : M A) handles handler :
  preserves I m -> (forall e, preserves I (handler e)) ->
  preserves I (try_except m handles handler).
Proof.
  intros Hm Hh self Hself. specialize (Hm self Hself). unfold try_except.
  destruct (m self) as [[a|e] s t]; simpl in *; [done|].
  destruct (handles e); [|done].
  specialize (Hh e s Hm). by destruct (handler e s).
Qed.

Lemma preserves_getattr {A} (field : ExtractionFrontend -> A) :
  preserves I (getattr field).
Proof. by intros self. Qed.

Lemma preserves_setattr assign :
  (forall self, I self -> I (assign self)) -> preserves I (setattr assign).
Proof. intros Hassign self. apply Hassign. Qed.

Lemma preserves_emit ev : preserves I (emit ev).
Proof. by intros self. Qed.

Lemma preserves_ret {A} (a : A) : preserves I (ret a).
Proof. by intros self. Qed.

Lemma preserves_raise {A} e : preserves I (@raise _ A e).
Proof. by intros self. Qed.

Lemma preserves_lift {A} (o : outcome A) : preserves I (lift o).
Proof. by intros self. Qed.

Lemma preserves_the_engine : preserves I the_engine.
Proof. intros self. unfold the_engine. by destruct (_engine self). Qed.

End Invariants.

(** Steps through a method, one statement at a time. *)
Ltac preserved :=
  repeat first
    [ apply preserves_bind; [|intros ?]
    | apply preserves_try_except; [|intros ?]
    | apply preserves_getattr
    | apply preserves_emit
    | apply preserves_ret
    | apply preserves_raise
    | apply preserves_lift
    | apply preserves_the_engine
    | apply preserves_setattr; intros ? ?; assumption
    | match goal with
      | |- preserves _ (if ?c then _ else _) => destruct c
      | |- preserves _ (match ?x with _ => _ end) => destruct x
      end ].

(** [ProcessSources] does not assign [_filter_expression]. *)
Lemma ProcessSources_filter_expression `{Handles} (W : World) (a : Args.t)
    (v : pystr) :
  preserves (fun self => _filter_expression self = v) (ProcessSources W a).
Proof.
  unfold ProcessSources, _CheckStorageFile, _CreateEngine, _PreprocessSources,
    Engine_PreprocessSources, _SetTimezone, KnowledgeBase_SetTimezone,
    _CreateSession, logging.
  preserved.
Qed.

(** The public operations of the front-end. The queries return what the
    managers return and assign nothing. *)
Inductive operation `{Handles} :=
| DisableProfiling_op
| EnableProfiling_op (profiling_directory : pystr)
    (profiling_sample_rate : Z) (profiling_type : string)
| GetHashersInformation_op
| GetParserPluginsInformation_op (parser_filter_expression : pystr)
| GetParserPresetsInformation_op
| GetParsersInformation_op
| GetNamesOfParsersWithPlugins_op
| ProcessSources_op (W : World) (a : Args.t)
| SetDebugMode_op (enable_debug : bool)
| SetShowMemoryInformation_op (show_memory : bool)
| SetStorageFile_op (storage_file_path : pystr)
| SetTextPrepend_op (text_prepend : pystr)
| SetUseZeroMQ_op (use_zeromq : bool).

(** The object after an operation, however the operation ended. *)
Definition perform `{Handles} (op : operation) (self : ExtractionFrontend)
    : ExtractionFrontend :=
  match op with
  | DisableProfiling_op => self_after (DisableProfiling self)
  | EnableProfiling_op directory rate type =>
      self_after (EnableProfiling directory rate type self)
  | GetHashersInformation_op
  | GetParserPluginsInformation_op _
  | GetParserPresetsInformation_op
  | GetParsersInformation_op
  | GetNamesOfParsersWithPlugins_op => self
  | ProcessSources_op W a => self_after (ProcessSources W a self)
  | SetDebugMode_op enable_debug => self_after (SetDebugMode enable_debug self)
  | SetShowMemoryInformation_op show_memory =>
      self_after (SetShowMemoryInformation show_memory self)
  | SetStorageFile_op path => self_after (SetStorageFile path self)
  | SetTextPrepend_op text_prepend =>
      self_after (SetTextPrepend text_prepend self)
  | SetUseZeroMQ_op use_zeromq => self_after (SetUseZeroMQ use_zeromq self)
  end.

(** The objects one gets from a new front-end by public operations. *)
Inductive reachable `{Handles} : ExtractionFrontend -> Prop :=
| reachable_init : reachable __init__
| reachable_perform op self :
    reachable self -> reachable (perform op self).

Lemma perform_filter_expression `{Handles} (op : operation) self :
  _filter_expression (perform op self) = _filter_expression self.
Proof.
  destruct op; try reflexivity.
  by apply (ProcessSources_filter_expression W a (_filter_expression self)).
Qed.

(** C9: no public operation assigns [_filter_expression], which [__init__]
    sets to [None]; so in every [ProcessSources] call on a front-end object
    the session, as the storage writer and the engine get it, has
    [filter_expression] [None]. *)
Theorem session_filter_expression_is_None `{Handles} (W : World)
    (a : Args.t) (self : ExtractionFrontend) :
  reachable self ->
  let run := ProcessSources W a self in
  _filter_expression self = None /\
  (forall w, StorageWriterCall w ∈ trace run ->
     filter_expression (writer_session w) = None) /\
  (forall e d, SingleProcessSourcesCall e d ∈ trace run ->
     filter_expression (writer_session (single_process.storage_writer d)) =
     None) /\
  (forall e d, MultiProcessSourcesCall e d ∈ trace run ->
     filter_expression
       (writer_session (multi_process_engine.storage_writer d)) = None).
Proof.
  intros Hreach run.
  assert (Hnone : _filter_expression self = None).
  { induction Hreach as [|op self Hreach IH]; [reflexivity|].
    by rewrite perform_filter_expression. }
  split; [exact Hnone|]. split; [|split].
  - intros w (_ & _ & _ & -> & _)%ProcessSources_event. exact Hnone.
  - intros e d (_ & _ & (_ & _ & _ & -> & _) & _)%ProcessSources_event.
    exact Hnone.
  - intros e d (_ & _ & (_ & _ & _ & -> & _) & _)%ProcessSources_event.
    exact Hnone.
Qed.

(** * Scenarios

    Concrete runs: a directory of a Windows XP system is processed into a
    new storage file, with no parser filter expression given. *)

Section Scenarios.

Definition scenario_handles : Handles :=
  {| PathSpec := string; FindSpec := string; FilterObject := unit;
     Callback := unit; ProcessingStatus := nat |}.
#[local] Existing Instance scenario_handles.

Definition empty_knowledge_base : KnowledgeBase :=
  {| platform := None; kb_values := ∅; kb_zone := "UTC";
     kb_path_attributes := ∅ |}.

(** What preprocessing finds on the Windows XP system. *)
Definition windows_xp_knowledge_base (time_zone_str : string) : KnowledgeBase :=
  {| platform := Some OS_WINDOWS;
     kb_values :=
       {[ "osversion" := "Windows XP Professional";
          "time_zone_str" := time_zone_str ]};
     kb_zone := "UTC";
     kb_path_attributes := {[ "systemroot" := "C:\Windows" ]} |}.

Definition known_time_zone (zone : string) : bool :=
  bool_decide (zone ∈ ["UTC"; "Europe/Amsterdam"; "Europe/Paris"]).

(** The parsers of the presets, in short. *)
Definition parsers_of (expression : pystr) : list string :=
  match expression with
  | Some "winxp" => ["lnk"; "prefetch"; "winevt"; "winreg"]
  | Some "win7" => ["lnk"; "prefetch"; "winevtx"; "winreg"]
  | Some "linux" => ["syslog"; "utmp"]
  | Some "macosx" => ["asl_log"; "plist"]
  | _ => ["filestat"]
  end.

(** A world where the storage file is as [path_exists] and [path_isfile]
    say, in a directory writable as [writable] says, and where the engine's
    preprocessing ends as [preprocessing] says. *)
Definition scenario_world (path_exists path_isfile writable : bool)
    (preprocessing : outcome unit * KnowledgeBase) : World :=
  {| os_path_exists := fun _ => path_exists;
     os_path_isfile := fun _ => path_isfile;
     os_path_dirname := fun _ => "/cases";
     os_access_W_OK := fun _ => writable;
     new_knowledge_base := empty_knowledge_base;
     engine_PreprocessSources := fun _ _ => preprocessing;
     time_zone_supported := known_time_zone;
     GetParserAndPluginNames := fun expression => Returned (parsers_of expression);
     GetParsers := fun expression =>
       Returned (map (fun name => (name, {| NAME := name |}))
                   (parsers_of expression));
     GetHasherNamesFromString := fun _ => Returned ["sha256"];
     BuildFindSpecsFromFile := fun _ _ => Returned [];
     new_session_identifier := "f3a1c0de";
     single_ProcessSources := fun _ _ => Returned 1%nat;
     multi_ProcessSources := fun _ _ => Returned 2%nat |}.

Definition scenario_args (source_type : string) (force_preprocessing : bool)
    (single_process_mode : bool) (timezone : pystr) : Args.t :=
  {| Args.source_path_specs := ["/evidence"];
     Args.source_type := source_type;
     Args.command_line_arguments := Some "log2timeline.py out.plaso /evidence";
     Args.enable_sigsegv_handler := false;
     Args.filter_file := None;
     Args.force_preprocessing := force_preprocessing;
     Args.hasher_names_string := Some "sha256";
     Args.number_of_extraction_workers := 0;
     Args.parser_filter_expression := None;
     Args.preferred_encoding := Some "utf-8";
     Args.preferred_year := None;
     Args.process_archive_files := false;
     Args.single_process_mode := single_process_mode;
     Args.status_update_callback := None;
     Args.temporary_directory := None;
     Args.timezone := timezone |}.

(** A new front-end with the storage file set. *)
Definition scenario_frontend : ExtractionFrontend :=
  perform (SetStorageFile_op (Some "/cases/out.plaso")) __init__.

Definition directory_world : World :=
  scenario_world false false true
    (Returned tt, windows_xp_knowledge_base "Europe/Amsterdam").

Definition directory_args : Args.t :=
  scenario_args SOURCE_TYPE_DIRECTORY false false (Some "UTC").

Lemma scenario_directory_run :
  let run := ProcessSources directory_world directory_args scenario_frontend in
  result run = Returned 2%nat /\
  trace run =
    let session :=
      {| identifier := "f3a1c0de";
         command_line_arguments := Some "log2timeline.py out.plaso /evidence";
         enabled_parser_names := ["lnk"; "prefetch"; "winevt"; "winreg"];
         filter_expression := None;
         filter_file := None;
         debug_mode := false;
         parser_filter_expression := Some "winxp";
         preferred_encoding := Some "utf-8";
         preferred_year := None |} in
    let writer :=
      {| writer_session := session;
         writer_path := Some "/cases/out.plaso" |} in
    let engine kb :=
      {| engine_cls := MultiProcessEngine; debug_output := false;
         enable_profiling := false; profiling_directory := None;
         profiling_sample_rate := 1000; profiling_type := "all";
         use_zeromq := Some true; knowledge_base := kb |} in
    [CreateEngineCall (engine empty_knowledge_base);
     Log DEBUG "Starting preprocessing.";
     PreprocessSourcesCall ["/evidence"];
     Log DEBUG "Preprocessing done.";
     Log INFO "Parser filter expression changed to: winxp";
     Log INFO "Setting timezone to: Europe/Amsterdam";
     SetTimezoneCall "Europe/Amsterdam";
     StorageWriterCall writer;
     Log DEBUG "Starting extraction in multi process mode.";
     MultiProcessSourcesCall
       (engine (kb_with_zone "Europe/Amsterdam"
                  (windows_xp_knowledge_base "Europe/Amsterdam")))
       {| multi_process_engine.session_identifier := "f3a1c0de";
          multi_process_engine.source_path_specs := ["/evidence"];
          multi_process_engine.storage_writer := writer;
          multi_process_engine.enable_sigsegv_handler := false;
          multi_process_engine.filter_find_specs := None;
          multi_process_engine.filter_object := None;
          multi_process_engine.hasher_names_string := Some "sha256";
          multi_process_engine.mount_path := None;
          multi_process_engine.number_of_worker_processes := 0;
          multi_process_engine.parser_filter_expression := Some "winxp";
          multi_process_engine.preferred_year := None;
          multi_process_engine.process_archive_files := false;
          multi_process_engine.status_update_callback := None;
          multi_process_engine.show_memory_usage := false;
          multi_process_engine.temporary_directory := None;
          multi_process_engine.text_prepend := None |}].
Proof. split; vm_compute; reflexivity. Qed.

Ltac in_trace :=
  vm_compute;
  repeat first [apply list_elem_of_here | apply list_elem_of_further].

Definition directory_engine : Engine :=
  engine_with_knowledge_base
    (kb_with_zone "Europe/Amsterdam"
       (windows_xp_knowledge_base "Europe/Amsterdam"))
    (new_engine directory_world false scenario_frontend).

Definition directory_writer : ZIPStorageFileWriter :=
  {| writer_session :=
       {| identifier := "f3a1c0de";
          command_line_arguments := Some "log2timeline.py out.plaso /evidence";
          enabled_parser_names := ["lnk"; "prefetch"; "winevt"; "winreg"];
          filter_expression := None;
          filter_file := None;
          debug_mode := false;
          parser_filter_expression := Some "winxp";
          preferred_encoding := Some "utf-8";
          preferred_year := None |};
     writer_path := Some "/cases/out.plaso" |}.

Definition directory_dispatch : multi_process_engine.ProcessSources :=
  {| multi_process_engine.session_identifier := "f3a1c0de";
     multi_process_engine.source_path_specs := ["/evidence"];
     multi_process_engine.storage_writer := directory_writer;
     multi_process_engine.enable_sigsegv_handler := false;
     multi_process_engine.filter_find_specs := None;
     multi_process_engine.filter_object := None;
     multi_process_engine.hasher_names_string := Some "sha256";
     multi_process_engine.mount_path := None;
     multi_process_engine.number_of_worker_processes := 0;
     multi_process_engine.parser_filter_expression := Some "winxp";
     multi_process_engine.preferred_year := None;
     multi_process_engine.process_archive_files := false;
     multi_process_engine.status_update_callback := None;
     multi_process_engine.show_memory_usage := false;
     multi_process_engine.temporary_directory := None;
     multi_process_engine.text_prepend := None |}.

(** The end-to-end scenario of the specification: the session and the
    engine both get the derived preset winxp. *)
Lemma session_and_dispatch_agree_witness :
  consistent_expression directory_world directory_args
    (knowledge_base directory_engine) directory_writer (Some "winxp").
Proof.
  apply (proj1 (proj2 (session_and_dispatch_agree directory_world
                         directory_args scenario_frontend))
           directory_engine directory_dispatch).
  in_trace.
Defined.

(** Preprocessing fails on an unreadable volume after the platform was
    guessed. *)
Definition unreadable_knowledge_base : KnowledgeBase :=
  {| platform := Some OS_LINUX; kb_values := ∅; kb_zone := "UTC";
     kb_path_attributes := ∅ |}.

Definition unreadable_world : World :=
  scenario_world false false true
    (Raised (IOError "unable to open volume"), unreadable_knowledge_base).

Lemma preprocessing_failure_is_not_fatal_witness :
  Log ERROR "Unable to preprocess with error: unable to open volume"
    ∈ trace (ProcessSources unreadable_world directory_args scenario_frontend) /\
  dispatched unreadable_world
    (engine_with_knowledge_base unreadable_knowledge_base
       (new_engine unreadable_world false scenario_frontend))
    false
    (result (ProcessSources unreadable_world directory_args scenario_frontend))
    (trace (ProcessSources unreadable_world directory_args scenario_frontend)).
Proof.
  destruct (preprocessing_failure_is_not_fatal unreadable_world directory_args
              scenario_frontend "unable to open volume"
              unreadable_knowledge_base)
    as (_ & _ & Hlogged & Hdispatched).
  - vm_compute. reflexivity.
  - vm_compute. reflexivity.
  - reflexivity.
  - split; [exact Hlogged|].
    apply (Hdispatched
             (map (fun name => (name, {| NAME := name |}))
                (parsers_of (Some "linux")))
             ["sha256"] (parsers_of (Some "linux")));
      try reflexivity.
    intros Hfilter. vm_compute in Hfilter. discriminate Hfilter.
Defined.

(** The storage path is a directory. *)
Definition occupied_world : World :=
  scenario_world true false true (Returned tt, empty_knowledge_base).

Lemma storage_file_validation_witness :
  result (ProcessSources occupied_world directory_args scenario_frontend) =
  Raised (BadConfigOption
            "Storage file: /cases/out.plaso already exists and is not a file.").
Proof.
  apply (proj2 (proj2 (proj2 (proj2
           (storage_file_validation occupied_world "/cases/out.plaso"
              scenario_frontend))))
           directory_args).
  - reflexivity.
  - vm_compute. reflexivity.
Defined.

(** A single file, with multi process mode asked for. *)
Definition file_args : Args.t :=
  scenario_args SOURCE_TYPE_FILE false false (Some "UTC").

Lemma file_source_is_single_process_witness :
  exists e,
    CreateEngineCall e
      ∈ trace (ProcessSources directory_world file_args scenario_frontend) /\
    engine_cls e = SingleProcessEngine.
Proof.
  apply (file_source_is_single_process directory_world file_args
           scenario_frontend).
  - reflexivity.
  - vm_compute. reflexivity.
Defined.

Lemma preprocessing_when_required_witness :
  exists specs,
    PreprocessSourcesCall specs
      ∈ trace (ProcessSources directory_world directory_args scenario_frontend).
Proof.
  apply (proj1 (proj2 (preprocessing_when_required directory_world
                         directory_args scenario_frontend))).
  - vm_compute. reflexivity.
  - right. left. reflexivity.
Defined.

Lemma time_zone_precedence_witness :
  chosen_by_precedence
    (preprocessed_knowledge_base directory_world directory_args
       scenario_frontend)
    (Some "UTC") "Europe/Amsterdam".
Proof.
  apply (time_zone_precedence directory_world directory_args
           scenario_frontend "Europe/Amsterdam").
  in_trace.
Defined.

(** The knowledge base names a time zone that is not supported, and the
    caller one that is. *)
Definition mars_world : World :=
  scenario_world false false true
    (Returned tt, windows_xp_knowledge_base "Mars/Olympus").

Definition paris_args : Args.t :=
  scenario_args SOURCE_TYPE_DIRECTORY false true (Some "Europe/Paris").






Lemma session_filter_expression_is_None_witness :
  filter_expression (writer_session directory_writer) = None.
Proof.
  apply (proj1 (proj2 (session_filter_expression_is_None directory_world
                         directory_args scenario_frontend
                         (reachable_perform _ _ reachable_init)))
           directory_writer).
  in_trace.
Defined.

End Scenarios.

(** * The complete run of [ProcessSources] *)

Section CompleteRun.
Context `{Handles} (W : World).

(** The front-end object with the engine, the parser names and the hasher
    names [ProcessSources] assigns; nothing else is assigned. *)
Definition with_bookkeeping (e : Engine) (parser_names : option (list string))
    (hasher_names : list string) (self : ExtractionFrontend)
    : ExtractionFrontend :=
  set_hasher_names hasher_names
    (set_parser_names parser_names (set_engine (Some e) self)).

(** The session [_CreateSession] returns when the parsers manager lists
    [names]. *)
Definition session_for (a : Args.t) (self : ExtractionFrontend)
    (expression : pystr) (names : list string) : Session :=
  {| identifier := new_session_identifier W;
     command_line_arguments := Args.command_line_arguments a;
     enabled_parser_names := names;
     filter_expression := _filter_expression self;
     filter_file := Args.filter_file a;
     debug_mode := _debug_mode self;
     parser_filter_expression := expression;
     preferred_encoding := Args.preferred_encoding a;
     preferred_year := Args.preferred_year a |}.

Definition writer_for (a : Args.t) (self : ExtractionFrontend)
    (expression : pystr) (names : list string) : ZIPStorageFileWriter :=
  {| writer_session := session_for a self expression names;
     writer_path := _storage_file_path self |}.

(** The arguments of the single process engine's [ProcessSources]. *)
Definition single_dispatch_for (a : Args.t) (self : ExtractionFrontend)
    (expression : pystr) (names : list string)
    (filter_find_specs : option (list FindSpec))
    : single_process.ProcessSources :=
  {| single_process.source_path_specs := Args.source_path_specs a;
     single_process.storage_writer := writer_for a self expression names;
     single_process.filter_find_specs := filter_find_specs;
     single_process.filter_object := _filter_object self;
     single_process.hasher_names_string := Args.hasher_names_string a;
     single_process.mount_path := _mount_path self;
     single_process.parser_filter_expression := expression;
     single_process.preferred_year := Args.preferred_year a;
     single_process.process_archive_files := Args.process_archive_files a;
     single_process.status_update_callback := Args.status_update_callback a;
     single_process.temporary_directory := Args.temporary_directory a;
     single_process.text_prepend := _text_prepend self |}.

(** The arguments of the multi process engine's [ProcessSources]. *)
Definition multi_dispatch_for (a : Args.t) (self : ExtractionFrontend)
    (expression : pystr) (names : list string)
    (filter_find_specs : option (list FindSpec))
    : multi_process_engine.ProcessSources :=
  {| multi_process_engine.session_identifier := new_session_identifier W;
     multi_process_engine.source_path_specs := Args.source_path_specs a;
     multi_process_engine.storage_writer := writer_for a self expression names;
     multi_process_engine.enable_sigsegv_handler :=
       Args.enable_sigsegv_handler a;
     multi_process_engine.filter_find_specs := filter_find_specs;
     multi_process_engine.filter_object := _filter_object self;
     multi_process_engine.hasher_names_string := Args.hasher_names_string a;
     multi_process_engine.mount_path := _mount_path self;
     multi_process_engine.number_of_worker_processes :=
       Args.number_of_extraction_workers a;
     multi_process_engine.parser_filter_expression := expression;
     multi_process_engine.preferred_year := Args.preferred_year a;
     multi_process_engine.process_archive_files :=
       Args.process_archive_files a;
     multi_process_engine.status_update_callback :=
       Args.status_update_callback a;
     multi_process_engine.show_memory_usage :=
       _show_worker_memory_information self;
     multi_process_engine.temporary_directory := Args.temporary_directory a;
     multi_process_engine.text_prepend := _text_prepend self |}.

(** What the preprocessing step of [ProcessSources] logs and calls. *)
Definition preprocessing_events (a : Args.t) (self : ExtractionFrontend)
    : list event :=
  if preprocessing_required a then
    Log DEBUG "Starting preprocessing."
    :: PreprocessSourcesCall (Args.source_path_specs a)
    :: preprocessing_log
         (engine_PreprocessSources W
            (new_engine W (effective_single_process_mode a) self)
            (Args.source_path_specs a)).1
  else [].

(** How the preprocessing step ends. *)
Definition preprocessing_outcome (a : Args.t) (self : ExtractionFrontend)
    : outcome unit :=
  if preprocessing_required a then
    preprocessing_result
      (engine_PreprocessSources W
         (new_engine W (effective_single_process_mode a) self)
         (Args.source_path_specs a)).1
  else Returned tt.

(** The record logged when a preset is derived. *)
Definition expression_events (a : Args.t) (expression : pystr) : list event :=
  if negb (truthy (Args.parser_filter_expression a)) && truthy expression then
    [Log INFO ("Parser filter expression changed to: " ++
               default "" expression)]
  else [].

Definition time_zone_events (kb : KnowledgeBase) (timezone : pystr)
    : list event :=
  let zone := selected_time_zone kb timezone in
  Log INFO ("Setting timezone to: " ++ zone)
  :: SetTimezoneCall zone
  :: (if time_zone_supported W zone then []
      else [Log WARNING ("Unsupported time zone: " ++ zone ++
                         ", defaulting to " ++ kb_zone kb)]).

(** The find specifications, built only for a filter file. *)
Definition find_specs_outcome (a : Args.t) (kb : KnowledgeBase)
    : outcome (option (list FindSpec)) :=
  if truthy (Args.filter_file a) then
    match BuildFindSpecsFromFile W (default "" (Args.filter_file a))
            (GetPathAttributes kb) with
    | Returned specs => Returned (Some specs)
    | Raised e => Raised e
    end
  else Returned None.

(** The part of the trace up to the creation of the engine and the
    preprocessing, up to the parser filter expression, and up to the time
    zone. *)
Definition preprocessed_trace (a : Args.t) (self : ExtractionFrontend)
    : list event :=
  (trace (_CheckStorageFile W (_storage_file_path self) self)
   ++ CreateEngineCall (new_engine W (effective_single_process_mode a) self)
      :: preprocessing_events a self)%list.

Definition resolved_trace (a : Args.t) (self : ExtractionFrontend)
    : list event :=
  (preprocessed_trace a self
   ++ expression_events a
        (resolved_expression a (preprocessed_knowledge_base W a self)))%list.

Definition prepared_trace (a : Args.t) (self : ExtractionFrontend)
    : list event :=
  (resolved_trace a self
   ++ time_zone_events (preprocessed_knowledge_base W a self)
        (Args.timezone a))%list.

(** The engine [ProcessSources] dispatches to. *)
Definition prepared_engine (a : Args.t) (self : ExtractionFrontend) : Engine :=
  engine_with_knowledge_base
    (knowledge_base_with_time_zone W (preprocessed_knowledge_base W a self)
       (Args.timezone a))
    (new_engine W (effective_single_process_mode a) self).

(** The end of a run in which every step before the dispatch succeeded: the
    storage writer is created and the engine's [ProcessSources] decides the
    outcome. *)
Definition dispatch_run (a : Args.t) (self : ExtractionFrontend)
    (parsers : list (string * ParserClass)) (hasher_names : list string)
    (filter_find_specs : option (list FindSpec)) (names : list string)
    : Run ProcessingStatus :=
  let expression :=
    resolved_expression a (preprocessed_knowledge_base W a self) in
  let e2 := prepared_engine a self in
  let final :=
    with_bookkeeping e2 (Some (map (fun p => NAME p.2) parsers))
      hasher_names self in
  let writer := writer_for a self expression names in
  if effective_single_process_mode a then
    let d := single_dispatch_for a self expression names filter_find_specs in
    MkRun (single_ProcessSources W e2 d) final
      (prepared_trace a self
       ++ [StorageWriterCall writer;
           Log DEBUG "Starting extraction in single process mode.";
           SingleProcessSourcesCall e2 d])
  else
    let d := multi_dispatch_for a self expression names filter_find_specs in
    MkRun (multi_ProcessSources W e2 d) final
      (prepared_trace a self
       ++ [StorageWriterCall writer;
           Log DEBUG "Starting extraction in multi process mode.";
           MultiProcessSourcesCall e2 d]).

(** The run of [ProcessSources], step by step: each step that fails ends
    the run with what has happened so far. *)
Definition ProcessSources_run (a : Args.t) (self : ExtractionFrontend)
    : Run ProcessingStatus :=
  let checked := _CheckStorageFile W (_storage_file_path self) self in
  let kb1 := preprocessed_knowledge_base W a self in
  let e1 :=
    engine_with_knowledge_base kb1
      (new_engine W (effective_single_process_mode a) self) in
  let expression := resolved_expression a kb1 in
  match result checked with
  | Raised e => MkRun (Raised e) self (trace checked)
  | Returned _ =>
  match preprocessing_outcome a self with
  | Raised e =>
      MkRun (Raised e)
        (with_bookkeeping e1 (_parser_names self) (_hasher_names self) self)
        (preprocessed_trace a self)
  | Returned _ =>
  match GetParsers W expression with
  | Raised e =>
      MkRun (Raised e)
        (with_bookkeeping e1 (Some []) (_hasher_names self) self)
        (resolved_trace a self)
  | Returned parsers =>
  let parser_names := Some (map (fun p => NAME p.2) parsers) in
  match GetHasherNamesFromString W (Args.hasher_names_string a) with
  | Raised e =>
      MkRun (Raised e) (with_bookkeeping e1 parser_names [] self)
        (resolved_trace a self)
  | Returned hasher_names =>
  let final :=
    with_bookkeeping (prepared_engine a self) parser_names hasher_names self in
  match find_specs_outcome a (knowledge_base (prepared_engine a self)) with
  | Raised e => MkRun (Raised e) final (prepared_trace a self)
  | Returned filter_find_specs =>
  match GetParserAndPluginNames W expression with
  | Raised e => MkRun (Raised e) final (prepared_trace a self)
  | Returned names =>
      dispatch_run a self parsers hasher_names filter_find_specs names
  end end end end end end.

Lemma wp_equal {A} (m : M A) self (r : Run A) :
  wp m self (fun o s t => MkRun o s t = r) -> m self = r.
Proof. unfold wp. by destruct (m self). Qed.

Lemma ProcessSources_complete (a : Args.t) self :
  ProcessSources W a self = ProcessSources_run a self.
Proof.
  apply wp_equal.
  unfold ProcessSources_run, dispatch_run, prepared_trace, resolved_trace,
    preprocessed_trace, prepared_engine, ProcessSources.
  cbn [knowledge_base engine_with_knowledge_base].
  change (if String.eqb (Args.source_type a) SOURCE_TYPE_FILE then true
          else Args.single_process_mode a)
    with (effective_single_process_mode a).
  change (Args.force_preprocessing a
          || bool_decide (Args.source_type a ∈ _SOURCE_TYPES_TO_PREPROCESS))
    with (preprocessing_required a).
  set (mode := effective_single_process_mode a).
  set (e0 := new_engine W mode self).
  set (kb1 := preprocessed_knowledge_base W a self).
  set (e1 := engine_with_knowledge_base kb1 e0).
  set (expression := resolved_expression a kb1).
  set (kb2 := knowledge_base_with_time_zone W kb1 (Args.timezone a)).
  set (e2 := engine_with_knowledge_base kb2 e0).
  cbv zeta.
  (* the storage file *)
  apply wp_getattr. apply wp_bind. unfold wp at 1.
  rewrite CheckStorageFile_self.
  destruct (result (_CheckStorageFile W (_storage_file_path self) self))
    as [[]|ex]; cbn [then_wp]; [|done].
  set (t0 := trace (_CheckStorageFile W (_storage_file_path self) self)).
  (* the engine *)
  apply wp_bind. unfold wp at 1. rewrite CreateEngine_run.
  cbn [result self_after trace then_wp]. fold e0.
  apply wp_setattr.
  (* preprocessing *)
  eapply (wp_call _ _ _
            (fun o s t => o = preprocessing_outcome a self /\
                          s = set_engine (Some e1) self /\
                          t = preprocessing_events a self)).
  { unfold preprocessing_outcome, preprocessing_events. subst e1 kb1.
    unfold preprocessed_knowledge_base. fold mode e0.
    destruct (preprocessing_required a).
    - unfold wp. by rewrite (PreprocessSources_run W _ _ e0).
    - by unfold wp. }
  intros o s t (-> & -> & ->).
  destruct (preprocessing_outcome a self) as [[]|ex]; cbn [then_wp]; [|done].
  (* the parser filter expression *)
  eapply (wp_call _ _ _
            (fun o s t => o = Returned expression /\
                          s = set_engine (Some e1) self /\
                          t = expression_events a expression)).
  { unfold expression_events. subst expression. unfold resolved_expression.
    destruct (negb (truthy (Args.parser_filter_expression a))); cbn [andb].
    - apply (wp_the_engine _ _ e1); [done|].
      change (knowledge_base e1) with kb1.
      unfold wp, bind, logging, emit, ret.
      by destruct (truthy (_GetParserFilterPreset _ _)).
    - by unfold wp, ret. }
  intros o s t (-> & -> & ->). cbn [then_wp].
  (* parser and hasher names *)
  apply wp_setattr. apply wp_lift.
  destruct (GetParsers W expression) as [parsers|ex]; cbn [then_wp].
  2:{ by rewrite ?app_nil_r, <- ?app_assoc. }
  apply wp_setattr. apply wp_setattr. apply wp_lift.
  destruct (GetHasherNamesFromString W (Args.hasher_names_string a))
    as [hasher_names|ex]; cbn [then_wp].
  2:{ by rewrite ?app_nil_r, <- ?app_assoc. }
  apply wp_setattr.
  (* the time zone *)
  set (parser_names := Some (map (fun p : string * ParserClass => NAME p.2)
                               parsers)).
  set (final := with_bookkeeping e2 parser_names hasher_names self).
  eapply (wp_call _ _ _
            (fun o s t => o = Returned tt /\ s = final /\
                          t = time_zone_events kb1 (Args.timezone a))).
  { unfold wp. rewrite (SetTimezone_run W _ _ e1) by done. cbv zeta.
    change (knowledge_base e1) with kb1.
    unfold time_zone_events. subst final e2 kb2.
    unfold knowledge_base_with_time_zone.
    by destruct (time_zone_supported W _). }
  intros o s t (-> & -> & ->). cbn [then_wp].
  (* the find specifications *)
  assert (Hfinal : _engine final = Some e2) by done.
  eapply (wp_call _ _ _
            (fun o s t => o = find_specs_outcome a kb2 /\ s = final /\ t = [])).
  { unfold find_specs_outcome. destruct (truthy (Args.filter_file a)).
    - apply (wp_the_engine _ _ e2); [done|].
      change (knowledge_base e2) with kb2.
      unfold wp, bind, lift, ret.
      by destruct (BuildFindSpecsFromFile W _ _).
    - by unfold wp, ret. }
  intros o s t (-> & -> & ->).
  destruct (find_specs_outcome a kb2) as [filter_find_specs|ex];
    cbn [then_wp].
  2:{ by rewrite ?app_nil_r, <- ?app_assoc. }
  (* the session, the storage writer and the engine *)
  apply wp_bind. unfold wp at 1. rewrite CreateSession_run.
  destruct (GetParserAndPluginNames W expression) as [names|ex];
    cbn [result self_after trace then_wp].
  2:{ by rewrite ?app_nil_r, <- ?app_assoc. }
  apply wp_getattr. apply wp_emit.
  apply (wp_the_engine _ _ e2); [done|].
  do 4 apply wp_getattr.
  unfold logging. clearbody mode. destruct mode.
  - apply wp_emit. apply wp_emit. unfold wp, lift. cbn [result self_after trace].
    f_equal. rewrite ?app_nil_r, <- ?app_assoc. reflexivity.
  - apply wp_emit. apply wp_emit. unfold wp, lift. cbn [result self_after trace].
    f_equal. rewrite ?app_nil_r, <- ?app_assoc. reflexivity.
Qed.

(** *** The calls to collaborators, in order *)

Definition is_log (ev : event) : bool :=
  match ev with Log _ _ => true | _ => false end.

(** The position of a call in the orchestration. *)
Definition stage (ev : event) : nat :=
  match ev with
  | Log _ _ => 0
  | CreateEngineCall _ => 1
  | PreprocessSourcesCall _ => 2
  | SetTimezoneCall _ => 3
  | StorageWriterCall _ => 4
  | SingleProcessSourcesCall _ _ | MultiProcessSourcesCall _ _ => 5
  end.

(** The calls of a trace, without the log records. *)
Definition calls (t : list event) : list event :=
  List.filter (fun ev => negb (is_log ev)) t.

Lemma calls_app (t t' : list event) : calls (t ++ t') = (calls t ++ calls t')%list.
Proof. apply List.filter_app. Qed.

Lemma calls_CheckStorageFile (storage_file_path : pystr) self :
  calls (trace (_CheckStorageFile W storage_file_path self)) = [].
Proof.
  destruct storage_file_path as [p|]; [|done].
  rewrite CheckStorageFile_cases.
  by repeat (match goal with |- context [if ?b then _ else _] => destruct b end).
Qed.

Lemma calls_preprocessing_events (a : Args.t) self :
  calls (preprocessing_events a self) =
    if preprocessing_required a
    then [PreprocessSourcesCall (Args.source_path_specs a)] else [].
Proof.
  unfold preprocessing_events, preprocessing_log.
  destruct (preprocessing_required a); [|done]. cbn [calls List.filter is_log negb].
  destruct (engine_PreprocessSources W _ _).1 as [|ex]; [done|].
  by destruct (is_IOError ex).
Qed.

Lemma calls_expression_events (a : Args.t) expression :
  calls (expression_events a expression) = [].
Proof. unfold expression_events. by destruct (_ && _). Qed.

Lemma calls_time_zone_events kb timezone :
  calls (time_zone_events kb timezone) =
    [SetTimezoneCall (selected_time_zone kb timezone)].
Proof.
  unfold time_zone_events. cbn [calls List.filter is_log negb].
  by destruct (time_zone_supported W _).
Qed.

(** The calls made before the engine is dispatched to. *)
Definition created_calls (a : Args.t) (self : ExtractionFrontend)
    : list event :=
  CreateEngineCall (new_engine W (effective_single_process_mode a) self)
  :: (if preprocessing_required a
      then [PreprocessSourcesCall (Args.source_path_specs a)] else []).

Definition prepared_calls (a : Args.t) (self : ExtractionFrontend)
    : list event :=
  (created_calls a self
   ++ [SetTimezoneCall
         (selected_time_zone (preprocessed_knowledge_base W a self)
            (Args.timezone a))])%list.

Lemma calls_preprocessed_trace (a : Args.t) self :
  calls (preprocessed_trace a self) = created_calls a self.
Proof.
  unfold preprocessed_trace, created_calls.
  rewrite calls_app, calls_CheckStorageFile.
  cbn [calls List.filter is_log negb app].
  f_equal. apply calls_preprocessing_events.
Qed.

Lemma calls_resolved_trace (a : Args.t) self :
  calls (resolved_trace a self) = created_calls a self.
Proof.
  unfold resolved_trace.
  by rewrite calls_app, calls_expression_events, app_nil_r,
    calls_preprocessed_trace.
Qed.

Lemma calls_prepared_trace (a : Args.t) self :
  calls (prepared_trace a self) = prepared_calls a self.
Proof.
  unfold prepared_trace, prepared_calls.
  by rewrite calls_app, calls_time_zone_events, calls_resolved_trace.
Qed.

Lemma calls_elem_of (t : list event) ev :
  ev ∈ t -> is_log ev = false -> ev ∈ calls t.
Proof.
  intros Hev Hlog. apply list_elem_of_In, List.filter_In.
  split; [by apply list_elem_of_In|by rewrite Hlog].
Qed.

(** No storage writer is created and no engine dispatched to before the
    time zone is set. *)
Lemma prepared_calls_stage (a : Args.t) self ev :
  ev ∈ prepared_calls a self -> stage ev <= 3.
Proof.
  unfold prepared_calls, created_calls.
  destruct (preprocessing_required a); cbn [app]; intros Hev;
    repeat (apply elem_of_cons in Hev as [->|Hev]; [simpl; lia|]);
    by apply elem_of_nil in Hev.
Qed.

Lemma created_calls_stage (a : Args.t) self ev :
  ev ∈ created_calls a self -> stage ev <= 2.
Proof.
  unfold created_calls.
  destruct (preprocessing_required a); intros Hev;
    repeat (apply elem_of_cons in Hev as [->|Hev]; [simpl; lia|]);
    by apply elem_of_nil in Hev.
Qed.

Lemma stage_is_log ev : 0 < stage ev -> is_log ev = false.
Proof. destruct ev; simpl; (lia || done). Qed.

(** A run in which the storage writer is created or the engine dispatched
    to is a run in which every step before succeeded. *)
Lemma ProcessSources_reaches_dispatch (a : Args.t) self ev :
  ev ∈ trace (ProcessSources W a self) ->
  4 <= stage ev ->
  exists parsers hasher_names filter_find_specs names,
    GetParsers W (resolved_expression a (preprocessed_knowledge_base W a self))
      = Returned parsers /\
    GetHasherNamesFromString W (Args.hasher_names_string a)
      = Returned hasher_names /\
    find_specs_outcome a (knowledge_base (prepared_engine a self))
      = Returned filter_find_specs /\
    GetParserAndPluginNames W
      (resolved_expression a (preprocessed_knowledge_base W a self))
      = Returned names /\
    ProcessSources W a self =
      dispatch_run a self parsers hasher_names filter_find_specs names.
Proof.
  rewrite ProcessSources_complete. unfold ProcessSources_run.
  intros Hev Hstage.
  assert (Hlog : is_log ev = false) by (apply stage_is_log; lia).
  destruct (result (_CheckStorageFile W _ self)) as [[]|ex]; cbn [trace] in Hev.
  2:{ apply calls_elem_of in Hev; [|done].
      rewrite calls_CheckStorageFile in Hev. by apply elem_of_nil in Hev. }
  destruct (preprocessing_outcome a self) as [[]|ex]; cbn [trace] in Hev.
  2:{ apply calls_elem_of in Hev; [|done].
      rewrite calls_preprocessed_trace in Hev.
      apply created_calls_stage in Hev. lia. }
  destruct (GetParsers W _) as [parsers|ex]; cbn [trace] in Hev.
  2:{ apply calls_elem_of in Hev; [|done].
      rewrite calls_resolved_trace in Hev.
      apply created_calls_stage in Hev. lia. }
  destruct (GetHasherNamesFromString W _) as [hasher_names|ex];
    cbn [trace] in Hev.
  2:{ apply calls_elem_of in Hev; [|done].
      rewrite calls_resolved_trace in Hev.
      apply created_calls_stage in Hev. lia. }
  destruct (find_specs_outcome a _) as [filter_find_specs|ex];
    cbn [trace] in Hev.
  2:{ apply calls_elem_of in Hev; [|done].
      rewrite calls_prepared_trace in Hev.
      apply prepared_calls_stage in Hev. lia. }
  destruct (GetParserAndPluginNames W _) as [names|ex]; cbn [trace] in Hev.
  2:{ apply calls_elem_of in Hev; [|done].
      rewrite calls_prepared_trace in Hev.
      apply prepared_calls_stage in Hev. lia. }
  by exists parsers, hasher_names, filter_find_specs, names.
Qed.

(** The calls of a run whose every step before the dispatch succeeded. *)
Lemma calls_dispatch_run (a : Args.t) self parsers hasher_names
    filter_find_specs names :
  exists w d,
    stage d = 5 /\
    calls (trace (dispatch_run a self parsers hasher_names filter_find_specs
                    names)) =
      (prepared_calls a self ++ [StorageWriterCall w; d])%list /\
    last (trace (dispatch_run a self parsers hasher_names filter_find_specs
                   names)) = Some d.
Proof.
  unfold dispatch_run.
  destruct (effective_single_process_mode a); cbn [trace]; eexists _, _;
    (split; [|split;
       [rewrite calls_app, calls_prepared_trace; reflexivity
       |by rewrite last_app]]); reflexivity.
Qed.

(** The calls of a run: a beginning of the sequence engine, preprocessing
    (when required), time zone, storage writer, engine's [ProcessSources]. *)
Lemma calls_ProcessSources (a : Args.t) self :
  let run := ProcessSources W a self in
  calls (trace run) = [] \/
  calls (trace run) = created_calls a self \/
  calls (trace run) = prepared_calls a self \/
  exists w d,
    stage d = 5 /\
    calls (trace run) = (prepared_calls a self ++ [StorageWriterCall w; d])%list /\
    last (trace run) = Some d.
Proof.
  intros run. subst run.
  rewrite ProcessSources_complete. unfold ProcessSources_run.
  destruct (result (_CheckStorageFile W _ self)) as [[]|ex]; cbn [trace].
  2:{ left. apply calls_CheckStorageFile. }
  destruct (preprocessing_outcome a self) as [[]|ex]; cbn [trace].
  2:{ right. left. apply calls_preprocessed_trace. }
  destruct (GetParsers W _) as [parsers|ex]; cbn [trace].
  2:{ right. left. apply calls_resolved_trace. }
  destruct (GetHasherNamesFromString W _) as [hasher_names|ex]; cbn [trace].
  2:{ right. left. apply calls_resolved_trace. }
  destruct (find_specs_outcome a _) as [filter_find_specs|ex]; cbn [trace].
  2:{ right. right. left. apply calls_prepared_trace. }
  destruct (GetParserAndPluginNames W _) as [names|ex]; cbn [trace].
  2:{ right. right. left. apply calls_prepared_trace. }
  right. right. right. apply calls_dispatch_run.
Qed.

(** The run ended as the engine call [ev] did. *)
Definition ended_as (ev : event) (o : outcome ProcessingStatus) : Prop :=
  match ev with
  | SingleProcessSourcesCall e d => o = single_ProcessSources W e d
  | MultiProcessSourcesCall e d => o = multi_ProcessSources W e d
  | _ => True
  end.

Lemma prepared_trace_stage (a : Args.t) self ev :
  ev ∈ prepared_trace a self -> stage ev <= 3.
Proof.
  intros Hev. destruct (is_log ev) eqn:Hlog.
  - destruct ev; try done. simpl. lia.
  - apply prepared_calls_stage with a self.
    rewrite <- calls_prepared_trace. by apply calls_elem_of.
Qed.

Lemma dispatch_run_last (a : Args.t) self parsers hasher_names
    filter_find_specs names ev :
  let run :=
    dispatch_run a self parsers hasher_names filter_find_specs names in
  ev ∈ trace run -> stage ev = 5 ->
  last (trace run) = Some ev /\ ended_as ev (result run).
Proof.
  unfold dispatch_run.
  destruct (effective_single_process_mode a); cbn [trace result];
    intros [Hev|Hev]%elem_of_app Hstage;
    try (apply prepared_trace_stage in Hev; lia);
    (apply elem_of_cons in Hev as [->|Hev]; [done|]);
    (apply elem_of_cons in Hev as [->|Hev]; [done|]);
    apply list_elem_of_singleton in Hev as ->;
    by rewrite last_app.
Qed.

(** The engine call of a run whose every step before succeeded. *)
Lemma dispatch_run_call (a : Args.t) self parsers hasher_names
    filter_find_specs names ev :
  let expression :=
    resolved_expression a (preprocessed_knowledge_base W a self) in
  ev ∈ trace (dispatch_run a self parsers hasher_names filter_find_specs names) ->
  stage ev = 5 ->
  ev = if effective_single_process_mode a
       then SingleProcessSourcesCall (prepared_engine a self)
              (single_dispatch_for a self expression names filter_find_specs)
       else MultiProcessSourcesCall (prepared_engine a self)
              (multi_dispatch_for a self expression names filter_find_specs).
Proof.
  unfold dispatch_run.
  destruct (effective_single_process_mode a); cbn [trace];
    intros [Hev|Hev]%elem_of_app Hstage;
    try (apply prepared_trace_stage in Hev; lia);
    (apply elem_of_cons in Hev as [->|Hev]; [done|]);
    (apply elem_of_cons in Hev as [->|Hev]; [done|]);
    by apply list_elem_of_singleton in Hev as ->.
Qed.

(** The engine calls of a run. *)
Lemma ProcessSources_call (a : Args.t) self ev :
  ev ∈ trace (ProcessSources W a self) ->
  stage ev = 5 ->
  exists names filter_find_specs,
    let expression :=
      resolved_expression a (preprocessed_knowledge_base W a self) in
    find_specs_outcome a (knowledge_base (prepared_engine a self))
      = Returned filter_find_specs /\
    GetParserAndPluginNames W expression = Returned names /\
    ev = if effective_single_process_mode a
         then SingleProcessSourcesCall (prepared_engine a self)
                (single_dispatch_for a self expression names filter_find_specs)
         else MultiProcessSourcesCall (prepared_engine a self)
                (multi_dispatch_for a self expression names filter_find_specs).
Proof.
  intros Hev Hstage.
  destruct (ProcessSources_reaches_dispatch a self ev Hev)
    as (parsers & hasher_names & specs & names & _ & _ & Hspecs & Hnames & Hrun);
    [lia|].
  rewrite Hrun in Hev. exists names, specs. split; [done|]. split; [done|].
  by apply (dispatch_run_call a self parsers hasher_names).
Qed.
End CompleteRun.

(** ** The order of the calls and the end of a run *)

(** X1: in every run of [ProcessSources] the calls to collaborators come in
    the order engine creation, preprocessing, time zone, storage writer,
    engine's [ProcessSources], each at most once. *)
Theorem calls_in_order `{Handles} (W : World) (a : Args.t)
    (self : ExtractionFrontend) :
  StronglySorted lt (map stage (calls (trace (ProcessSources W a self)))).
Proof.
  assert (Hcreated : forall t,
            StronglySorted lt (map stage t) ->
            Forall (fun ev => 2 < stage ev) t ->
            StronglySorted lt (map stage (created_calls W a self ++ t))).
  { intros t Hsorted Hlater. unfold created_calls.
    assert (Hlt : forall n, n <= 2 -> Forall (lt n) (map stage t)).
    { intros n Hn. apply Forall_fmap. eapply Forall_impl; [exact Hlater|].
      simpl. lia. }
    destruct (preprocessing_required a); cbn [app map stage];
      repeat constructor; auto. }
  destruct (calls_ProcessSources W a self) as [->|[->|[->|(w & d & Hd & -> & _)]]].
  - constructor.
  - rewrite <- (app_nil_r (created_calls W a self)). apply Hcreated; constructor.
  - unfold prepared_calls. apply Hcreated; repeat constructor.
  - unfold prepared_calls. rewrite <- app_assoc. cbn [app].
    apply Hcreated; cbn [map stage]; rewrite ?Hd; repeat constructor;
      cbn beta; rewrite ?Hd; lia.
Qed.

(** X2: when the engine's [ProcessSources] is called, that call is the last
    thing the run does, and the run ends as the call ends: the status it
    returns or the exception it raises is passed on unchanged. *)
Theorem dispatch_ends_the_run `{Handles} (W : World) (a : Args.t)
    (self : ExtractionFrontend) :
  let run := ProcessSources W a self in
  (forall e d, SingleProcessSourcesCall e d ∈ trace run ->
     last (trace run) = Some (SingleProcessSourcesCall e d) /\
     result run = single_ProcessSources W e d) /\
  (forall e d, MultiProcessSourcesCall e d ∈ trace run ->
     last (trace run) = Some (MultiProcessSourcesCall e d) /\
     result run = multi_ProcessSources W e d).
Proof.
  intros run. subst run.
  split; intros e d Hev;
    destruct (ProcessSources_reaches_dispatch W a self _ Hev)
      as (parsers & hasher_names & specs & names & _ & _ & _ & _ & Hrun);
    try (simpl; lia);
    rewrite Hrun in Hev |- *;
    by apply (dispatch_run_last W a self parsers hasher_names specs names _ Hev).
Qed.

(** ** What a run leaves in the front-end object *)

(** X3: once the storage writer is created or the engine dispatched to, the
    object holds the engine dispatched to, the [NAME]s of the parsers the
    parsers manager gives for the resolved expression and the hasher names
    the hashers manager gives for the caller's string. *)
Theorem bookkeeping_of_a_run `{Handles} (W : World) (a : Args.t)
    (self : ExtractionFrontend) (ev : event) :
  let run := ProcessSources W a self in
  ev ∈ trace run ->
  4 <= stage ev ->
  exists parsers hasher_names,
    GetParsers W (resolved_expression a (preprocessed_knowledge_base W a self))
      = Returned parsers /\
    GetHasherNamesFromString W (Args.hasher_names_string a)
      = Returned hasher_names /\
    _parser_names (self_after run) = Some (map (fun p => NAME p.2) parsers) /\
    _hasher_names (self_after run) = hasher_names /\
    _engine (self_after run) = Some (prepared_engine W a self).
Proof.
  intros run Hev Hstage. subst run.
  destruct (ProcessSources_reaches_dispatch W a self ev Hev Hstage)
    as (parsers & hasher_names & specs & names & Hp & Hh & _ & _ & ->).
  exists parsers, hasher_names. split; [done|]. split; [done|].
  unfold dispatch_run. by destruct (effective_single_process_mode a).
Qed.

(** The attributes [ProcessSources] reads and never assigns. *)
Definition same_configuration `{Handles} (self s : ExtractionFrontend) : Prop :=
  _debug_mode s = _debug_mode self /\
  _enable_profiling s = _enable_profiling self /\
  _filter_expression s = _filter_expression self /\
  _filter_object s = _filter_object self /\
  _mount_path s = _mount_path self /\
  _profiling_directory s = _profiling_directory self /\
  _profiling_sample_rate s = _profiling_sample_rate self /\
  _profiling_type s = _profiling_type self /\
  _use_zeromq s = _use_zeromq self /\
  _show_worker_memory_information s = _show_worker_memory_information self /\
  _storage_file_path s = _storage_file_path self /\
  _text_prepend s = _text_prepend self.

Lemma same_configuration_bookkeeping `{Handles} self e parser_names
    hasher_names :
  same_configuration self (with_bookkeeping e parser_names hasher_names self).
Proof. by repeat split. Qed.

Lemma same_configuration_refl `{Handles} self : same_configuration self self.
Proof. by repeat split. Qed.

Lemma ProcessSources_run_keeps_configuration `{Handles} (W : World)
    (a : Args.t) (self : ExtractionFrontend) :
  same_configuration self (self_after (ProcessSources_run W a self)).
Proof.
  unfold ProcessSources_run, dispatch_run.
  repeat (match goal with
          | |- context [match ?x with Returned _ => _ | Raised _ => _ end] =>
              destruct x
          end; cbn [self_after]);
    try (destruct (effective_single_process_mode a); cbn [self_after]);
    first [apply same_configuration_refl | apply same_configuration_bookkeeping].
Qed.

(** X4: however a run of [ProcessSources] ends, it has assigned nothing but
    the engine, the parser names and the hasher names: the debug, profiling,
    storage file and other settings are as before. *)
Theorem configuration_is_kept `{Handles} (W : World) (a : Args.t)
    (self : ExtractionFrontend) :
  same_configuration self (self_after (ProcessSources W a self)).
Proof.
  rewrite ProcessSources_complete.
  apply ProcessSources_run_keeps_configuration.
Qed.

Section Independence.
Context `{Handles} (W : World).

Lemma CheckStorageFile_independent (storage_file_path : pystr) self s :
  result (_CheckStorageFile W storage_file_path s) =
    result (_CheckStorageFile W storage_file_path self) /\
  trace (_CheckStorageFile W storage_file_path s) =
    trace (_CheckStorageFile W storage_file_path self).
Proof.
  destruct storage_file_path as [p|]; [|done].
  rewrite !CheckStorageFile_cases.
  by repeat (match goal with |- context [if ?b then _ else _] => destruct b end).
Qed.

Lemma new_engine_independent (mode : bool) self s :
  same_configuration self s -> new_engine W mode s = new_engine W mode self.
Proof.
  intros (Hd & Hp & _ & _ & _ & Hdir & Hrate & Htype & Hz & _).
  unfold new_engine. by rewrite Hd, Hp, Hdir, Hrate, Htype, Hz.
Qed.

Lemma ProcessSources_run_independent (a : Args.t) self s :
  same_configuration self s ->
  result (ProcessSources_run W a s) = result (ProcessSources_run W a self) /\
  trace (ProcessSources_run W a s) = trace (ProcessSources_run W a self).
Proof.
  intros Hsame.
  pose proof (new_engine_independent (effective_single_process_mode a) _ _ Hsame)
    as Hengine.
  destruct Hsame as (Hd & Hp & Hfe & Hfo & Hm & Hdir & Hrate & Htype & Hz &
                     Hshow & Hpath & Htext).
  destruct (CheckStorageFile_independent (_storage_file_path self) self s)
    as [Hresult Htrace].
  assert (Hkb : preprocessed_knowledge_base W a s =
                preprocessed_knowledge_base W a self).
  { unfold preprocessed_knowledge_base. by rewrite Hengine. }
  assert (Hevents : preprocessing_events W a s = preprocessing_events W a self).
  { unfold preprocessing_events. by rewrite Hengine. }
  assert (Houtcome : preprocessing_outcome W a s = preprocessing_outcome W a self).
  { unfold preprocessing_outcome. by rewrite Hengine. }
  assert (Hprepared : prepared_engine W a s = prepared_engine W a self).
  { unfold prepared_engine. by rewrite Hengine, Hkb. }
  assert (Hwriter : forall expression names,
            writer_for W a s expression names =
            writer_for W a self expression names).
  { intros. unfold writer_for, session_for. by rewrite Hfe, Hd, Hpath. }
  assert (Ht1 : preprocessed_trace W a s = preprocessed_trace W a self).
  { unfold preprocessed_trace. by rewrite Hpath, Htrace, Hengine, Hevents. }
  assert (Ht2 : resolved_trace W a s = resolved_trace W a self).
  { unfold resolved_trace. by rewrite Ht1, Hkb. }
  assert (Ht3 : prepared_trace W a s = prepared_trace W a self).
  { unfold prepared_trace. by rewrite Ht2, Hkb. }
  unfold ProcessSources_run, dispatch_run.
  rewrite Hpath, Hresult, Htrace, Houtcome, Hkb, Hprepared, Ht1, Ht2, Ht3.
  destruct (result (_CheckStorageFile W _ self)); [|done].
  destruct (preprocessing_outcome W a self); [|done].
  destruct (GetParsers W _); [|done].
  destruct (GetHasherNamesFromString W _); [|done].
  destruct (find_specs_outcome W a _); [|done].
  destruct (GetParserAndPluginNames W _); [|done].
  unfold single_dispatch_for, multi_dispatch_for.
  rewrite !Hwriter, Hfo, Hm, Htext, Hshow.
  by destruct (effective_single_process_mode a).
Qed.

End Independence.

(** X5: the outcome and the trace of a run depend on the settings of the
    front-end only, not on the engine and the names an earlier run left; so
    a second run in the same world with the same arguments ends and behaves
    as the first. *)
Theorem run_after_run `{Handles} (W : World) (a : Args.t)
    (self : ExtractionFrontend) :
  (forall s, same_configuration self s ->
     result (ProcessSources W a s) = result (ProcessSources W a self) /\
     trace (ProcessSources W a s) = trace (ProcessSources W a self)) /\
  (forall W' a',
     let again := self_after (ProcessSources W' a' self) in
     result (ProcessSources W a again) = result (ProcessSources W a self) /\
     trace (ProcessSources W a again) = trace (ProcessSources W a self)).
Proof.
  assert (Hind : forall s, same_configuration self s ->
     result (ProcessSources W a s) = result (ProcessSources W a self) /\
     trace (ProcessSources W a s) = trace (ProcessSources W a self)).
  { intros s Hs. rewrite !ProcessSources_complete.
    by apply ProcessSources_run_independent. }
  split; [exact Hind|]. intros W' a' again. apply Hind. subst again.
  rewrite ProcessSources_complete.
  apply ProcessSources_run_keeps_configuration.
Qed.

(** ** Failures of the lookups and of preprocessing *)

(** X6: the parser names and the hasher names are reset before they are
    looked up. When the parsers manager raises, the run ends with that
    exception, the object is left with an empty list of parser names and
    its old hasher names, and no time zone has been set; when the hashers
    manager raises, the object is left with the new parser names and an
    empty list of hasher names. *)
Theorem names_are_reset_before_lookup `{Handles} (W : World) (a : Args.t)
    (self : ExtractionFrontend) (e : exception) :
  let run := ProcessSources W a self in
  let expression :=
    resolved_expression a (preprocessed_knowledge_base W a self) in
  result (_CheckStorageFile W (_storage_file_path self) self) = Returned tt ->
  preprocessing_outcome W a self = Returned tt ->
  (GetParsers W expression = Raised e ->
   result run = Raised e /\
   _parser_names (self_after run) = Some [] /\
   _hasher_names (self_after run) = _hasher_names self /\
   forall ev, ev ∈ trace run -> stage ev <= 2) /\
  (forall parsers,
     GetParsers W expression = Returned parsers ->
     GetHasherNamesFromString W (Args.hasher_names_string a) = Raised e ->
     result run = Raised e /\
     _parser_names (self_after run) = Some (map (fun p => NAME p.2) parsers) /\
     _hasher_names (self_after run) = [] /\
     forall ev, ev ∈ trace run -> stage ev <= 2).
Proof.
  intros run expression Hcheck Hpre. subst run expression.
  assert (Hstage : forall ev, ev ∈ resolved_trace W a self -> stage ev <= 2).
  { intros ev Hev. destruct (is_log ev) eqn:Hlog.
    - destruct ev; try done. simpl. lia.
    - apply created_calls_stage with W a self.
      rewrite <- calls_resolved_trace. by apply calls_elem_of. }
  rewrite ProcessSources_complete. unfold ProcessSources_run.
  rewrite Hcheck, Hpre. split.
  - by intros ->.
  - intros parsers -> ->. done.
Qed.

(** X7: the storage writer is created and the engine dispatched to only
    after the four lookups of the run have succeeded: when the parsers
    manager, the hashers manager or the building of the find specifications
    raises, neither happens. *)
Theorem no_dispatch_after_failed_lookup `{Handles} (W : World) (a : Args.t)
    (self : ExtractionFrontend) (e : exception) :
  let run := ProcessSources W a self in
  let expression :=
    resolved_expression a (preprocessed_knowledge_base W a self) in
  GetParsers W expression = Raised e \/
  GetHasherNamesFromString W (Args.hasher_names_string a) = Raised e \/
  GetParserAndPluginNames W expression = Raised e \/
  (truthy (Args.filter_file a) = true /\
   BuildFindSpecsFromFile W (default "" (Args.filter_file a))
     (GetPathAttributes (knowledge_base (prepared_engine W a self)))
   = Raised e) ->
  forall ev, ev ∈ trace run -> stage ev <= 3.
Proof.
  intros run expression Hfailed ev Hev.
  destruct (decide (stage ev <= 3)) as [|Hlater]; [done|]. exfalso.
  destruct (ProcessSources_reaches_dispatch W a self ev Hev)
    as (parsers & hasher_names & specs & names & Hp & Hh & Hs & Hn & _);
    [lia|].
  fold expression in Hp, Hn.
  destruct Hfailed as [Hf|[Hf|[Hf|[Hfile Hf]]]]; try congruence.
  unfold find_specs_outcome in Hs. rewrite Hfile, Hf in Hs. discriminate.
Qed.

(** X8: only an [IOError] of the engine's preprocessing is absorbed. Any
    other exception ends [ProcessSources] with that exception, right after
    the preprocessing call: nothing is logged about it, no time zone is set
    and no engine is dispatched to; the new engine, with the knowledge base
    as far as preprocessing got, stays in the object. *)
Theorem other_preprocessing_errors_pass `{Handles} (W : World) (a : Args.t)
    (self : ExtractionFrontend) (e : exception) (kb : KnowledgeBase) :
  let run := ProcessSources W a self in
  let e0 := new_engine W (effective_single_process_mode a) self in
  result (_CheckStorageFile W (_storage_file_path self) self) = Returned tt ->
  preprocessing_required a = true ->
  engine_PreprocessSources W e0 (Args.source_path_specs a) = (Raised e, kb) ->
  is_IOError e = false ->
  result run = Raised e /\
  trace run =
    (trace (_CheckStorageFile W (_storage_file_path self) self)
     ++ [CreateEngineCall e0;
         Log DEBUG "Starting preprocessing.";
         PreprocessSourcesCall (Args.source_path_specs a)])%list /\
  _engine (self_after run) = Some (engine_with_knowledge_base kb e0).
Proof.
  intros run e0 Hcheck Hreq Hfail Hother. subst run.
  rewrite ProcessSources_complete.
  unfold ProcessSources_run, preprocessing_outcome, preprocessed_trace,
    preprocessing_events, preprocessed_knowledge_base.
  fold e0. rewrite Hcheck, Hreq, Hfail. cbn [fst snd preprocessing_result
    preprocessing_log]. by rewrite Hother.
Qed.

(** ** What the engine is called with *)

(** An engine call of a run, with the engine and the arguments the run
    determines. *)
Lemma engine_call_of_a_run `{Handles} (W : World) (a : Args.t) self :
  let run := ProcessSources W a self in
  let expression :=
    resolved_expression a (preprocessed_knowledge_base W a self) in
  (forall e d, SingleProcessSourcesCall e d ∈ trace run ->
     exists names filter_find_specs,
       find_specs_outcome W a (knowledge_base e) = Returned filter_find_specs /\
       e = prepared_engine W a self /\
       d = single_dispatch_for W a self expression names filter_find_specs) /\
  (forall e d, MultiProcessSourcesCall e d ∈ trace run ->
     exists names filter_find_specs,
       find_specs_outcome W a (knowledge_base e) = Returned filter_find_specs /\
       e = prepared_engine W a self /\
       d = multi_dispatch_for W a self expression names filter_find_specs).
Proof.
  intros run expression. subst run expression.
  split; intros e d Hev;
    destruct (ProcessSources_call W a self _ Hev eq_refl)
      as (names & specs & Hspecs & _ & Hcall);
    exists names, specs;
    destruct (effective_single_process_mode a); try discriminate Hcall;
    injection Hcall as -> ->; done.
Qed.

(** X9: the engine gets find specifications only for a filter file: none
    when the caller gave no filter file, and otherwise those
    [BuildFindSpecsFromFile] returns for that file and the path attributes
    of the engine's knowledge base. *)
Theorem find_specs_for_filter_file `{Handles} (W : World) (a : Args.t)
    (self : ExtractionFrontend) :
  let run := ProcessSources W a self in
  let built (e : Engine) (specs : option (list FindSpec)) :=
    (truthy (Args.filter_file a) = false -> specs = None) /\
    (truthy (Args.filter_file a) = true ->
     exists found,
       BuildFindSpecsFromFile W (default "" (Args.filter_file a))
         (GetPathAttributes (knowledge_base e)) = Returned found /\
       specs = Some found) in
  (forall e d, SingleProcessSourcesCall e d ∈ trace run ->
     built e (single_process.filter_find_specs d)) /\
  (forall e d, MultiProcessSourcesCall e d ∈ trace run ->
     built e (multi_process_engine.filter_find_specs d)).
Proof.
  intros run built.
  assert (Hbuilt : forall e specs,
            find_specs_outcome W a (knowledge_base e) = Returned specs ->
            built e specs).
  { intros e specs. unfold find_specs_outcome, built.
    destruct (truthy (Args.filter_file a)).
    - destruct (BuildFindSpecsFromFile W _ _) as [found|]; [|done].
      intros [= <-]. split; [done|]. eauto.
    - intros [= <-]. by split. }
  destruct (engine_call_of_a_run W a self) as [Hsingle Hmulti].
  split; intros e d Hev.
  - destruct (Hsingle e d Hev) as (names & specs & Hspecs & _ & ->).
    by apply Hbuilt.
  - destruct (Hmulti e d Hev) as (names & specs & Hspecs & _ & ->).
    by apply Hbuilt.
Qed.

(** X10: the engine is called with the caller's arguments as they are: the
    source path specifications, the hasher names string, the preferred
    year, the archive flag, the status callback and the temporary
    directory; the text prepend, the mount path and the filter object are
    the front-end's. The multi process engine also gets the identifier of
    the session the storage writer was created with, the number of workers
    as the caller gave it (0 included), the SIGSEGV handler flag and the
    front-end's memory information flag. *)
Theorem arguments_are_passed_on `{Handles} (W : World) (a : Args.t)
    (self : ExtractionFrontend) :
  let run := ProcessSources W a self in
  (forall e d, SingleProcessSourcesCall e d ∈ trace run ->
     single_process.source_path_specs d = Args.source_path_specs a /\
     single_process.hasher_names_string d = Args.hasher_names_string a /\
     single_process.preferred_year d = Args.preferred_year a /\
     single_process.process_archive_files d = Args.process_archive_files a /\
     single_process.status_update_callback d = Args.status_update_callback a /\
     single_process.temporary_directory d = Args.temporary_directory a /\
     single_process.text_prepend d = _text_prepend self /\
     single_process.mount_path d = _mount_path self /\
     single_process.filter_object d = _filter_object self /\
     writer_path (single_process.storage_writer d) = _storage_file_path self) /\
  (forall e d, MultiProcessSourcesCall e d ∈ trace run ->
     multi_process_engine.source_path_specs d = Args.source_path_specs a /\
     multi_process_engine.hasher_names_string d = Args.hasher_names_string a /\
     multi_process_engine.preferred_year d = Args.preferred_year a /\
     multi_process_engine.process_archive_files d =
       Args.process_archive_files a /\
     multi_process_engine.status_update_callback d =
       Args.status_update_callback a /\
     multi_process_engine.temporary_directory d = Args.temporary_directory a /\
     multi_process_engine.text_prepend d = _text_prepend self /\
     multi_process_engine.mount_path d = _mount_path self /\
     multi_process_engine.filter_object d = _filter_object self /\
     writer_path (multi_process_engine.storage_writer d) =
       _storage_file_path self /\
     multi_process_engine.session_identifier d =
       identifier (writer_session (multi_process_engine.storage_writer d)) /\
     multi_process_engine.number_of_worker_processes d =
       Args.number_of_extraction_workers a /\
     multi_process_engine.enable_sigsegv_handler d =
       Args.enable_sigsegv_handler a /\
     multi_process_engine.show_memory_usage d =
       _show_worker_memory_information self).
Proof.
  intros run. destruct (engine_call_of_a_run W a self) as [Hsingle Hmulti].
  split; intros e d Hev.
  - destruct (Hsingle e d Hev) as (names & specs & _ & _ & ->).
    by repeat split.
  - destruct (Hmulti e d Hev) as (names & specs & _ & _ & ->).
    by repeat split.
Qed.

(** X11: the session handed to the storage writer records the caller's
    command line arguments, filter file, preferred encoding and preferred
    year, and the front-end's debug mode. *)
Theorem session_records_the_request `{Handles} (W : World) (a : Args.t)
    (self : ExtractionFrontend) (w : ZIPStorageFileWriter) :
  StorageWriterCall w ∈ trace (ProcessSources W a self) ->
  command_line_arguments (writer_session w) = Args.command_line_arguments a /\
  filter_file (writer_session w) = Args.filter_file a /\
  preferred_encoding (writer_session w) = Args.preferred_encoding a /\
  preferred_year (writer_session w) = Args.preferred_year a /\
  debug_mode (writer_session w) = _debug_mode self /\
  identifier (writer_session w) = new_session_identifier W /\
  writer_path w = _storage_file_path self.
Proof.
  intros Hev.
  destruct (ProcessSources_reaches_dispatch W a self _ Hev)
    as (parsers & hasher_names & specs & names & _ & _ & _ & _ & Hrun);
    [simpl; lia|].
  rewrite Hrun in Hev. unfold dispatch_run in Hev.
  assert (Hw : w = writer_for W a self
                 (resolved_expression a (preprocessed_knowledge_base W a self))
                 names).
  { destruct (effective_single_process_mode a); cbn [trace] in Hev;
      apply elem_of_app in Hev as [Hev|Hev];
      try (apply prepared_trace_stage in Hev; simpl in Hev; lia);
      (apply elem_of_cons in Hev as [[= ->]|Hev]; [done|]);
      (apply elem_of_cons in Hev as [[=]|Hev]);
      by apply list_elem_of_singleton in Hev. }
  by rewrite Hw.
Qed.

(** ** The engine and the settings of the front-end *)

(** X12: the engine a run creates carries the debug mode and the four
    profiling settings of the front-end whichever kind it is; only the
    multi process engine is given [use_zeromq]; and the engine dispatched
    to is the one created, of the same kind with the same settings. *)
Theorem engine_carries_the_settings `{Handles} (W : World) (a : Args.t)
    (self : ExtractionFrontend) :
  let run := ProcessSources W a self in
  let configured (e : Engine) :=
    debug_output e = _debug_mode self /\
    enable_profiling e = _enable_profiling self /\
    profiling_directory e = _profiling_directory self /\
    profiling_sample_rate e = _profiling_sample_rate self /\
    profiling_type e = _profiling_type self /\
    (engine_cls e = SingleProcessEngine -> use_zeromq e = None) /\
    (engine_cls e = MultiProcessEngine ->
     use_zeromq e = Some (_use_zeromq self)) in
  (forall e, CreateEngineCall e ∈ trace run ->
     configured e /\ knowledge_base e = new_knowledge_base W) /\
  (forall e d, SingleProcessSourcesCall e d ∈ trace run ->
     configured e /\ engine_cls e = SingleProcessEngine) /\
  (forall e d, MultiProcessSourcesCall e d ∈ trace run ->
     configured e /\ engine_cls e = MultiProcessEngine).
Proof.
  intros run configured.
  assert (Hnew : forall mode kb,
            configured (engine_with_knowledge_base kb (new_engine W mode self))).
  { intros mode kb. unfold configured. by destruct mode. }
  split; [|split].
  - intros e He%ProcessSources_event. simpl in He. subst e.
    split; [|done]. unfold configured.
    by destruct (effective_single_process_mode a).
  - intros e d (Hmode & -> & _)%ProcessSources_event.
    split; [apply Hnew|]. by rewrite Hmode.
  - intros e d (Hmode & -> & _)%ProcessSources_event.
    split; [apply Hnew|]. by rewrite Hmode.
Qed.

(** X13: [EnableProfiling] sets the flag and the three settings for the
    engines created afterwards, and [DisableProfiling] only clears the flag:
    an engine created after it still carries the directory, the sample rate
    and the type given last. *)
Theorem profiling_of_later_engines `{Handles} (W : World) (a : Args.t)
    (self : ExtractionFrontend) (directory : pystr) (rate : Z)
    (type : string) :
  let enabled := self_after (EnableProfiling directory rate type self) in
  let disabled := self_after (DisableProfiling enabled) in
  (forall e, CreateEngineCall e ∈ trace (ProcessSources W a enabled) ->
     enable_profiling e = true /\
     profiling_directory e = directory /\
     profiling_sample_rate e = rate /\
     profiling_type e = type /\
     debug_output e = _debug_mode self) /\
  (forall e, CreateEngineCall e ∈ trace (ProcessSources W a disabled) ->
     enable_profiling e = false /\
     profiling_directory e = directory /\
     profiling_sample_rate e = rate /\
     profiling_type e = type /\
     debug_output e = _debug_mode self).
Proof.
  intros enabled disabled.
  split; intros e He%ProcessSources_event; simpl in He; by subst e.
Qed.

(** X14: of the facts in the engine's knowledge base the front-end changes
    the time zone only: the engine dispatched to has the platform, the
    values and the path attributes preprocessing left, and the time zone
    chosen if it is supported. *)
Theorem knowledge_base_of_the_dispatched_engine `{Handles} (W : World)
    (a : Args.t) (self : ExtractionFrontend) :
  let run := ProcessSources W a self in
  let kb := preprocessed_knowledge_base W a self in
  let zone := selected_time_zone kb (Args.timezone a) in
  let kept (e : Engine) :=
    platform (knowledge_base e) = platform kb /\
    kb_values (knowledge_base e) = kb_values kb /\
    kb_path_attributes (knowledge_base e) = kb_path_attributes kb /\
    (time_zone_supported W zone = true -> kb_zone (knowledge_base e) = zone) in
  (forall e d, SingleProcessSourcesCall e d ∈ trace run -> kept e) /\
  (forall e d, MultiProcessSourcesCall e d ∈ trace run -> kept e).
Proof.
  intros run kb zone kept.
  assert (Hkept : forall e, expected_engine W a self e -> kept e).
  { intros e ->. unfold kept. cbn [knowledge_base engine_with_knowledge_base].
    unfold knowledge_base_with_time_zone. fold kb zone.
    destruct (time_zone_supported W zone); by repeat split. }
  split; intros e d (_ & He & _)%ProcessSources_event; by apply Hkept.
Qed.

(** No public operation assigns [_filter_object] or [_mount_path]. *)
Lemma perform_keeps_filter_object `{Handles} (op : operation) self :
  _filter_object (perform op self) = _filter_object self /\
  _mount_path (perform op self) = _mount_path self.
Proof.
  destruct op; try (split; reflexivity).
  cbn [perform]. rewrite ProcessSources_complete.
  destruct (ProcessSources_run_keeps_configuration W a self)
    as (_ & _ & _ & Hfilter & Hmount & _).
  by split.
Qed.

(** X15: the front-end never gives the engine an event filter object or a
    mount path: [__init__] sets both to [None] and no public operation
    assigns them. *)
Theorem no_filter_object_nor_mount_path `{Handles} (W : World) (a : Args.t)
    (self : ExtractionFrontend) :
  reachable self ->
  let run := ProcessSources W a self in
  (forall e d, SingleProcessSourcesCall e d ∈ trace run ->
     single_process.filter_object d = None /\
     single_process.mount_path d = None) /\
  (forall e d, MultiProcessSourcesCall e d ∈ trace run ->
     multi_process_engine.filter_object d = None /\
     multi_process_engine.mount_path d = None).
Proof.
  intros Hreach run.
  assert (Hnone : _filter_object self = None /\ _mount_path self = None).
  { induction Hreach as [|op self Hreach [IHf IHm]]; [by split|].
    destruct (perform_keeps_filter_object op self) as [-> ->]. by split. }
  destruct Hnone as [Hf Hm].
  destruct (engine_call_of_a_run W a self) as [Hsingle Hmulti].
  split; intros e d Hev.
  - by destruct (Hsingle e d Hev) as (names & specs & _ & _ & ->).
  - by destruct (Hmulti e d Hev) as (names & specs & _ & _ & ->).
Qed.

(** ** More on the parser filter preset *)

Lemma lower_ascii_idempotent (c : ascii) :
  lower_ascii (lower_ascii c) = lower_ascii c.
Proof.
  destruct c as [[] [] [] [] [] [] [] []]; reflexivity.
Qed.

Lemma lower_idempotent (s : string) : lower (lower s) = lower s.
Proof.
  induction s as [|c s IH]; [done|]. simpl. by rewrite lower_ascii_idempotent, IH.
Qed.

Lemma lower_empty (s : string) : lower s = "" <-> s = "".
Proof. by destruct s. Qed.

Lemma truthy_lower (v v' : string) :
  lower v = lower v' -> truthy (Some v) = truthy (Some v').
Proof. destruct v, v'; simpl; congruence. Qed.

(** X16: the preset is one of winxp, win7, linux and macosx, or none. *)
Theorem preset_is_one_of_four (os_guess os_version : pystr) :
  _GetParserFilterPreset os_guess os_version
    ∈ [None; Some "winxp"; Some "win7"; Some "linux"; Some "macosx"].
Proof.
  destruct (str_in "windows" (lower (default "" os_version))) eqn:Hw.
  - rewrite (preset_of_windows_version _ _ Hw). cbv zeta.
    destruct (_ || _); set_solver.
  - rewrite (preset_of_guess_only _ _ Hw).
    repeat (match goal with |- context [if ?b then _ else _] => destruct b end);
      set_solver.
Qed.

(** X17: a version that names Windows decides alone: the guess is not
    looked at, so a Linux guess with a Windows version gives a Windows
    preset. *)
Theorem windows_version_overrides_guess (os_guess os_guess' os_version : pystr) :
  substring_of "windows" (lower (default "" os_version)) ->
  _GetParserFilterPreset os_guess os_version =
    _GetParserFilterPreset os_guess' os_version /\
  _GetParserFilterPreset os_guess os_version
    ∈ [Some "winxp"; Some "win7"].
Proof.
  intros Hw%str_in_substring.
  rewrite !(preset_of_windows_version _ _ Hw). cbv zeta.
  split; [done|]. destruct (_ || _); set_solver.
Qed.

(** X18: the version is compared without regard to case: two versions with
    the same lower case form give the same preset. *)
Theorem preset_ignores_case_of_version (os_guess : pystr) (v v' : string) :
  lower v = lower v' ->
  _GetParserFilterPreset os_guess (Some v) =
    _GetParserFilterPreset os_guess (Some v').
Proof.
  intros Hlower. unfold _GetParserFilterPreset.
  change (default "" (Some v)) with v. change (default "" (Some v')) with v'.
  by rewrite (truthy_lower v v' Hlower), Hlower.
Qed.

(** X19: an absent value and an empty string are the same to the resolver,
    for the guess and for the version; with neither there is no preset. *)
Theorem preset_of_absent_facts (os_guess os_version : pystr) :
  _GetParserFilterPreset None os_version =
    _GetParserFilterPreset (Some "") os_version /\
  _GetParserFilterPreset os_guess None =
    _GetParserFilterPreset os_guess (Some "") /\
  (truthy os_guess = false -> truthy os_version = false ->
   _GetParserFilterPreset os_guess os_version = None).
Proof.
  split; [|split].
  - unfold _GetParserFilterPreset. cbv zeta. cbn [truthy].
    by rewrite !andb_false_r.
  - reflexivity.
  - intros Hg Hv. unfold _GetParserFilterPreset. by rewrite Hg, Hv.
Qed.

(** ** More on the validation of the storage file *)

(** X20: the two failures of the validation are told apart by their message
    and tested in a fixed order: a path that exists and is not a regular
    file fails with the message about the file, write access is not looked
    at and nothing is logged; an existing regular file in a directory that
    is not writable is first announced as being appended to and then
    refused with the message about writing. *)
Theorem storage_check_order `{Handles} (W : World)
    (storage_file_path : string) (self : ExtractionFrontend) :
  os_path_exists W storage_file_path = true ->
  let checked := _CheckStorageFile W (Some storage_file_path) self in
  (os_path_isfile W storage_file_path = false ->
   checked =
     MkRun (Raised (BadConfigOption
              ("Storage file: " ++ storage_file_path ++
               " already exists and is not a file."))) self []) /\
  (os_path_isfile W storage_file_path = true ->
   os_access_W_OK W (storage_directory W storage_file_path) = false ->
   checked =
     MkRun (Raised (BadConfigOption
              ("Unable to write to storage file: " ++ storage_file_path)))
           self [Log WARNING "Appending to an already existing storage file."]).
Proof.
  intros Hexists checked. subst checked.
  rewrite CheckStorageFile_cases, Hexists.
  split.
  - by intros ->.
  - by intros -> ->.
Qed.

(** X21: the validation of a path succeeds exactly when the path is not
    there or is a regular file, and the directory of the path, or the
    current directory when the path has no directory part, is writable; in
    every case it leaves the front end as it was. *)
Theorem storage_check_succeeds_iff `{Handles} (W : World)
    (storage_file_path : string) (self : ExtractionFrontend) :
  let checked := _CheckStorageFile W (Some storage_file_path) self in
  let dirname := os_path_dirname W storage_file_path in
  (result checked = Returned tt <->
   (os_path_exists W storage_file_path = true ->
    os_path_isfile W storage_file_path = true) /\
   os_access_W_OK W (if decide (dirname = "") then "." else dirname) = true) /\
  self_after checked = self.
Proof.
  intros checked dirname. subst checked.
  split; [|apply CheckStorageFile_self].
  rewrite CheckStorageFile_cases. unfold storage_directory. fold dirname.
  replace (if negb (truthy (Some dirname)) then "." else dirname)
    with (if decide (dirname = "") then "." else dirname)
    by (by destruct dirname).
  destruct (os_path_exists W storage_file_path),
    (os_path_isfile W storage_file_path),
    (os_access_W_OK W _); simpl; split; try done;
    try (by intros [? ?]); try (by intros [Hfile ?]; discriminate Hfile).
Qed.

(** ** The presets information *)

(** [separator.join(names)] of Python. *)
Fixpoint join (separator : string) (names : list string) : string :=
  match names with
  | [] => ""
  | name :: names =>
      match names with
      | [] => name
      | _ :: _ => name ++ separator ++ join separator names
      end
  end.

(** The order [sorted] puts the items of a dict in: the keys of a dict are
    distinct, so two items compare as their names do. *)
Definition item_le (x y : string * list string) : Prop := String.le x.1 y.1.

#[local] Instance item_le_dec : RelDecision item_le.
Proof. intros x y. unfold item_le. apply _. Defined.

(** [GetParserPresetsInformation], for the presets [parsers_presets.CATEGORIES]
    of the installation. *)
Definition GetParserPresetsInformation
    (CATEGORIES : gmap string (list string)) : list (string * string) :=
  (fun item => (item.1, join ", " item.2))
    <$> merge_sort item_le (map_to_list CATEGORIES).

#[local] Instance item_le_transitive : Transitive item_le.
Proof. intros x y z. unfold item_le. apply transitivity. Qed.

#[local] Instance item_le_total : Total item_le.
Proof. intros x y. unfold item_le. apply total, _. Qed.

Lemma sorted_items_permutation (CATEGORIES : gmap string (list string)) :
  merge_sort item_le (map_to_list CATEGORIES) ≡ₚ map_to_list CATEGORIES.
Proof. apply merge_sort_Permutation. Qed.

Lemma presets_information_names (CATEGORIES : gmap string (list string)) :
  (GetParserPresetsInformation CATEGORIES).*1
    = (merge_sort item_le (map_to_list CATEGORIES)).*1.
Proof.
  unfold GetParserPresetsInformation. rewrite <- list_fmap_compose.
  by apply list_fmap_ext.
Qed.

Lemma strictly_sorted_names (l : list (string * list string)) :
  StronglySorted item_le l -> NoDup l.*1 ->
  StronglySorted (strict String.le) l.*1.
Proof.
  induction 1 as [|x l Hl IH Hx]; [constructor|].
  rewrite fmap_cons, NoDup_cons. intros [Hnotin Hnodup].
  constructor; [by apply IH|].
  apply Forall_fmap, Forall_forall. intros y Hy.
  rewrite Forall_forall in Hx. specialize (Hx y Hy).
  split; [exact Hx|]. intros Hyx. apply Hnotin.
  assert (x.1 = y.1) as -> by (by apply (anti_symm String.le)).
  by apply list_elem_of_fmap_2.
Qed.

(** X22: the presets are listed by name in strictly ascending order, so no
    name is listed twice. *)
Theorem presets_information_is_sorted (CATEGORIES : gmap string (list string)) :
  StronglySorted (strict String.le) (GetParserPresetsInformation CATEGORIES).*1.
Proof.
  rewrite presets_information_names.
  apply strictly_sorted_names.
  - apply StronglySorted_merge_sort; apply _.
  - rewrite sorted_items_permutation. apply NoDup_fst_map_to_list.
Qed.

(** X23: the list has one entry for every preset and no other: a name is
    listed with a text exactly when it is a preset and the text is the names
    of its parsers joined by a comma and a space. *)
Theorem presets_information_entries (CATEGORIES : gmap string (list string))
    (preset_name parsers : string) :
  ((preset_name, parsers) ∈ GetParserPresetsInformation CATEGORIES <->
   exists parser_names,
     CATEGORIES !! preset_name = Some parser_names /\
     parsers = join ", " parser_names) /\
  length (GetParserPresetsInformation CATEGORIES) = size CATEGORIES.
Proof.
  unfold GetParserPresetsInformation. split.
  - rewrite list_elem_of_fmap. split.
    + intros [[n ps] [Heq Hin]]. simpl in Heq. injection Heq as -> ->.
      rewrite sorted_items_permutation in Hin.
      apply elem_of_map_to_list in Hin. by exists ps.
    + intros (ps & Hlookup & ->). exists (preset_name, ps). split; [done|].
      rewrite sorted_items_permutation. by apply elem_of_map_to_list.
  - rewrite length_fmap, sorted_items_permutation.
    apply length_map_to_list.
Qed.

(** ** Scenarios for the further properties *)

Section MoreScenarios.
#[local] Existing Instance scenario_handles.

Ltac listed :=
  vm_compute;
  repeat first [apply list_elem_of_here | apply list_elem_of_further].

Lemma dispatch_ends_the_run_witness :
  let run := ProcessSources directory_world directory_args scenario_frontend in
  last (trace run)
    = Some (MultiProcessSourcesCall directory_engine directory_dispatch) /\
  result run
    = multi_ProcessSources directory_world directory_engine directory_dispatch.
Proof.
  apply (proj2 (dispatch_ends_the_run directory_world directory_args
                  scenario_frontend) directory_engine directory_dispatch).
  listed.
Defined.

Lemma bookkeeping_of_a_run_witness :
  let run := ProcessSources directory_world directory_args scenario_frontend in
  _parser_names (self_after run)
    = Some ["lnk"; "prefetch"; "winevt"; "winreg"] /\
  _hasher_names (self_after run) = ["sha256"] /\
  _engine (self_after run) = Some directory_engine.
Proof.
  destruct (bookkeeping_of_a_run directory_world directory_args
              scenario_frontend (StorageWriterCall directory_writer))
    as (parsers & hasher_names & Hparsers & Hhashers & Hp & Hh & He).
  - listed.
  - simpl. lia.
  - injection Hparsers as <-. injection Hhashers as <-.
    split; [exact Hp|]. split; [exact Hh|exact He].
Defined.

Lemma run_after_run_witness :
  let first := ProcessSources mars_world paris_args scenario_frontend in
  result (ProcessSources directory_world directory_args (self_after first))
    = result (ProcessSources directory_world directory_args scenario_frontend) /\
  trace (ProcessSources directory_world directory_args (self_after first))
    = trace (ProcessSources directory_world directory_args scenario_frontend).
Proof.
  apply (proj1 (run_after_run directory_world directory_args
                  scenario_frontend)).
  vm_compute. repeat split.
Defined.

(** The parsers manager does not know the parsers asked for. *)
Definition no_parsers_world : World :=
  {| os_path_exists := os_path_exists directory_world;
     os_path_isfile := os_path_isfile directory_world;
     os_path_dirname := os_path_dirname directory_world;
     os_access_W_OK := os_access_W_OK directory_world;
     new_knowledge_base := new_knowledge_base directory_world;
     engine_PreprocessSources := engine_PreprocessSources directory_world;
     time_zone_supported := time_zone_supported directory_world;
     GetParserAndPluginNames := GetParserAndPluginNames directory_world;
     GetParsers := fun _ => Raised (ValueError "unknown parser");
     GetHasherNamesFromString := GetHasherNamesFromString directory_world;
     BuildFindSpecsFromFile := BuildFindSpecsFromFile directory_world;
     new_session_identifier := new_session_identifier directory_world;
     single_ProcessSources := single_ProcessSources directory_world;
     multi_ProcessSources := multi_ProcessSources directory_world |}.

Lemma names_are_reset_before_lookup_witness :
  let run := ProcessSources no_parsers_world directory_args scenario_frontend in
  result run = Raised (ValueError "unknown parser") /\
  _parser_names (self_after run) = Some [] /\
  _hasher_names (self_after run) = _hasher_names scenario_frontend /\
  forall ev, ev ∈ trace run -> stage ev <= 2.
Proof.
  refine (proj1 (names_are_reset_before_lookup no_parsers_world directory_args
                   scenario_frontend (ValueError "unknown parser") _ _) _);
    vm_compute; reflexivity.
Defined.

(** The hashers manager does not know the hashers asked for. *)
Definition no_hashers_world : World :=
  {| os_path_exists := os_path_exists directory_world;
     os_path_isfile := os_path_isfile directory_world;
     os_path_dirname := os_path_dirname directory_world;
     os_access_W_OK := os_access_W_OK directory_world;
     new_knowledge_base := new_knowledge_base directory_world;
     engine_PreprocessSources := engine_PreprocessSources directory_world;
     time_zone_supported := time_zone_supported directory_world;
     GetParserAndPluginNames := GetParserAndPluginNames directory_world;
     GetParsers := GetParsers directory_world;
     GetHasherNamesFromString := fun _ => Raised (ValueError "unknown hasher");
     BuildFindSpecsFromFile := BuildFindSpecsFromFile directory_world;
     new_session_identifier := new_session_identifier directory_world;
     single_ProcessSources := single_ProcessSources directory_world;
     multi_ProcessSources := multi_ProcessSources directory_world |}.

Lemma no_dispatch_after_failed_lookup_witness :
  Forall (fun ev => stage ev <= 3)
    (trace (ProcessSources no_hashers_world directory_args scenario_frontend)).
Proof.
  apply Forall_forall.
  apply (no_dispatch_after_failed_lookup no_hashers_world directory_args
           scenario_frontend (ValueError "unknown hasher")).
  right. left. reflexivity.
Defined.

(** Preprocessing is interrupted by an error that is no [IOError]. *)
Definition interrupted_world : World :=
  scenario_world false false true
    (Raised (OtherError "BackEndError" "unable to read volume"),
     unreadable_knowledge_base).

Lemma other_preprocessing_errors_pass_witness :
  let run := ProcessSources interrupted_world directory_args scenario_frontend in
  let e0 := new_engine interrupted_world false scenario_frontend in
  result run = Raised (OtherError "BackEndError" "unable to read volume") /\
  trace run =
    [CreateEngineCall e0;
     Log DEBUG "Starting preprocessing.";
     PreprocessSourcesCall ["/evidence"]] /\
  _engine (self_after run)
    = Some (engine_with_knowledge_base unreadable_knowledge_base e0).
Proof.
  apply (other_preprocessing_errors_pass interrupted_world directory_args
           scenario_frontend
           (OtherError "BackEndError" "unable to read volume")
           unreadable_knowledge_base);
    vm_compute; reflexivity.
Defined.

(** A run with a filter file. *)
Definition filter_world : World :=
  {| os_path_exists := os_path_exists directory_world;
     os_path_isfile := os_path_isfile directory_world;
     os_path_dirname := os_path_dirname directory_world;
     os_access_W_OK := os_access_W_OK directory_world;
     new_knowledge_base := new_knowledge_base directory_world;
     engine_PreprocessSources := engine_PreprocessSources directory_world;
     time_zone_supported := time_zone_supported directory_world;
     GetParserAndPluginNames := GetParserAndPluginNames directory_world;
     GetParsers := GetParsers directory_world;
     GetHasherNamesFromString := GetHasherNamesFromString directory_world;
     BuildFindSpecsFromFile := fun filter_file path_attributes =>
       match path_attributes !! "systemroot" with
       | Some systemroot => Returned [systemroot ++ "\System32\config"]
       | None => Raised (IOError filter_file)
       end;
     new_session_identifier := new_session_identifier directory_world;
     single_ProcessSources := single_ProcessSources directory_world;
     multi_ProcessSources := multi_ProcessSources directory_world |}.

Definition filter_args : Args.t :=
  {| Args.source_path_specs := ["/evidence"];
     Args.source_type := SOURCE_TYPE_DIRECTORY;
     Args.command_line_arguments := Some "log2timeline.py out.plaso /evidence";
     Args.enable_sigsegv_handler := false;
     Args.filter_file := Some "filter.txt";
     Args.force_preprocessing := false;
     Args.hasher_names_string := Some "sha256";
     Args.number_of_extraction_workers := 0;
     Args.parser_filter_expression := None;
     Args.preferred_encoding := Some "utf-8";
     Args.preferred_year := None;
     Args.process_archive_files := false;
     Args.single_process_mode := false;
     Args.status_update_callback := None;
     Args.temporary_directory := None;
     Args.timezone := Some "UTC" |}.

Definition filter_writer : ZIPStorageFileWriter :=
  {| writer_session :=
       {| identifier := "f3a1c0de";
          command_line_arguments := Some "log2timeline.py out.plaso /evidence";
          enabled_parser_names := ["lnk"; "prefetch"; "winevt"; "winreg"];
          filter_expression := None;
          filter_file := Some "filter.txt";
          debug_mode := false;
          parser_filter_expression := Some "winxp";
          preferred_encoding := Some "utf-8";
          preferred_year := None |};
     writer_path := Some "/cases/out.plaso" |}.

Definition filter_dispatch : multi_process_engine.ProcessSources :=
  {| multi_process_engine.session_identifier := "f3a1c0de";
     multi_process_engine.source_path_specs := ["/evidence"];
     multi_process_engine.storage_writer := filter_writer;
     multi_process_engine.enable_sigsegv_handler := false;
     multi_process_engine.filter_find_specs :=
       Some ["C:\Windows\System32\config"];
     multi_process_engine.filter_object := None;
     multi_process_engine.hasher_names_string := Some "sha256";
     multi_process_engine.mount_path := None;
     multi_process_engine.number_of_worker_processes := 0;
     multi_process_engine.parser_filter_expression := Some "winxp";
     multi_process_engine.preferred_year := None;
     multi_process_engine.process_archive_files := false;
     multi_process_engine.status_update_callback := None;
     multi_process_engine.show_memory_usage := false;
     multi_process_engine.temporary_directory := None;
     multi_process_engine.text_prepend := None |}.

Lemma find_specs_for_filter_file_witness :
  exists found,
    BuildFindSpecsFromFile filter_world "filter.txt"
      (GetPathAttributes (knowledge_base directory_engine)) = Returned found /\
    multi_process_engine.filter_find_specs filter_dispatch = Some found.
Proof.
  apply (proj2 (proj2 (find_specs_for_filter_file filter_world filter_args
                         scenario_frontend)
                  directory_engine filter_dispatch ltac:(listed))).
  reflexivity.
Defined.

Lemma arguments_are_passed_on_witness :
  multi_process_engine.source_path_specs directory_dispatch = ["/evidence"] /\
  multi_process_engine.number_of_worker_processes directory_dispatch = 0%Z /\
  multi_process_engine.session_identifier directory_dispatch
    = identifier (writer_session directory_writer).
Proof.
  destruct (proj2 (arguments_are_passed_on directory_world directory_args
                     scenario_frontend)
              directory_engine directory_dispatch ltac:(listed))
    as (Hspecs & _ & _ & _ & _ & _ & _ & _ & _ & _ & Hid & Hworkers & _).
  split; [exact Hspecs|]. split; [exact Hworkers|exact Hid].
Defined.

Lemma session_records_the_request_witness :
  command_line_arguments (writer_session directory_writer)
    = Some "log2timeline.py out.plaso /evidence" /\
  filter_file (writer_session directory_writer) = None /\
  preferred_encoding (writer_session directory_writer) = Some "utf-8" /\
  preferred_year (writer_session directory_writer) = None /\
  debug_mode (writer_session directory_writer) = false /\
  identifier (writer_session directory_writer) = "f3a1c0de" /\
  writer_path directory_writer = Some "/cases/out.plaso".
Proof.
  apply (session_records_the_request directory_world directory_args
           scenario_frontend directory_writer).
  listed.
Defined.

Lemma engine_carries_the_settings_witness :
  use_zeromq directory_engine = Some (_use_zeromq scenario_frontend) /\
  engine_cls directory_engine = MultiProcessEngine.
Proof.
  destruct (proj2 (proj2 (engine_carries_the_settings directory_world
                            directory_args scenario_frontend))
              directory_engine directory_dispatch ltac:(listed))
    as ((_ & _ & _ & _ & _ & _ & Hzeromq) & Hcls).
  split; [exact (Hzeromq Hcls)|exact Hcls].
Defined.

Lemma profiling_of_later_engines_witness :
  let enabled :=
    self_after (EnableProfiling (Some "/cases/profiles") 500%Z "memory"
                  scenario_frontend) in
  let engine :=
    new_engine directory_world false (self_after (DisableProfiling enabled)) in
  enable_profiling engine = false /\
  profiling_directory engine = Some "/cases/profiles" /\
  profiling_sample_rate engine = 500%Z /\
  profiling_type engine = "memory" /\
  debug_output engine = false.
Proof.
  apply (proj2 (profiling_of_later_engines directory_world directory_args
                  scenario_frontend (Some "/cases/profiles") 500%Z "memory")).
  listed.
Defined.

Lemma knowledge_base_of_the_dispatched_engine_witness :
  kb_zone (knowledge_base directory_engine) = "Europe/Amsterdam".
Proof.
  destruct (proj2 (knowledge_base_of_the_dispatched_engine directory_world
                     directory_args scenario_frontend)
              directory_engine directory_dispatch ltac:(listed))
    as (_ & _ & _ & Hzone).
  apply Hzone. reflexivity.
Defined.

Lemma no_filter_object_nor_mount_path_witness :
  multi_process_engine.filter_object directory_dispatch = None /\
  multi_process_engine.mount_path directory_dispatch = None.
Proof.
  apply (proj2 (no_filter_object_nor_mount_path directory_world directory_args
                  scenario_frontend (reachable_perform _ _ reachable_init))
           directory_engine directory_dispatch).
  listed.
Defined.

Lemma windows_version_overrides_guess_witness :
  _GetParserFilterPreset (Some OS_LINUX) (Some "Windows 7 Ultimate")
    = _GetParserFilterPreset None (Some "Windows 7 Ultimate") /\
  _GetParserFilterPreset (Some OS_LINUX) (Some "Windows 7 Ultimate")
    ∈ [Some "winxp"; Some "win7"].
Proof.
  apply (windows_version_overrides_guess (Some OS_LINUX) None
           (Some "Windows 7 Ultimate")).
  apply str_in_substring. reflexivity.
Defined.

Lemma preset_ignores_case_of_version_witness :
  _GetParserFilterPreset (Some OS_LINUX) (Some "WINDOWS XP")
    = _GetParserFilterPreset (Some OS_LINUX) (Some "Windows xp").
Proof.
  apply (preset_ignores_case_of_version (Some OS_LINUX) "WINDOWS XP"
           "Windows xp").
  reflexivity.
Defined.

Lemma preset_of_absent_facts_witness :
  _GetParserFilterPreset None (Some "") = None.
Proof.
  apply (proj2 (proj2 (preset_of_absent_facts None (Some "")))); reflexivity.
Defined.

Lemma storage_check_order_witness :
  _CheckStorageFile occupied_world (Some "/cases/out.plaso") scenario_frontend
    = MkRun (Raised (BadConfigOption
               "Storage file: /cases/out.plaso already exists and is not a file."))
            scenario_frontend [].
Proof.
  apply (proj1 (storage_check_order occupied_world "/cases/out.plaso"
                  scenario_frontend eq_refl)).
  reflexivity.
Defined.

(** The storage file is there, in a directory that is not writable. *)
Definition read_only_world : World :=
  scenario_world true true false (Returned tt, empty_knowledge_base).

Lemma storage_check_succeeds_iff_witness :
  result (_CheckStorageFile directory_world (Some "/cases/out.plaso")
            scenario_frontend) = Returned tt /\
  result (_CheckStorageFile read_only_world (Some "/cases/out.plaso")
            scenario_frontend) <> Returned tt.
Proof.
  split.
  - apply (proj1 (storage_check_succeeds_iff directory_world
                    "/cases/out.plaso" scenario_frontend)).
    split; [discriminate|reflexivity].
  - intros Hok.
    apply (proj1 (storage_check_succeeds_iff read_only_world
                    "/cases/out.plaso" scenario_frontend)) in Hok.
    destruct Hok as [_ Hwritable]. discriminate Hwritable.
Defined.

End MoreScenarios.
